(** * Personal finance tracker (main.py): a shallow embedding and its properties

    The program is a command-line application over an SQLite file.  The
    embedding keeps the shape of the source:

    - the three tables of [create_database] are lists of row records, with the
      schema's constraints (UNIQUE, CHECK, AUTOINCREMENT) written out in the
      functions that model INSERT / UPDATE / DELETE;
    - every function of main.py that talks to the user is a computation over
      an explicit state holding the pending standard input, the lines printed
      so far, the database file, the connection's uncommitted image of it and
      the backup files;
    - Python exceptions are values of [exn]; [try ... except] is [try_except].

    Conventions of the model:
    - strings are byte strings; the helpers that depend on the character set
      ([capitalize], [strip], [lower], LIKE, [\d]) are written for ASCII and
      leave other bytes alone;
    - amounts are exact rationals ([Q]) instead of binary floating point: the
      rounding of [float] arithmetic and the values [inf] / [nan] are outside
      the model.  Python's [float(...)] parser is a section variable, so every
      statement holds for any reading of the amount typed by the user.  The
      sums of the model are exact and cannot fail, where SQLite's SUM rounds
      floating-point values and raises on 64-bit overflow: a statement that
      tells the value of a sum is made for the amounts that SQLite adds
      exactly ([exact_amounts]);
    - the integers of the model are unbounded, as Python's are; SQLite binds
      64-bit integers only, and a statement run with an integer typed by the
      user raises [OverflowError] when the integer does not fit
      ([bind_integer]).  The keys of the model's tables are unbounded too,
      where a key stored by SQLite is a 64-bit integer: a statement about the
      stored row that a typed key selects is made for the databases whose
      keys fit ([ids_fit]);
    - the key derivation function of [hashlib] is a section variable as well;
    - the clock ([date('now')], [datetime.now()]) and [os.urandom] are explicit
      arguments of the operations that read them;
    - [logging] writes to a separate log file which nothing reads back; it is
      left out. *)

From Stdlib Require Import String Ascii List ZArith QArith Bool Arith Lia.
From Stdlib Require Import Sorted Permutation Qabs.
From Stdlib Require OrderedTypeEx.
Import ListNotations.

Local Close Scope Q_scope.
Local Open Scope list_scope.
Local Open Scope string_scope.
Local Open Scope nat_scope.

(** ** Python string helpers *)

Module PyStr.

(** [str.isspace] on the ASCII range: TAB, LF, VT, FF, CR, FS, GS, RS, US and
    the blank. *)
Definition is_space (c : ascii) : bool :=
  let n := nat_of_ascii c in
  ((9 <=? n) && (n <=? 13)) || ((28 <=? n) && (n <=? 32)).

Definition is_digit (c : ascii) : bool :=
  let n := nat_of_ascii c in (48 <=? n) && (n <=? 57).

Definition digit_value (c : ascii) : nat := nat_of_ascii c - 48.

Definition is_upper (c : ascii) : bool :=
  let n := nat_of_ascii c in (65 <=? n) && (n <=? 90).

Definition is_lower (c : ascii) : bool :=
  let n := nat_of_ascii c in (97 <=? n) && (n <=? 122).

Definition to_lower (c : ascii) : ascii :=
  if is_upper c then ascii_of_nat (nat_of_ascii c + 32) else c.

Definition to_upper (c : ascii) : ascii :=
  if is_lower c then ascii_of_nat (nat_of_ascii c - 32) else c.

Fixpoint map_string (f : ascii -> ascii) (s : string) : string :=
  match s with
  | EmptyString => EmptyString
  | String c s' => String (f c) (map_string f s')
  end.

(** [str.lower] *)
Definition lower (s : string) : string := map_string to_lower s.

(** [str.capitalize]: first character upper-cased, the rest lower-cased. *)
Definition capitalize (s : string) : string :=
  match s with
  | EmptyString => EmptyString
  | String c s' => String (to_upper c) (lower s')
  end.

Fixpoint lstrip (s : string) : string :=
  match s with
  | EmptyString => EmptyString
  | String c s' => if is_space c then lstrip s' else s
  end.

Fixpoint rev_append (s acc : string) : string :=
  match s with
  | EmptyString => acc
  | String c s' => rev_append s' (String c acc)
  end.

Definition rev (s : string) : string := rev_append s EmptyString.

Definition rstrip (s : string) : string := rev (lstrip (rev s)).

(** [str.strip] with no argument. *)
Definition strip (s : string) : string := rstrip (lstrip s).

(** Python truthiness of a string: [not s] is true exactly for the empty
    string. *)
Definition is_empty (s : string) : bool :=
  match s with EmptyString => true | _ => false end.

(** [str.split(sep)] for a one-character separator: the list of the maximal
    pieces between separators; always non-empty. *)
Fixpoint split (sep : ascii) (s : string) : list string :=
  match s with
  | EmptyString => [EmptyString]
  | String c s' =>
      if Ascii.eqb c sep then EmptyString :: split sep s'
      else match split sep s' with
           | [] => [String c EmptyString]
           | piece :: pieces => String c piece :: pieces
           end
  end.

Fixpoint all_chars (p : ascii -> bool) (s : string) : bool :=
  match s with
  | EmptyString => true
  | String c s' => p c && all_chars p s'
  end.

(** Digits of an integer literal, underscores allowed between digits.
    [acc] is the value read so far, [prev_digit] tells whether the previous
    character was a digit (an underscore must sit between two digits). *)
Fixpoint int_digits (s : string) (acc : Z) (prev_digit : bool) : option Z :=
  match s with
  | EmptyString => if prev_digit then Some acc else None
  | String c s' =>
      if is_digit c then
        int_digits s' (10 * acc + Z.of_nat (digit_value c))%Z true
      else if Ascii.eqb c "_"%char then
        if prev_digit then
          match s' with
          | EmptyString => None
          | String c' _ => if is_digit c' then int_digits s' acc false else None
          end
        else None
      else None
  end.

(** The white space [int] skips at both ends of ASCII text: what C's
    [isspace] takes for white space (TAB, LF, VT, FF, CR and the blank), which
    leaves out FS, GS, RS and US, unlike [str.strip]. *)
Definition is_c_space (c : ascii) : bool :=
  let n := nat_of_ascii c in ((9 <=? n) && (n <=? 13)) || (n =? 32).

Fixpoint skip_c_space (s : string) : string :=
  match s with
  | EmptyString => EmptyString
  | String c s' => if is_c_space c then skip_c_space s' else s
  end.

(** [int(s)] in base ten: surrounding white space, an optional sign, digits.
    [None] stands for [ValueError]. *)
Definition int_of_string (s : string) : option Z :=
  match rev (skip_c_space (rev (skip_c_space s))) with
  | String "-"%char s' => option_map Z.opp (int_digits s' 0%Z false)
  | String "+"%char s' => int_digits s' 0%Z false
  | s' => int_digits s' 0%Z false
  end.

(** Two decimal digits, zero padded. *)
Definition digit_char (n : nat) : ascii := ascii_of_nat (48 + n mod 10).

Definition pad2 (n : nat) : string :=
  String (digit_char (n / 10)) (String (digit_char n) EmptyString).

Definition pad4 (n : nat) : string :=
  String (digit_char (n / 1000)) (String (digit_char (n / 100))
    (String (digit_char (n / 10)) (String (digit_char n) EmptyString))).

End PyStr.

(** ** [datetime.strptime(s, '%Y-%m-%d')]

    [_strptime] turns the format into the regular expression
    [(\d\d\d\d)-(1[0-2]|0[1-9]|[1-9])-(3[01]|[12]\d|0[1-9]|[1-9]| [1-9])],
    matches it at the start of the input (alternatives in priority order),
    rejects left-over input, and builds the date, which rejects year 0 and
    days past the end of the month. *)

Module Strptime.
Import PyStr.

Definition in_range (lo hi : nat) (c : ascii) : bool :=
  let n := nat_of_ascii c in (lo <=? n) && (n <=? hi).

(** [%Y]: exactly four digits. *)
Definition match_year (s : string) : option (nat * string) :=
  match s with
  | String a (String b (String c (String d rest))) =>
      if is_digit a && is_digit b && is_digit c && is_digit d then
        Some (1000 * digit_value a + 100 * digit_value b
              + 10 * digit_value c + digit_value d, rest)
      else None
  | _ => None
  end.

Definition match_dash (s : string) : option string :=
  match s with
  | String "-"%char rest => Some rest
  | _ => None
  end.

(** [%m] followed by the literal dash: the first alternative after which the
    dash matches. *)
Definition match_month_dash (s : string) : option (nat * string) :=
  let two :=
    match s with
    | String a (String b rest) =>
        if (Ascii.eqb a "1"%char && in_range 48 50 b)
           || (Ascii.eqb a "0"%char && in_range 49 57 b)
        then option_map (fun r => (10 * digit_value a + digit_value b, r))
                        (match_dash rest)
        else None
    | _ => None
    end in
  match two with
  | Some r => Some r
  | None =>
      match s with
      | String a rest =>
          if in_range 49 57 a
          then option_map (fun r => (digit_value a, r)) (match_dash rest)
          else None
      | _ => None
      end
  end.

(** [%d], last group of the expression: the first alternative that matches
    decides. *)
Definition match_day (s : string) : option (nat * string) :=
  let two :=
    match s with
    | String a (String b rest) =>
        if (Ascii.eqb a "3"%char && in_range 48 49 b)
           || (in_range 49 50 a && is_digit b)
           || (Ascii.eqb a "0"%char && in_range 49 57 b)
        then Some (10 * digit_value a + digit_value b, rest)
        else None
    | _ => None
    end in
  match two with
  | Some r => Some r
  | None =>
      match s with
      | String a rest =>
          if in_range 49 57 a then Some (digit_value a, rest)
          else
            match rest with
            | String b rest' =>
                if Ascii.eqb a " "%char && in_range 49 57 b
                then Some (digit_value b, rest')
                else None
            | EmptyString => None
            end
      | EmptyString => None
      end
  end.

Definition is_leap (y : nat) : bool :=
  ((y mod 4 =? 0) && negb (y mod 100 =? 0)) || (y mod 400 =? 0).

Definition days_in_month (y m : nat) : nat :=
  match m with
  | 2 => if is_leap y then 29 else 28
  | 4 | 6 | 9 | 11 => 30
  | _ => 31
  end.

(** The parsed (year, month, day), or [None] for [ValueError]. *)
Definition strptime (s : string) : option (nat * nat * nat) :=
  match match_year s with
  | None => None
  | Some (y, s1) =>
      match match_dash s1 with
      | None => None
      | Some s2 =>
          match match_month_dash s2 with
          | None => None
          | Some (m, s3) =>
              match match_day s3 with
              | None => None
              | Some (d, rest) =>
                  if is_empty rest && (1 <=? y) && (d <=? days_in_month y m)
                  then Some (y, m, d) else None
              end
          end
      end
  end.

End Strptime.

(** main.py, [validate_date] *)
Definition validate_date (date_str : string) : bool :=
  match Strptime.strptime date_str with
  | Some _ => true
  | None => false
  end.

(** ** SQLite pieces used by the queries *)

Module Sql.
Import PyStr.

(** The LIKE operator of SQLite: [%] matches any run of characters, [_] any
    single one, every other character matches itself without regard to ASCII
    case.  No escape character is in force. *)
Fixpoint like (pattern : string) : string -> bool :=
  match pattern with
  | EmptyString => fun s => is_empty s
  | String c pattern' =>
      if Ascii.eqb c "%"%char then
        fix star (s : string) : bool :=
          like pattern' s
          || match s with
             | EmptyString => false
             | String _ s' => star s'
             end
      else if Ascii.eqb c "_"%char then
        fun s => match s with
                 | EmptyString => false
                 | String _ s' => like pattern' s'
                 end
      else
        fun s => match s with
                 | EmptyString => false
                 | String d s' =>
                     Ascii.eqb (to_lower c) (to_lower d) && like pattern' s'
                 end
  end.

(** The distinct values of a list, in order of first appearance: the keys of
    a GROUP BY.  (SQL leaves the order of the groups open; no statement below
    depends on it.) *)
Fixpoint distinct {K : Type} (same : K -> K -> bool) (keys : list K) : list K :=
  match keys with
  | [] => []
  | k :: rest => k :: filter (fun k' => negb (same k k')) (distinct same rest)
  end.

(** Sum of a list of amounts, as Python's [sum] and the running total of
    SQL's SUM compute it: from zero, left to right. *)
Definition total (amounts : list Q) : Q := fold_left Qplus amounts 0%Q.

(** SQL's SUM aggregate over the non-NULL values of a group: NULL when there
    is none. *)
Definition sum_agg (values : list (option Q)) : option Q :=
  match flat_map (fun v => match v with Some q => [q] | None => [] end) values with
  | [] => None
  | qs => Some (total qs)
  end.

(** COALESCE(x, d). *)
Definition coalesce (x : option Q) (d : Q) : Q :=
  match x with Some q => q | None => d end.

(** ORDER BY as a stable insertion sort: [goes_first y x] tells that [y] must
    come strictly before [x]; rows that tie keep their order.  (SQL leaves
    the order of ties open.) *)
Fixpoint insert_sorted {A : Type} (goes_first : A -> A -> bool) (x : A) (l : list A) : list A :=
  match l with
  | [] => [x]
  | y :: l' => if goes_first y x then y :: insert_sorted goes_first x l' else x :: l
  end.

Definition order_by {A : Type} (goes_first : A -> A -> bool) (l : list A) : list A :=
  fold_right (insert_sorted goes_first) [] l.

End Sql.

Definition Qleb (a b : Q) : bool := Qle_bool a b.
Definition Qgtb (a b : Q) : bool := negb (Qle_bool a b).

(** ** The database of [create_database] *)

Record user_row := mk_user {
  u_id : Z;
  u_username : string;
  u_password : string
}.

Record transaction_row := mk_transaction {
  t_id : Z;
  t_user_id : Z;
  t_type : string;
  t_category : string;
  t_amount : Q;
  t_description : string;
  t_date : string
}.

Record budget_row := mk_budget {
  b_id : Z;
  b_user_id : Z;
  b_category : string;
  b_amount : Q
}.

(** The [created_at] columns are never read and are left out.  The three
    [seq_] fields are the rows of [sqlite_sequence] kept for the
    AUTOINCREMENT keys. *)
Record database := mk_database {
  users : list user_row;
  transactions : list transaction_row;
  budgets : list budget_row;
  seq_users : Z;
  seq_transactions : Z;
  seq_budgets : Z
}.

(** The file right after [create_database] ran on a fresh directory. *)
Definition empty_database : database :=
  mk_database [] [] [] 0 0 0.

Inductive exn :=
| EOFError
| ValueError
| IndexError
| ZeroDivisionError
| UnicodeEncodeError
| IntegrityError
| OperationalError
| OSError
| OverflowError.

(** The integers that [sqlite3] binds to a parameter of a statement: 64
    bits, signed. *)
Definition fits_int64 (z : Z) : bool :=
  ((- 2 ^ 63 <=? z) && (z <? 2 ^ 63))%Z.

(** [cursor.execute(sql, parameters)] binds the parameters before the
    statement runs: a Python [int] becomes an INTEGER of SQLite, and
    [sqlite3] raises [OverflowError] for one that does not fit. *)
Definition bind_integer (z : Z) : exn + Z :=
  if fits_int64 z then inr z else inl OverflowError.

Module Table.

(** AUTOINCREMENT: one more than the largest key ever used. *)
Definition next_id (seq : Z) (ids : list Z) : Z :=
  (fold_right Z.max seq ids + 1)%Z.

(** CHECK(type IN ('Income', 'Expense')) *)
Definition check_type (ty : string) : bool :=
  (ty =? "Income")%string || (ty =? "Expense")%string.

(** INSERT INTO users (username, password) VALUES (?, ?) *)
Definition insert_user (username password : string) (db : database)
  : exn + database :=
  if existsb (fun u => (u_username u =? username)%string) (users db)
  then inl IntegrityError
  else
    let id := next_id (seq_users db) (map u_id (users db)) in
    inr (mk_database (users db ++ [mk_user id username password])
                     (transactions db) (budgets db)
                     id (seq_transactions db) (seq_budgets db)).

(** INSERT INTO transactions (user_id, type, category, amount, description,
    date) VALUES (?, ?, ?, ?, ?, ?) *)
Definition insert_transaction (user_id : Z) (ty category : string) (amount : Q)
    (description date : string) (db : database) : exn + database :=
  if check_type ty then
    let id := next_id (seq_transactions db) (map t_id (transactions db)) in
    inr (mk_database (users db)
           (transactions db
            ++ [mk_transaction id user_id ty category amount description date])
           (budgets db)
           (seq_users db) id (seq_budgets db))
  else inl IntegrityError.

Definition owned (id user_id : Z) (t : transaction_row) : bool :=
  (t_id t =? id)%Z && (t_user_id t =? user_id)%Z.

(** SELECT * FROM transactions WHERE id = ? AND user_id = ?, [fetchone] *)
Definition select_transaction (id user_id : Z) (db : database)
  : option transaction_row :=
  find (owned id user_id) (transactions db).

(** UPDATE transactions SET type = ?, category = ?, amount = ?,
    description = ?, date = ? WHERE id = ? AND user_id = ? *)
Definition update_transaction (ty category : string) (amount : Q)
    (description date : string) (id user_id : Z) (db : database)
  : exn + database :=
  if existsb (owned id user_id) (transactions db) && negb (check_type ty)
  then inl IntegrityError
  else
    inr (mk_database (users db)
           (map (fun t =>
                   if owned id user_id t
                   then mk_transaction (t_id t) (t_user_id t) ty category
                                       amount description date
                   else t)
                (transactions db))
           (budgets db)
           (seq_users db) (seq_transactions db) (seq_budgets db)).

(** DELETE FROM transactions WHERE id = ? AND user_id = ?; the second
    component is [cursor.rowcount]. *)
Definition delete_transaction (id user_id : Z) (db : database)
  : database * nat :=
  (mk_database (users db)
     (filter (fun t => negb (owned id user_id t)) (transactions db))
     (budgets db)
     (seq_users db) (seq_transactions db) (seq_budgets db),
   List.length (filter (owned id user_id) (transactions db))).

Definition same_budget_key (user_id : Z) (category : string) (b : budget_row)
  : bool :=
  (b_user_id b =? user_id)%Z && (b_category b =? category)%string.

(** INSERT OR REPLACE INTO budgets (user_id, category, amount)
    VALUES (?, ?, ?): the rows that would violate UNIQUE(user_id, category)
    are removed, then the new row is added under a fresh key. *)
Definition insert_or_replace_budget (user_id : Z) (category : string)
    (amount : Q) (db : database) : database :=
  let id := next_id (seq_budgets db) (map b_id (budgets db)) in
  mk_database (users db) (transactions db)
    (filter (fun b => negb (same_budget_key user_id category b)) (budgets db)
     ++ [mk_budget id user_id category amount])
    (seq_users db) (seq_transactions db) id.

(** SELECT id, password FROM users WHERE username = ?, [fetchone] *)
Definition select_user (username : string) (db : database)
  : option (Z * string) :=
  option_map (fun u => (u_id u, u_password u))
    (find (fun u => (u_username u =? username)%string) (users db)).

(** SELECT id, type, category, amount, description, date FROM transactions
    WHERE user_id = ? ORDER BY date DESC *)
Definition select_transactions_of (user_id : Z) (db : database)
  : list transaction_row :=
  Sql.order_by (fun x y => String.ltb (t_date y) (t_date x))
    (filter (fun t => (t_user_id t =? user_id)%Z) (transactions db)).

End Table.

(** ** The queries of [check_budget] and [generate_reports] *)

Module Query.
Import PyStr.

(** Today's date as SQLite's clock gives it (UTC). *)
Record date := mk_date { year : nat; month : nat; day : nat }.

(** date('now') *)
Definition today_string (now : date) : string :=
  pad4 (year now) ++ "-" ++ pad2 (month now) ++ "-" ++ pad2 (day now).

(** date('now', 'start of month') *)
Definition start_of_month (now : date) : string :=
  pad4 (year now) ++ "-" ++ pad2 (month now) ++ "-01".

(** The ON clause of the join in [check_budget]:
    b.user_id = t.user_id AND b.category = t.category
    AND t.type = 'Expense' AND t.date >= date('now', 'start of month').
    Both sides of the last comparison are text, compared byte by byte. *)
Definition join_on (month_start : string) (b : budget_row) (t : transaction_row)
  : bool :=
  (b_user_id b =? t_user_id t)%Z
  && (b_category b =? t_category t)%string
  && (t_type t =? "Expense")%string
  && String.leb month_start (t_date t).

(** budgets b LEFT JOIN transactions t ON ...: a budget without a matching
    transaction is kept once, with NULLs on the right. *)
Definition left_join (month_start : string) (db : database)
  : list (budget_row * option transaction_row) :=
  flat_map
    (fun b =>
       match filter (join_on month_start b) (transactions db) with
       | [] => [(b, None)]
       | matching => map (fun t => (b, Some t)) matching
       end)
    (budgets db).

Definition group_key (r : budget_row * option transaction_row) : string * Q :=
  (b_category (fst r), b_amount (fst r)).

Definition same_key (k1 k2 : string * Q) : bool :=
  (fst k1 =? fst k2)%string && Qeq_bool (snd k1) (snd k2).

(** SELECT b.category, b.amount, COALESCE(SUM(t.amount), 0) as spent
    FROM budgets b LEFT JOIN transactions t ON ...
    WHERE b.user_id = ? GROUP BY b.category, b.amount *)
Definition check_budget_query (month_start : string) (user_id : Z)
    (db : database) : list (string * Q * Q) :=
  let joined :=
    filter (fun r => (b_user_id (fst r) =? user_id)%Z)
           (left_join month_start db) in
  map (fun k =>
         (fst k, snd k,
          Sql.coalesce
            (Sql.sum_agg
               (map (fun r => option_map t_amount (snd r))
                    (filter (fun r => same_key k (group_key r)) joined)))
            0%Q))
      (Sql.distinct same_key (map group_key joined)).

(** SELECT type, SUM(amount) FROM transactions
    WHERE user_id = ? AND date LIKE ? GROUP BY type.
    Every group has a row and [amount] is NOT NULL, so no sum is NULL. *)
Definition totals_by_type (user_id : Z) (pattern : string) (db : database)
  : list (string * Q) :=
  let rows :=
    filter (fun t => (t_user_id t =? user_id)%Z && Sql.like pattern (t_date t))
           (transactions db) in
  map (fun k =>
         (k, Sql.total
               (map t_amount (filter (fun t => (t_type t =? k)%string) rows))))
      (Sql.distinct String.eqb (map t_type rows)).

(** The statement [generate_reports] passes for the yearly report reads

      SELECT type, SUM(amount) FROM transactions
      WHERESELECT type, SUM(amount) FROM transactions
      WHERE user_id = ? AND date LIKE ?
      GROUP BY type

    [WHERESELECT] is read as an alias of the table, after which the word
    [type] cannot follow: SQLite refuses to prepare the statement and
    [cursor.execute] raises [sqlite3.OperationalError] whatever the
    parameters and the tables hold. *)
Definition yearly_totals_statement (user_id : Z) (pattern : string)
    (db : database) : exn + list (string * Q) :=
  inl OperationalError.

(** SELECT category, SUM(amount) as total FROM transactions
    WHERE user_id = ? AND type = 'Expense' AND date LIKE ?
    GROUP BY category ORDER BY total DESC *)
Definition expenses_by_category (user_id : Z) (pattern : string)
    (db : database) : list (string * Q) :=
  let rows :=
    filter (fun t => (t_user_id t =? user_id)%Z
                     && (t_type t =? "Expense")%string
                     && Sql.like pattern (t_date t))
           (transactions db) in
  Sql.order_by (fun x y => Qgtb (snd x) (snd y))
    (map (fun k =>
            (k, Sql.total
                  (map t_amount
                       (filter (fun t => (t_category t =? k)%string) rows))))
         (Sql.distinct String.eqb (map t_category rows))).

End Query.

(** ** Printed lines

    One value per call of [print] (and per prompt of [input] / [getpass]).
    Lines that interpolate numbers keep the numbers instead of their
    formatted text. *)

Inductive line :=
| Text (s : string)
| Prompt (s : string)
| InvalidAmountNotFloat (typed : string)
| TransactionLine (id : Z) (ty category : string) (amount : Q)
                  (description date : string)
| BudgetSet (category : string) (amount : Q)
| BudgetExceeded (category : string) (spent budget_amount : Q)
| WithinBudget (category : string) (spent budget_amount : Q)
| TotalIncome (amount : Q)
| TotalExpense (amount : Q)
| Savings (amount : Q)
| CategoryShare (category : string) (amount percentage : Q)
| BackupEntry (index : nat) (file : string).

Definition nl : string := String (ascii_of_nat 10) EmptyString.

(** ** Program state and the monad of the interactive functions *)

Record state := mk_state {
  stdin : list string;          (* the lines still to be typed *)
  stdout : list line;           (* what was printed, oldest first *)
  db_file : database;           (* finance_app.db as committed *)
  pending : database;           (* the open connection's view of it *)
  backup_files : list (string * database)   (* finance_backup_*.db *)
}.

Definition M (A : Type) : Type := state -> (exn + A) * state.

Definition ret {A : Type} (a : A) : M A := fun st => (inr a, st).

Definition bind {A B : Type} (m : M A) (k : A -> M B) : M B :=
  fun st =>
    match m st with
    | (inr a, st') => k a st'
    | (inl e, st') => (inl e, st')
    end.

Notation "x <- m ;; k" := (bind m (fun x => k))
  (at level 61, m at next level, right associativity).
Notation "m ;;; k" := (bind m (fun _ => k))
  (at level 61, right associativity).

Definition raise {A : Type} (e : exn) : M A := fun st => (inl e, st).

(** [try: body except <those that [catches] accepts>: handler] *)
Definition try_except {A : Type} (body : M A) (catches : exn -> bool)
    (handler : exn -> M A) : M A :=
  fun st =>
    match body st with
    | (inr a, st') => (inr a, st')
    | (inl e, st') => if catches e then handler e st' else (inl e, st')
    end.

(** [except Exception] *)
Definition any_exception (e : exn) : bool := true.

Definition is_value_error (e : exn) : bool :=
  match e with ValueError => true | _ => false end.

Definition is_integrity_error (e : exn) : bool :=
  match e with IntegrityError => true | _ => false end.

Definition print (l : line) : M unit :=
  fun st =>
    (inr tt, mk_state (stdin st) (stdout st ++ [l]) (db_file st) (pending st)
                      (backup_files st)).

Definition print_all (ls : list line) : M unit :=
  fun st =>
    (inr tt, mk_state (stdin st) (stdout st ++ ls) (db_file st) (pending st)
                      (backup_files st)).

(** [input(prompt)]; also stands for [getpass.getpass(prompt)].  Reading past
    the end of the input raises [EOFError]. *)
Definition input (prompt : string) : M string :=
  fun st =>
    match stdin st with
    | [] =>
        (inl EOFError,
         mk_state [] (stdout st ++ [Prompt prompt]) (db_file st) (pending st)
                  (backup_files st))
    | s :: rest =>
        (inr s,
         mk_state rest (stdout st ++ [Prompt prompt]) (db_file st) (pending st)
                  (backup_files st))
    end.

(** [with get_db_connection() as conn:]: the connection starts from the
    file; whatever is not committed when the block is left is lost. *)
Definition with_connection {A : Type} (body : M A) : M A :=
  fun st =>
    body (mk_state (stdin st) (stdout st) (db_file st) (db_file st)
                   (backup_files st)).

(** [cursor.execute] of a SELECT, with [fetchall] / [fetchone]. *)
Definition query {A : Type} (select : database -> A) : M A :=
  fun st => (inr (select (pending st)), st).

Definition query_checked {A : Type} (select : database -> exn + A) : M A :=
  fun st => (select (pending st), st).

(** [cursor.execute] of a statement that writes. *)
Definition execute (statement : database -> exn + database) : M unit :=
  fun st =>
    match statement (pending st) with
    | inr db' =>
        (inr tt, mk_state (stdin st) (stdout st) (db_file st) db'
                          (backup_files st))
    | inl e => (inl e, st)
    end.

(** A computation that reads and writes nothing. *)
Definition lift {A : Type} (r : exn + A) : M A := fun st => (r, st).

(** [conn.commit()] *)
Definition commit : M unit :=
  fun st =>
    (inr tt, mk_state (stdin st) (stdout st) (pending st) (pending st)
                      (backup_files st)).

(** A [while True:] loop that reads one line per round, leaves with the
    value [accept] makes of it, and otherwise prints [complain] and goes
    round again.  The rounds are counted by the lines of input: with none
    left, [input] raises [EOFError]. *)
Fixpoint read_until {A : Type} (prompt : string) (accept : string -> option A)
    (complain : string -> line) (ins : list string)
  : (exn + A) * list string * list line :=
  match ins with
  | [] => (inl EOFError, [], [Prompt prompt])
  | s :: rest =>
      match accept s with
      | Some a => (inr a, rest, [Prompt prompt])
      | None =>
          let '(r, ins', out) := read_until prompt accept complain rest in
          (r, ins', Prompt prompt :: complain s :: out)
      end
  end.

Definition input_until {A : Type} (prompt : string)
    (accept : string -> option A) (complain : string -> line) : M A :=
  fun st =>
    let '(r, ins', out) := read_until prompt accept complain (stdin st) in
    (r, mk_state ins' (stdout st ++ out) (db_file st) (pending st)
                 (backup_files st)).

(** ** The functions of main.py *)

Section MainPy.
Import PyStr.

(** [float(s)]: the number read, or [None] for [ValueError]. *)
Variable float_of_string : string -> option Q.

(** [hashlib.pbkdf2_hmac('sha512', password, salt, 100000).hex()] *)
Variable pbkdf2_hmac_sha512_hex : string -> string -> string.

(** [s.encode('ascii')] *)
Definition encode_ascii (s : string) : exn + string :=
  if all_chars (fun c => nat_of_ascii c <? 128) s then inr s
  else inl UnicodeEncodeError.

(** [hash_password]; [salt] is the hex digest drawn from [os.urandom]. *)
Definition hash_password (salt password : string) : string :=
  salt ++ ":" ++ pbkdf2_hmac_sha512_hex password salt.

(** The block under [try:] in [verify_password]. *)
Definition verify_password_try (stored_password provided_password : string)
  : exn + bool :=
  match split ":"%char stored_password with
  | [salt; stored_hash] =>
      match encode_ascii salt with
      | inr salt_bytes =>
          inr (pbkdf2_hmac_sha512_hex provided_password salt_bytes
               =? stored_hash)%string
      | inl e => inl e
      end
  | _ => inl ValueError   (* too many, or not enough, values to unpack *)
  end.

(** [verify_password]: [except Exception: return False]. *)
Definition verify_password (stored_password provided_password : string)
  : exn + bool :=
  match verify_password_try stored_password provided_password with
  | inr b => inr b
  | inl _ => inr false
  end.

Definition register_user (salt : string) : M unit :=
  print (Text (nl ++ "=== Register ===")) ;;;
  typed <- input "Enter a username: " ;;
  let username := strip typed in
  if is_empty username then print (Text "Username cannot be empty.")
  else
    password <- input "Enter a password: " ;;
    confirm_password <- input "Confirm password: " ;;
    if negb (password =? confirm_password)%string then
      print (Text "Passwords do not match. Please try again.")
    else if String.length password <? 8 then
      print (Text "Password must be at least 8 characters long.")
    else
      let hashed_password := hash_password salt password in
      try_except
        (try_except
           (with_connection
              (execute (Table.insert_user username hashed_password) ;;;
               commit ;;;
               print (Text "Registration successful! You can now log in.")))
           is_integrity_error
           (fun _ =>
              print (Text "Username already exists. Please choose a different one.")))
        any_exception
        (fun _ => print (Text "Registration failed. Please try again.")).

Definition login_user : M (option Z) :=
  print (Text (nl ++ "=== Login ===")) ;;;
  typed <- input "Enter your username: " ;;
  let username := strip typed in
  password <- input "Enter your password: " ;;
  try_except
    (with_connection
       (user <- query (Table.select_user username) ;;
        let verified :=
          match user with
          | Some (_, stored) =>
              match verify_password stored password with
              | inr b => b
              | inl _ => false
              end
          | None => false
          end in
        match user with
        | Some (id, _) =>
            if verified then
              print (Text ("Welcome back, " ++ username ++ "!")) ;;;
              ret (Some id)
            else
              print (Text "Invalid username or password. Please try again.") ;;;
              ret None
        | None =>
            print (Text "Invalid username or password. Please try again.") ;;;
            ret None
        end))
    any_exception
    (fun _ => print (Text "Login failed. Please try again.") ;;; ret None).

(** [type = input(...).capitalize(); if type in ["Income", "Expense"]: break] *)
Definition accept_type (typed : string) : option string :=
  let type := capitalize typed in
  if (type =? "Income")%string || (type =? "Expense")%string
  then Some type else None.

(** [amount = float(input(...)); if amount <= 0: raise ValueError(...)] *)
Definition accept_amount (typed : string) : option Q :=
  match float_of_string typed with
  | Some amount => if Qleb amount 0%Q then None else Some amount
  | None => None
  end.

Definition accept_date (typed : string) : option string :=
  if validate_date typed then Some typed else None.

Definition add_transaction (user_id : Z) : M unit :=
  print (Text (nl ++ "=== Add Transaction ===")) ;;;
  type <- input_until "Enter transaction type (Income/Expense): " accept_type
            (fun _ => Text "Invalid transaction type. Please enter 'Income' or 'Expense'.") ;;
  typed <- input "Enter category (e.g., Food, Rent, Salary): " ;;
  let category := strip typed in
  if is_empty category then print (Text "Category cannot be empty.")
  else
    amount <- input_until "Enter amount: " accept_amount
                (fun s => match float_of_string s with
                          | Some _ => Text "Invalid amount: Amount must be positive"
                          | None => InvalidAmountNotFloat s
                          end) ;;
    description <- input "Enter description (optional): " ;;
    date <- input_until "Enter date (YYYY-MM-DD): " accept_date
              (fun _ => Text "Invalid date format. Please use YYYY-MM-DD format.") ;;
    try_except
      (with_connection
         (execute (Table.insert_transaction user_id type category amount
                                            description date) ;;;
          commit) ;;;
       print (Text "Transaction added successfully!"))
      any_exception
      (fun _ => print (Text "Failed to add transaction. Please try again.")).

Definition transaction_line (t : transaction_row) : line :=
  TransactionLine (t_id t) (t_type t) (t_category t) (t_amount t)
                  (t_description t) (t_date t).

Definition view_transactions (user_id : Z) : M unit :=
  print (Text (nl ++ "=== View Transactions ===")) ;;;
  try_except
    (rows <- with_connection (query (Table.select_transactions_of user_id)) ;;
     match rows with
     | [] => print (Text "No transactions found.")
     | _ => print_all (map transaction_line rows)
     end)
    any_exception
    (fun _ => print (Text "Failed to retrieve transactions. Please try again.")).

Definition update_transaction (user_id : Z) : M unit :=
  print (Text (nl ++ "=== Update Transaction ===")) ;;;
  view_transactions user_id ;;;
  typed_id <- input "Enter the transaction ID to update: " ;;
  match int_of_string typed_id with
  | None => print (Text "Invalid transaction ID.")
  | Some transaction_id =>
      try_except
        (with_connection
           (lift (bind_integer transaction_id) ;;;
            transaction <- query (Table.select_transaction transaction_id user_id) ;;
            match transaction with
            | None => print (Text "Transaction not found.")
            | Some _ =>
                type <- input_until "Enter new transaction type (Income/Expense): "
                          accept_type (fun _ => Text "Invalid transaction type.") ;;
                typed <- input "Enter new category: " ;;
                let category := strip typed in
                if is_empty category then print (Text "Category cannot be empty.")
                else
                  amount <- input_until "Enter new amount: " accept_amount
                              (fun _ => Text "Invalid amount.") ;;
                  description <- input "Enter new description: " ;;
                  date <- input_until "Enter new date (YYYY-MM-DD): " accept_date
                            (fun _ => Text "Invalid date format. Please use YYYY-MM-DD format.") ;;
                  execute (Table.update_transaction type category amount
                             description date transaction_id user_id) ;;;
                  commit ;;;
                  print (Text "Transaction updated successfully!")
            end))
        any_exception
        (fun _ => print (Text "Failed to update transaction. Please try again."))
  end.

(** [cursor.execute('DELETE ...')] together with [cursor.rowcount]. *)
Definition execute_delete (id user_id : Z) : M nat :=
  fun st =>
    let '(db', rowcount) := Table.delete_transaction id user_id (pending st) in
    (inr rowcount, mk_state (stdin st) (stdout st) (db_file st) db'
                            (backup_files st)).

Definition delete_transaction (user_id : Z) : M unit :=
  print (Text (nl ++ "=== Delete Transaction ===")) ;;;
  view_transactions user_id ;;;
  typed_id <- input "Enter the transaction ID to delete: " ;;
  match int_of_string typed_id with
  | None => print (Text "Invalid transaction ID.")
  | Some transaction_id =>
      confirm <- input "Are you sure you want to delete this transaction? (y/n): " ;;
      if negb (lower confirm =? "y")%string then
        print (Text "Deletion cancelled.")
      else
        try_except
          (with_connection
             (lift (bind_integer transaction_id) ;;;
              rowcount <- execute_delete transaction_id user_id ;;
              if 0 <? rowcount then
                commit ;;;
                print (Text "Transaction deleted successfully!")
              else
                print (Text "Transaction not found.")))
          any_exception
          (fun _ => print (Text "Failed to delete transaction. Please try again."))
  end.

Definition set_budget (user_id : Z) : M unit :=
  print (Text (nl ++ "=== Set Budget ===")) ;;;
  typed <- input "Enter category for the budget: " ;;
  let category := strip typed in
  if is_empty category then print (Text "Category cannot be empty.")
  else
    try_except
      (try_except
         (typed_amount <- input "Enter budget amount: " ;;
          match float_of_string typed_amount with
          | None => raise ValueError
          | Some amount =>
              if Qleb amount 0%Q then
                print (Text "Budget amount must be positive.")
              else
                with_connection
                  (execute (fun db =>
                              inr (Table.insert_or_replace_budget
                                     user_id category amount db)) ;;;
                   commit ;;;
                   print (BudgetSet category amount))
          end)
         is_value_error
         (fun _ => print (Text "Invalid amount.")))
      any_exception
      (fun _ => print (Text "Failed to set budget. Please try again.")).

(** The [for] loop of [check_budget]; the value is [budget_exceeded]. *)
Fixpoint report_budgets (results : list (string * Q * Q))
    (budget_exceeded : bool) : M bool :=
  match results with
  | [] => ret budget_exceeded
  | (category, budget_amount, spent) :: rest =>
      if Qgtb spent budget_amount then
        print (BudgetExceeded category spent budget_amount) ;;;
        report_budgets rest true
      else
        print (WithinBudget category spent budget_amount) ;;;
        report_budgets rest budget_exceeded
  end.

Definition check_budget (now : Query.date) (user_id : Z) : M unit :=
  print (Text (nl ++ "=== Check Budget ===")) ;;;
  try_except
    (with_connection
       (results <- query (Query.check_budget_query
                            (Query.start_of_month now) user_id) ;;
        match results with
        | [] => print (Text "No budgets set. Please set a budget first.")
        | _ =>
            budget_exceeded <- report_budgets results false ;;
            if negb budget_exceeded
            then print (Text "All budgets are within limits.")
            else ret tt
        end))
    any_exception
    (fun _ => print (Text "Failed to check budgets. Please try again.")).

(** The [while True:] loop of [generate_reports]: two lines per round. *)
Fixpoint read_month_year (ins : list string)
  : (exn + string * string) * list string * list line :=
  match ins with
  | [] => (inl EOFError, [], [Prompt "Enter month for report (MM): "])
  | [_] =>
      (inl EOFError, [],
       [Prompt "Enter month for report (MM): ";
        Prompt "Enter year for report (YYYY): "])
  | month :: year :: rest =>
      if validate_date (year ++ "-" ++ month ++ "-01") then
        (inr (month, year), rest,
         [Prompt "Enter month for report (MM): ";
          Prompt "Enter year for report (YYYY): "])
      else
        let '(r, ins', out) := read_month_year rest in
        (r, ins',
         Prompt "Enter month for report (MM): "
         :: Prompt "Enter year for report (YYYY): "
         :: Text "Invalid month/year format." :: out)
  end.

Definition input_month_year : M (string * string) :=
  fun st =>
    let '(r, ins', out) := read_month_year (stdin st) in
    (r, mk_state ins' (stdout st ++ out) (db_file st) (pending st)
                 (backup_files st)).

(** [sum(amount for type, amount in data if type == kind)] *)
Definition total_of_kind (kind : string) (data : list (string * Q)) : Q :=
  Sql.total (map snd (filter (fun r => (fst r =? kind)%string) data)).

(** Python's [/] on numbers. *)
Definition divide (a b : Q) : exn + Q :=
  if Qeq_bool b 0%Q then inl ZeroDivisionError else inr (a / b)%Q.

(** [(amount / monthly_expense * 100) if monthly_expense > 0 else 0] *)
Definition percentage (amount monthly_expense : Q) : exn + Q :=
  if Qgtb monthly_expense 0%Q then
    match divide amount monthly_expense with
    | inr q => inr (q * 100)%Q
    | inl e => inl e
    end
  else inr 0%Q.

(** The [for category, amount in categories:] loop. *)
Fixpoint print_breakdown (categories : list (string * Q)) (monthly_expense : Q)
  : M unit :=
  match categories with
  | [] => ret tt
  | (category, amount) :: rest =>
      share <- lift (percentage amount monthly_expense) ;;
      print (CategoryShare category amount share) ;;;
      print_breakdown rest monthly_expense
  end.

Definition generate_reports (user_id : Z) : M unit :=
  print (Text (nl ++ "=== Financial Reports ===")) ;;;
  try_except
    (my <- input_month_year ;;
     let month := fst my in
     let year := snd my in
     with_connection
       (monthly_data <- query (Query.totals_by_type user_id
                                 (year ++ "-" ++ month ++ "-%")) ;;
        let monthly_income := total_of_kind "Income" monthly_data in
        let monthly_expense := total_of_kind "Expense" monthly_data in
        let monthly_savings := (monthly_income - monthly_expense)%Q in
        print (Text (nl ++ "Monthly Report (" ++ year ++ "-" ++ month ++ "):")) ;;;
        print (TotalIncome monthly_income) ;;;
        print (TotalExpense monthly_expense) ;;;
        print (Savings monthly_savings) ;;;
        yearly_data <- query_checked (Query.yearly_totals_statement user_id
                                        (year ++ "-%")) ;;
        let yearly_income := total_of_kind "Income" yearly_data in
        let yearly_expense := total_of_kind "Expense" yearly_data in
        let yearly_savings := (yearly_income - yearly_expense)%Q in
        print (Text (nl ++ "Yearly Report (" ++ year ++ "):")) ;;;
        print (TotalIncome yearly_income) ;;;
        print (TotalExpense yearly_expense) ;;;
        print (Savings yearly_savings) ;;;
        print (Text (nl ++ "Expense Breakdown by Category:")) ;;;
        categories <- query (Query.expenses_by_category user_id
                               (year ++ "-" ++ month ++ "-%")) ;;
        print_breakdown categories monthly_expense))
    any_exception
    (fun _ => print (Text "Failed to generate reports. Please try again.")).

(** [shutil.copy(src, dst)] onto a backup file: an existing file of that name
    is overwritten in place, a new one is added to the directory. *)
Fixpoint write_file (name : string) (content : database)
    (files : list (string * database)) : list (string * database) :=
  match files with
  | [] => [(name, content)]
  | (n, c) :: rest =>
      if (n =? name)%string then (n, content) :: rest
      else (n, c) :: write_file name content rest
  end.

(** [backup_data]; [timestamp] is [datetime.now().strftime('%Y%m%d_%H%M%S')]. *)
Definition copy_database_to (backup_file : string) : M unit :=
  fun st =>
    (inr tt, mk_state (stdin st) (stdout st) (db_file st) (pending st)
                      (write_file backup_file (db_file st) (backup_files st))).

Definition backup_data (timestamp : string) : M unit :=
  let backup_file := "finance_backup_" ++ timestamp ++ ".db" in
  try_except
    (copy_database_to backup_file ;;;
     print (Text ("Backup completed successfully: " ++ backup_file)))
    any_exception
    (fun _ => print (Text "Failed to create backup. Please try again.")).

(** [l[i]] on a Python list: negative indices count from the end. *)
Definition list_index {A : Type} (l : list A) (i : Z) : exn + A :=
  let n := Z.of_nat (List.length l) in
  let j := if (i <? 0)%Z then (i + n)%Z else i in
  if ((0 <=? j)%Z && (j <? n)%Z)%bool then
    match nth_error l (Z.to_nat j) with
    | Some a => inr a
    | None => inl IndexError
    end
  else inl IndexError.

(** [for i, backup in enumerate(backups, 1): print(f"{i}. {backup}")] *)
Fixpoint backup_entries (i : nat) (backups : list string) : list line :=
  match backups with
  | [] => []
  | b :: rest => BackupEntry i b :: backup_entries (S i) rest
  end.

Fixpoint read_file (name : string) (files : list (string * database))
  : exn + database :=
  match files with
  | [] => inl OSError
  | (n, c) :: rest => if (n =? name)%string then inr c else read_file name rest
  end.

(** [shutil.copy(backup_file, 'finance_app.db')] *)
Definition copy_to_database (backup_file : string) : M unit :=
  fun st =>
    match read_file backup_file (backup_files st) with
    | inr content =>
        (inr tt, mk_state (stdin st) (stdout st) content (pending st)
                          (backup_files st))
    | inl e => (inl e, st)
    end.

(** [glob.glob('finance_backup_*.db')]: the backup files in directory
    order. *)
Definition glob_backups : M (list string) :=
  fun st => (inr (map fst (backup_files st)), st).

Definition restore_data : M unit :=
  try_except
    (backups <- glob_backups ;;
     match backups with
     | [] => print (Text "No backup files found.")
     | _ =>
         print (Text (nl ++ "Available backups:")) ;;;
         print_all (backup_entries 1 backups) ;;;
         choice <- input (nl ++ "Enter backup number to restore (or 'cancel'): ") ;;
         if (lower choice =? "cancel")%string then ret tt
         else
           match int_of_string choice with
           | None => print (Text "Invalid selection.")
           | Some n =>
               match list_index backups (n - 1)%Z with
               | inl _ => print (Text "Invalid selection.")
               | inr backup_file =>
                   confirm <- input ("Are you sure you want to restore from "
                                     ++ backup_file
                                     ++ "? Current data will be overwritten (y/n): ") ;;
                   if negb (lower confirm =? "y")%string then
                     print (Text "Restore cancelled.")
                   else
                     copy_to_database backup_file ;;;
                     print (Text "Data restored successfully!")
               end
           end
     end)
    any_exception
    (fun _ => print (Text "Failed to restore data. Please try again.")).

(** ** The menus of [main] as commands *)

Inductive command :=
| Register (salt : string)
| Login
| AddTransaction (user_id : Z)
| ViewTransactions (user_id : Z)
| UpdateTransaction (user_id : Z)
| DeleteTransaction (user_id : Z)
| SetBudget (user_id : Z)
| CheckBudget (now : Query.date) (user_id : Z)
| GenerateReports (user_id : Z)
| BackupData (timestamp : string)
| RestoreData.

Definition run (c : command) : M unit :=
  match c with
  | Register salt => register_user salt
  | Login => login_user ;;; ret tt
  | AddTransaction user_id => add_transaction user_id
  | ViewTransactions user_id => view_transactions user_id
  | UpdateTransaction user_id => update_transaction user_id
  | DeleteTransaction user_id => delete_transaction user_id
  | SetBudget user_id => set_budget user_id
  | CheckBudget now user_id => check_budget now user_id
  | GenerateReports user_id => generate_reports user_id
  | BackupData timestamp => backup_data timestamp
  | RestoreData => restore_data
  end.

(** The states the program can be in between two commands: it starts on the
    empty database with whatever the user is going to type, and runs
    commands. *)
Inductive reachable : state -> Prop :=
| reachable_start (typed : list string) :
    reachable (mk_state typed [] empty_database empty_database [])
| reachable_run (c : command) (st : state) :
    reachable st -> reachable (snd (run c st)).

End MainPy.

(** ** Sample data for the examples *)

Module Sample.
Import PyStr.

(** A reading of [float] for plain decimal numerals: digits, optionally
    followed by a point and more digits.  It stands in for Python's parser
    in the examples only. *)
Fixpoint digits_value (s : string) (acc : Z) : option Z :=
  match s with
  | EmptyString => Some acc
  | String c s' =>
      if is_digit c then digits_value s' (10 * acc + Z.of_nat (digit_value c))%Z
      else None
  end.

Definition decimal (s : string) : option Q :=
  match split "."%char s with
  | [whole] =>
      if is_empty whole then None
      else option_map inject_Z (digits_value whole 0%Z)
  | [whole; frac] =>
      if is_empty whole && is_empty frac then None
      else
        match digits_value whole 0%Z, digits_value frac 0%Z with
        | Some w, Some f =>
            Some (Qred (Qplus (inject_Z w)
                             (Qmake f (Pos.of_nat (10 ^ String.length frac)))))
        | _, _ => None
        end
  | _ => None
  end.

(** A stand-in for the key derivation function. *)
Definition toy_kdf (password salt : string) : string := salt ++ "/" ++ password.

(** The three transactions of the report example, owned by user 1. *)
Definition ledger : database :=
  mk_database []
    [ mk_transaction 1 1 "Expense" "Food" 100 "" "2024-01-05";
      mk_transaction 2 1 "Income" "Salary" 1000 "" "2024-01-01";
      mk_transaction 3 1 "Expense" "Food" 50 "" "2024-02-01" ]
    [] 0 3 0.

Definition start (typed : list string) (db : database) : state :=
  mk_state typed [] db db [].

(** The same ledger with a budget of 80 on Food. *)
Definition food_budget : budget_row := mk_budget 1 1 "Food" 80.

Definition ledger_with_budget : database :=
  mk_database [] (transactions ledger) [food_budget] 0 3 1.

Definition mid_january : Query.date := Query.mk_date 2024 1 15.

(** A user whose stored credential has no ':' in it. *)
Definition broken_credential : database :=
  mk_database [mk_user 1 "alice" "0123456789abcdef"] [] [] 1 0 0.


End Sample.

(** ** What the specification describes, in its own words *)

Module Spec.

(** "spentAmount = sum of amount over Transactions where user matches,
    category matches the budget's category exactly, kind = Expense, and date
    falls within the current calendar month (from the first day of the
    current month, inclusive, through the query time)". *)
Definition in_current_month (now : Query.date) (t : transaction_row) : bool :=
  String.leb (Query.start_of_month now) (t_date t)
  && String.leb (t_date t) (Query.today_string now).

Definition spent_amount (now : Query.date) (b : budget_row) (db : database) : Q :=
  Sql.total
    (map t_amount
       (filter (fun t => (t_user_id t =? b_user_id b)%Z
                         && (t_category t =? b_category b)%string
                         && (t_type t =? "Expense")%string
                         && in_current_month now t)
               (transactions db))).

(** "[checkBudgets] reports [spentAmount] for B": the row of the result for
    B's category carries that sum. *)
Definition reports_spent_amount (now : Query.date) (b : budget_row)
    (db : database) : Prop :=
  exists spent,
    In (b_category b, b_amount b, spent)
       (Query.check_budget_query (Query.start_of_month now) (b_user_id b) db)
    /\ (spent == spent_amount now b db)%Q.

(** "Yearly totals: identical aggregation but matching the YYYY prefix
    only". *)
Definition yearly_totals (user_id : Z) (year : string) (db : database)
  : list (string * Q) :=
  Query.totals_by_type user_id (year ++ "-%") db.

End Spec.

(** ** Invariants of the stored data *)

Definition budget_key (b : budget_row) : Z * string :=
  (b_user_id b, b_category b).

(** UNIQUE(user_id, category) *)
Definition budgets_unique (db : database) : Prop :=
  NoDup (map budget_key (budgets db)).

Definition kind_valid (t : transaction_row) : Prop :=
  t_type t = "Income" \/ t_type t = "Expense".

Definition kinds_valid (db : database) : Prop :=
  Forall kind_valid (transactions db).

Definition amounts_positive (db : database) : Prop :=
  Forall (fun t => (0 < t_amount t)%Q) (transactions db)
  /\ Forall (fun b => (0 < b_amount b)%Q) (budgets db).

Definition well_formed (db : database) : Prop :=
  budgets_unique db /\ kinds_valid db /\ amounts_positive db.

(** The database file and every backup of it are well formed. *)
Definition files_well_formed (st : state) : Prop :=
  well_formed (db_file st)
  /\ Forall (fun f => well_formed (snd f)) (backup_files st).

(** What a computation printed, given the state it started from. *)
Definition output_of {A : Type} (m : M A) (st : state) : list line :=
  skipn (List.length (stdout st)) (stdout (snd (m st))).

(** ** Definitions used in the statements *)

(** What [view_transactions] prints. *)
Definition view_lines (user_id : Z) (db : database) : list line :=
  Text (nl ++ "=== View Transactions ===")
  :: match Table.select_transactions_of user_id db with
     | [] => [Text "No transactions found."]
     | rows => map transaction_line rows
     end.

(** What [delete_transaction] prints before it reaches the database. *)
Definition delete_preamble (user_id : Z) (db : database) : list line :=
  (Text (nl ++ "=== Delete Transaction ===") :: view_lines user_id db
   ++ [Prompt "Enter the transaction ID to delete: ";
       Prompt "Are you sure you want to delete this transaction? (y/n): "])%list.

(** The joined rows of one budget. *)
Definition rows_of (month_start : string) (db : database) (b : budget_row)
  : list (budget_row * option transaction_row) :=
  match filter (Query.join_on month_start b) (transactions db) with
  | [] => [(b, None)]
  | matching => map (fun t => (b, Some t)) matching
  end.

(** The sum the query computes for one budget. *)
Definition matching_total (month_start : string) (b : budget_row)
    (db : database) : Q :=
  Sql.total (map t_amount
               (filter (Query.join_on month_start b) (transactions db))).

(** The grouping columns of a budget row. *)
Definition key_of_budget (b : budget_row) : string * Q :=
  (b_category b, b_amount b).

(** The rows of the join that belong to the user. *)
Definition joined_rows (month_start : string) (user_id : Z) (db : database)
  : list (budget_row * option transaction_row) :=
  filter (fun r => (b_user_id (fst r) =? user_id)%Z)
         (Query.left_join month_start db).

Definition exceeded (r : string * Q * Q) : bool :=
  let '(_, budget_amount, spent) := r in Qgtb spent budget_amount.

Definition budget_line (r : string * Q * Q) : line :=
  let '(category, budget_amount, spent) := r in
  if Qgtb spent budget_amount
  then BudgetExceeded category spent budget_amount
  else WithinBudget category spent budget_amount.

Definition check_budget_lines (results : list (string * Q * Q)) : list line :=
  Text (nl ++ "=== Check Budget ===")
  :: match results with
     | [] => [Text "No budgets set. Please set a budget first."]
     | _ =>
         (map budget_line results
          ++ (if existsb exceeded results then []
              else [Text "All budgets are within limits."]))%list
     end.

(** The sum [check_budget] reports for a budget, written out: the user's
    expenses in the budget's category dated on or after the first day of the
    current month -- with no upper bound on the date. *)
Definition spent_since_month_start (now : Query.date) (b : budget_row)
    (db : database) : Q :=
  Sql.total
    (map t_amount
       (filter (fun t => (t_user_id t =? b_user_id b)%Z
                         && (t_category t =? b_category b)%string
                         && (t_type t =? "Expense")%string
                         && String.leb (Query.start_of_month now) (t_date t))
               (transactions db))).

(** The share printed for a category. *)
Definition share_of (monthly_expense amount : Q) : Q :=
  if Qeq_bool monthly_expense 0 then 0%Q
  else (amount / monthly_expense * 100)%Q.


(** UNIQUE(user_id, category) holds of the file and of every backup. *)
Definition budgets_unique_everywhere (st : state) : Prop :=
  budgets_unique (db_file st)
  /\ Forall (fun f => budgets_unique (snd f)) (backup_files st).

(** *** Where the arithmetic of the model is the program's

    The [amount] columns are declared DECIMAL(10,2), which gives them NUMERIC
    affinity: the floating-point number that [float] reads is stored as an
    INTEGER when it is a whole number and as a REAL otherwise.  SQLite's SUM
    adds INTEGERs exactly and raises "integer overflow" past 64 bits; from
    the first REAL on it adds in floating point, rounding at every step.
    Python's [sum], [-] and [>] on the numbers read back behave alike.

    When every amount is a multiple of 2^-k and the absolute values add up
    to at most 2^53 of these units, every partial sum, taken in any order,
    is again such a multiple below that bound: it is a floating-point number
    (so no step rounds) and, when whole, far below 2^63 (so no step
    overflows).  On such amounts the exact sums of the model are the sums the
    program computes. *)
Definition on_grid (k : nat) (a : Q) : bool :=
  ((Qnum a * 2 ^ Z.of_nat k) mod Zpos (Qden a) =? 0)%Z.

Definition sums_exactly (k : nat) (amounts : list Q) : bool :=
  (k <=? 1000)
  && forallb (on_grid k) amounts
  && Qle_bool (Sql.total (map Qabs amounts) * inject_Z (2 ^ Z.of_nat k))
              (inject_Z (2 ^ 53)).

Definition exact_amounts (k : nat) (db : database) : Prop :=
  sums_exactly k (map t_amount (transactions db)) = true.

(** The stored transaction ids are values of SQLite's INTEGER (64 bits,
    signed), as the key of a row of an SQLite table is. *)
Definition ids_fit (db : database) : Prop :=
  Forall (fun t => fits_int64 (t_id t) = true) (transactions db).

(** Text within ASCII, on which [PyStr.strip] removes what Python's
    [str.strip] removes. *)
Definition ascii_text (s : string) : bool :=
  PyStr.all_chars (fun c => nat_of_ascii c <? 128) s.



(** ** Reasoning about the monad *)

Definition invariant : Type :=
  database -> database -> list (string * database) -> Prop.

Definition holds (I : invariant) (st : state) : Prop :=
  I (db_file st) (pending st) (backup_files st).

(** [m] keeps [I], and every value it returns satisfies [R]. *)
Definition triple {A : Type} (I : invariant) (m : M A) (R : A -> Prop) : Prop :=
  forall st, holds I st ->
    holds I (snd (m st)) /\ forall a, fst (m st) = inr a -> R a.

(** Between two commands the file and its backups satisfy [W]; while a
    connection is open its uncommitted image does too. *)
Definition outside (W : database -> Prop) : invariant :=
  fun d _ b => W d /\ Forall (fun f => W (snd f)) b.

Definition inside (W : database -> Prop) : invariant :=
  fun d p b => W d /\ W p /\ Forall (fun f => W (snd f)) b.

Definition anything {A : Type} : A -> Prop := fun _ => True.

(** Definitions used in the further properties of the commands. *)

(** The file and the backups are what they were at the start. *)
Definition untouched (file : database) (backups : list (string * database))
  : invariant :=
  fun d _ b => d = file /\ b = backups.

(** The strings [hash_password] puts together: a salt of ASCII characters
    without ':', as the hex digest of [os.urandom] is. *)
Definition salt_ok (salt : string) : Prop :=
  PyStr.all_chars (fun c => negb (Ascii.eqb c ":")) salt = true
  /\ PyStr.all_chars (fun c => nat_of_ascii c <? 128) salt = true.

(** The keys of a table: pairwise distinct and not above the table's
    sequence counter. *)
Definition ids_ok {A : Type} (key : A -> Z) (seq : Z) (l : list A) : Prop :=
  NoDup (map key l) /\ Forall (fun x => (key x <= seq)%Z) l.

(** PRIMARY KEY AUTOINCREMENT on the three tables, UNIQUE on
    [users.username]. *)
Definition keys_ok (db : database) : Prop :=
  NoDup (map u_username (users db))
  /\ ids_ok u_id (seq_users db) (users db)
  /\ ids_ok t_id (seq_transactions db) (transactions db)
  /\ ids_ok b_id (seq_budgets db) (budgets db).

(** What the prompts let through: a text that is not empty and has no white
    space at either end. *)
Definition trimmed (s : string) : Prop :=
  s <> "" /\ PyStr.strip s = s.

Definition transaction_ok (t : transaction_row) : Prop :=
  trimmed (t_category t) /\ validate_date (t_date t) = true.

Definition rows_ok (db : database) : Prop :=
  Forall (fun u => trimmed (u_username u)) (users db)
  /\ Forall transaction_ok (transactions db)
  /\ Forall (fun b => trimmed (b_category b)) (budgets db).

(** No white space at the front. *)
Definition starts_clean (s : string) : Prop :=
  match s with
  | EmptyString => True
  | String c _ => PyStr.is_space c = false
  end.

(** The rows a monthly aggregate of one kind is about. *)
Definition rows_of_kind (user_id : Z) (pattern kind : string) (db : database)
  : list transaction_row :=
  filter (fun t => (t_user_id t =? user_id)%Z
                   && Sql.like pattern (t_date t)
                   && (t_type t =? kind)%string)
         (transactions db).

(** The user's expense rows of one category that a monthly pattern selects. *)
Definition expenses_in_category (user_id : Z) (pattern category : string)
    (db : database) : list transaction_row :=
  filter (fun t => (t_user_id t =? user_id)%Z
                   && (t_type t =? "Expense")%string
                   && Sql.like pattern (t_date t)
                   && (t_category t =? category)%string)
         (transactions db).

(** [a] may be listed before [b] under ORDER BY date DESC. *)
Definition not_older (a b : transaction_row) : Prop :=
  String.leb (t_date b) (t_date a) = true.

(** [a] may be listed before [b] under ORDER BY total DESC. *)
Definition not_smaller (a b : string * Q) : Prop := (snd b <= snd a)%Q.

(** The only exception [m] lets out is [EOFError], and it lets it out only
    with the input used up. *)
Definition eof_only {A : Type} (m : M A) : Prop :=
  forall st,
    match m st with
    | (inl e, st') => e = EOFError /\ stdin st' = []
    | (inr _, _) => True
    end.

Section Triples.
Context {A B : Type} (I : invariant).

Lemma triple_ret (a : A) : triple I (ret a) anything.
Proof. intros st H; split; [exact H | intros; exact Logic.I]. Qed.

Lemma triple_raise (e : exn) : triple I (@raise A e) anything.
Proof. intros st H; split; [exact H | intros; exact Logic.I]. Qed.

Lemma triple_lift (r : exn + A) : triple I (lift r) anything.
Proof. intros st H; split; [exact H | intros; exact Logic.I]. Qed.

Lemma triple_weaken (m : M A) (R R' : A -> Prop) :
  triple I m R -> (forall a, R a -> R' a) -> triple I m R'.
Proof.
  intros Hm Himp st H. destruct (Hm st H) as [H1 H2].
  split; [exact H1 | intros a Ha; apply Himp, H2, Ha].
Qed.

Lemma triple_bind (m : M A) (k : A -> M B) (R : A -> Prop) (R' : B -> Prop) :
  triple I m R -> (forall a, R a -> triple I (k a) R') ->
  triple I (bind m k) R'.
Proof.
  intros Hm Hk st H. unfold bind.
  destruct (Hm st H) as [H1 H2].
  destruct (m st) as [[e | a] st']; simpl in *.
  - split; [exact H1 | discriminate].
  - apply (Hk a (H2 a eq_refl) st' H1).
Qed.

Lemma triple_try (body : M A) (catches : exn -> bool) (handler : exn -> M A)
    (R : A -> Prop) :
  triple I body R -> (forall e, triple I (handler e) R) ->
  triple I (try_except body catches handler) R.
Proof.
  intros Hb Hh st H. unfold try_except.
  destruct (Hb st H) as [H1 H2].
  destruct (body st) as [[e | a] st']; simpl in *.
  - destruct (catches e).
    + apply (Hh e st' H1).
    + split; [exact H1 | discriminate].
  - split; [exact H1 | exact H2].
Qed.

Lemma triple_query (select : database -> A) : triple I (query select) anything.
Proof. intros st H; split; [exact H | intros; exact Logic.I]. Qed.

Lemma triple_query_checked (select : database -> exn + A) :
  triple I (query_checked select) anything.
Proof. intros st H; split; [exact H | intros; exact Logic.I]. Qed.

Lemma triple_input_until (prompt : string) (accept : string -> option A)
    (complain : string -> line) :
  triple I (input_until prompt accept complain)
         (fun a => exists s, accept s = Some a).
Proof.
  intros st H. unfold input_until.
  assert (Hr : forall ins a,
             fst (fst (read_until prompt accept complain ins)) = inr a ->
             exists s, accept s = Some a).
  { induction ins as [| s rest IH]; simpl; intros a Ha; [discriminate |].
    destruct (accept s) as [a' |] eqn:Hs.
    - simpl in Ha. injection Ha as <-. exists s; exact Hs.
    - destruct (read_until prompt accept complain rest) as [[r ins'] out].
      simpl in *. apply IH, Ha. }
  specialize (Hr (stdin st)).
  destruct (read_until prompt accept complain (stdin st)) as [[r ins'] out].
  simpl in *. split; [exact H | exact Hr].
Qed.

End Triples.

Lemma triple_print (I : invariant) (l : line) : triple I (print l) anything.
Proof. intros st H; split; [exact H | intros; exact Logic.I]. Qed.

Lemma triple_print_all (I : invariant) (ls : list line) :
  triple I (print_all ls) anything.
Proof. intros st H; split; [exact H | intros; exact Logic.I]. Qed.

Lemma triple_input (I : invariant) (prompt : string) :
  triple I (input prompt) anything.
Proof.
  intros st H. unfold input.
  destruct (stdin st); split; try exact H; intros; exact Logic.I.
Qed.

Lemma triple_input_month_year (I : invariant) :
  triple I input_month_year anything.
Proof.
  intros st H. unfold input_month_year.
  destruct (read_month_year (stdin st)) as [[r ins'] out].
  split; [exact H | intros; exact Logic.I].
Qed.

(** ** The statements of the tables keep the data well formed *)

Lemma Qleb_false_positive (a : Q) : Qleb a 0 = false -> (0 < a)%Q.
Proof.
  unfold Qleb. intros H. apply Qnot_le_lt. intros Hle.
  apply Qle_bool_iff in Hle. congruence.
Qed.

Lemma check_type_valid (ty : string) :
  Table.check_type ty = true <-> ty = "Income" \/ ty = "Expense".
Proof.
  unfold Table.check_type. rewrite orb_true_iff, !String.eqb_eq. tauto.
Qed.

Lemma well_formed_empty : well_formed empty_database.
Proof.
  repeat split; simpl; constructor.
Qed.

Lemma insert_user_well_formed (username password : string) (db db' : database) :
  well_formed db -> Table.insert_user username password db = inr db' ->
  well_formed db'.
Proof.
  unfold Table.insert_user. intros Hwf H.
  destruct (existsb _ _); [discriminate |]. injection H as <-. exact Hwf.
Qed.

Lemma insert_transaction_well_formed (user_id : Z) (ty category : string)
    (amount : Q) (description date : string) (db db' : database) :
  (0 < amount)%Q -> well_formed db ->
  Table.insert_transaction user_id ty category amount description date db
  = inr db' ->
  well_formed db'.
Proof.
  unfold Table.insert_transaction. intros Hpos (Hu & Hk & Ht & Hb) H.
  destruct (Table.check_type ty) eqn:Hty; [| discriminate].
  injection H as <-. apply check_type_valid in Hty.
  split; [exact Hu | split; [| split; [| exact Hb]]]; simpl;
    apply Forall_app; (split; [assumption |]);
    (constructor; [| apply Forall_nil]).
  - exact Hty.
  - exact Hpos.
Qed.

Lemma update_transaction_well_formed (ty category : string) (amount : Q)
    (description date : string) (id user_id : Z) (db db' : database) :
  (0 < amount)%Q -> well_formed db ->
  Table.update_transaction ty category amount description date id user_id db
  = inr db' ->
  well_formed db'.
Proof.
  unfold Table.update_transaction. intros Hpos (Hu & Hk & Ht & Hb) H.
  destruct (existsb _ _ && _) eqn:Hcheck; [discriminate |].
  injection H as <-.
  assert (Hty : forall t, In t (transactions db) ->
                          Table.owned id user_id t = true ->
                          ty = "Income" \/ ty = "Expense").
  { intros t Hin Hown. apply check_type_valid.
    apply andb_false_iff in Hcheck. destruct Hcheck as [Hnone | Hc].
    - assert (Hex : existsb (Table.owned id user_id) (transactions db) = true)
        by (apply existsb_exists; exists t; split; assumption).
      congruence.
    - apply negb_false_iff in Hc. exact Hc. }
  split; [exact Hu | split; [| split; [| exact Hb]]]; simpl.
  - unfold kinds_valid in *. rewrite Forall_forall in *.
    intros t' Hin'. apply in_map_iff in Hin'. destruct Hin' as (t & <- & Hin).
    destruct (Table.owned id user_id t) eqn:Hown.
    + exact (Hty t Hin Hown).
    + apply Hk, Hin.
  - rewrite Forall_forall in *.
    intros t' Hin'. apply in_map_iff in Hin'. destruct Hin' as (t & <- & Hin).
    destruct (Table.owned id user_id t); [exact Hpos | apply Ht, Hin].
Qed.

Lemma Forall_filter_keeps {A : Type} (P : A -> Prop) (p : A -> bool) (l : list A) :
  Forall P l -> Forall P (filter p l).
Proof.
  rewrite !Forall_forall. intros H x Hx. apply filter_In in Hx. apply H, Hx.
Qed.

Lemma delete_transaction_well_formed (id user_id : Z) (db : database) :
  well_formed db -> well_formed (fst (Table.delete_transaction id user_id db)).
Proof.
  intros (Hu & Hk & Ht & Hb).
  split; [exact Hu | split; [| split; [| exact Hb]]]; simpl;
    apply Forall_filter_keeps; assumption.
Qed.

Lemma NoDup_snoc {A : Type} (l : list A) (x : A) :
  NoDup l -> ~ In x l -> NoDup (l ++ [x]).
Proof.
  induction 1 as [| y l Hy Hl IH]; simpl; intros Hx.
  - constructor; [intros [] | constructor].
  - constructor.
    + rewrite in_app_iff. intros [Hin | [<- | []]]; [exact (Hy Hin) |].
      apply Hx. left; reflexivity.
    + apply IH. intros Hin. apply Hx. right; exact Hin.
Qed.

Lemma NoDup_map_filter {A K : Type} (key : A -> K) (p : A -> bool) (l : list A) :
  NoDup (map key l) -> NoDup (map key (filter p l)).
Proof.
  induction l as [| a l IH]; simpl; intros H; [constructor |].
  inversion H as [| ? ? Hnotin Hrest]; subst.
  destruct (p a); simpl; [| exact (IH Hrest)].
  constructor; [| exact (IH Hrest)].
  intros Hin. apply Hnotin. apply in_map_iff in Hin.
  destruct Hin as (b & Hb & Hin). apply filter_In in Hin.
  apply in_map_iff. exists b. split; [exact Hb | apply Hin].
Qed.

Lemma same_budget_key_spec (user_id : Z) (category : string) (b : budget_row) :
  Table.same_budget_key user_id category b = true
  <-> budget_key b = (user_id, category).
Proof.
  unfold Table.same_budget_key, budget_key.
  rewrite andb_true_iff, Z.eqb_eq, String.eqb_eq.
  split; [intros [-> ->]; reflexivity | intros H; injection H; auto].
Qed.

Lemma insert_or_replace_budget_unique (user_id : Z) (category : string)
    (amount : Q) (db : database) :
  budgets_unique db ->
  budgets_unique (Table.insert_or_replace_budget user_id category amount db).
Proof.
  unfold budgets_unique. simpl. intros H. rewrite map_app. simpl.
  apply NoDup_snoc; [apply NoDup_map_filter, H |].
  intros Hin. apply in_map_iff in Hin. destruct Hin as (b & Hb & Hin).
  apply filter_In in Hin. destruct Hin as [_ Hneg].
  change (budget_key b = (user_id, category)) in Hb.
  apply same_budget_key_spec in Hb. rewrite Hb in Hneg. discriminate.
Qed.

Lemma insert_or_replace_budget_well_formed (user_id : Z) (category : string)
    (amount : Q) (db : database) :
  (0 < amount)%Q -> well_formed db ->
  well_formed (Table.insert_or_replace_budget user_id category amount db).
Proof.
  intros Hpos (Hu & Hk & Ht & Hb).
  split; [apply insert_or_replace_budget_unique, Hu |].
  split; [exact Hk | split; [exact Ht |]]. simpl.
  apply Forall_app. split; [apply Forall_filter_keeps, Hb |].
  constructor; [exact Hpos | constructor].
Qed.

(** ** Every command keeps the files well formed *)

Lemma triple_glob_backups (I : invariant) : triple I glob_backups anything.
Proof. intros st H; split; [exact H | intros; exact Logic.I]. Qed.

Lemma triple_report_budgets (I : invariant) (results : list (string * Q * Q)) :
  forall flag, triple I (report_budgets results flag) anything.
Proof.
  induction results as [| [[category budget_amount] spent] rest IH];
    intros flag; simpl.
  - apply triple_ret.
  - destruct (Qgtb spent budget_amount);
      (eapply triple_bind; [apply triple_print | intros _ _; apply IH]).
Qed.

Lemma triple_print_breakdown (I : invariant) (categories : list (string * Q))
    (monthly_expense : Q) :
  triple I (print_breakdown categories monthly_expense) anything.
Proof.
  induction categories as [| [category amount] rest IH]; simpl.
  - apply triple_ret.
  - eapply triple_bind; [apply triple_lift | intros share _].
    eapply triple_bind; [apply triple_print | intros _ _; exact IH].
Qed.

Lemma accept_amount_positive (float_of_string : string -> option Q)
    (typed : string) (amount : Q) :
  accept_amount float_of_string typed = Some amount -> (0 < amount)%Q.
Proof.
  unfold accept_amount. destruct (float_of_string typed) as [a |]; [| discriminate].
  destruct (Qleb a 0) eqn:E; [discriminate |].
  intros H. injection H as <-. apply Qleb_false_positive, E.
Qed.

Section Preservation.

Variable float_of_string : string -> option Q.
Variable pbkdf2_hmac_sha512_hex : string -> string -> string.

(** A property of the database that every statement of the program keeps. *)
Variable W : database -> Prop.

Hypothesis W_insert_user :
  forall username password db db',
    W db -> Table.insert_user username password db = inr db' -> W db'.
Hypothesis W_insert_transaction :
  forall user_id ty category amount description date db db',
    (0 < amount)%Q -> W db ->
    Table.insert_transaction user_id ty category amount description date db
    = inr db' ->
    W db'.
Hypothesis W_update_transaction :
  forall ty category amount description date id user_id db db',
    (0 < amount)%Q -> W db ->
    Table.update_transaction ty category amount description date id user_id db
    = inr db' ->
    W db'.
Hypothesis W_delete_transaction :
  forall id user_id db,
    W db -> W (fst (Table.delete_transaction id user_id db)).
Hypothesis W_insert_or_replace_budget :
  forall user_id category amount db,
    (0 < amount)%Q -> W db ->
    W (Table.insert_or_replace_budget user_id category amount db).

Lemma triple_with_connection {A : Type} (body : M A) (R : A -> Prop) :
  triple (inside W) body R -> triple (outside W) (with_connection body) R.
Proof.
  intros Hb st [Hd Hf]. unfold with_connection.
  destruct (Hb (mk_state (stdin st) (stdout st) (db_file st) (db_file st)
                         (backup_files st))) as [(H1 & _ & H3) H2].
  { exact (conj Hd (conj Hd Hf)). }
  split; [exact (conj H1 H3) | exact H2].
Qed.

Lemma triple_execute (statement : database -> exn + database) :
  (forall db db', W db -> statement db = inr db' -> W db') ->
  triple (inside W) (execute statement) anything.
Proof.
  intros Hs st (Hd & Hp & Hf). unfold execute.
  destruct (statement (pending st)) as [e | db'] eqn:E; simpl.
  - split; [exact (conj Hd (conj Hp Hf)) | intros; exact Logic.I].
  - split; [| intros; exact Logic.I].
    exact (conj Hd (conj (Hs _ _ Hp E) Hf)).
Qed.

Lemma triple_commit : triple (inside W) commit anything.
Proof.
  intros st (Hd & Hp & Hf). split; [| intros; exact Logic.I].
  exact (conj Hp (conj Hp Hf)).
Qed.

Lemma write_file_keeps (name : string) (content : database)
    (files : list (string * database)) :
  W content -> Forall (fun f => W (snd f)) files ->
  Forall (fun f => W (snd f)) (write_file name content files).
Proof.
  intros Hc. induction 1 as [| [n c] rest Hf Hrest IH]; simpl.
  - constructor; [exact Hc | constructor].
  - destruct (n =? name)%string; constructor; assumption.
Qed.

Lemma read_file_keeps (name : string) (files : list (string * database))
    (content : database) :
  Forall (fun f => W (snd f)) files ->
  read_file name files = inr content -> W content.
Proof.
  induction 1 as [| [n c] rest Hf Hrest IH]; simpl; [discriminate |].
  destruct (n =? name)%string; [| exact IH].
  intros H. injection H as <-. exact Hf.
Qed.

Lemma triple_execute_delete (id user_id : Z) :
  triple (inside W) (execute_delete id user_id) anything.
Proof.
  intros st (Hd & Hp & Hf). unfold execute_delete.
  pose proof (W_delete_transaction id user_id _ Hp) as Hw.
  destruct (Table.delete_transaction id user_id (pending st)) as [db' n].
  split; [exact (conj Hd (conj Hw Hf)) | intros; exact Logic.I].
Qed.

Lemma triple_copy_database_to (backup_file : string) :
  triple (outside W) (copy_database_to backup_file) anything.
Proof.
  intros st [Hd Hf]. split; [| intros; exact Logic.I].
  split; [exact Hd | apply write_file_keeps; assumption].
Qed.

Lemma triple_copy_to_database (backup_file : string) :
  triple (outside W) (copy_to_database backup_file) anything.
Proof.
  intros st [Hd Hf]. unfold copy_to_database.
  destruct (read_file backup_file (backup_files st)) as [e | content] eqn:E.
  - split; [exact (conj Hd Hf) | intros; exact Logic.I].
  - split; [| intros; exact Logic.I].
    split; [exact (read_file_keeps _ _ _ Hf E) | exact Hf].
Qed.

Ltac triple_step :=
  lazymatch goal with
  | |- triple _ (bind _ _) _ => eapply triple_bind; [ | intros ? ? ]
  | |- triple _ (try_except _ _ _) _ => apply triple_try; [ | intros ? ]
  | |- triple _ (with_connection _) _ => apply triple_with_connection
  | |- triple _ (print _) _ => apply triple_print
  | |- triple _ (print_all _) _ => apply triple_print_all
  | |- triple _ (input _) _ => apply triple_input
  | |- triple _ (input_until _ _ _) _ => apply triple_input_until
  | |- triple _ input_month_year _ => apply triple_input_month_year
  | |- triple _ (ret _) _ => apply triple_ret
  | |- triple _ (raise _) _ => apply triple_raise
  | |- triple _ (lift _) _ => apply triple_lift
  | |- triple _ commit _ => apply triple_commit
  | |- triple _ (query _) _ => apply triple_query
  | |- triple _ (query_checked _) _ => apply triple_query_checked
  | |- triple _ (execute_delete _ _) _ => apply triple_execute_delete
  | |- triple _ glob_backups _ => apply triple_glob_backups
  | |- triple _ (copy_database_to _) _ => apply triple_copy_database_to
  | |- triple _ (copy_to_database _) _ => apply triple_copy_to_database
  | |- triple _ (report_budgets _ _) _ => apply triple_report_budgets
  | |- triple _ (print_breakdown _ _) _ => apply triple_print_breakdown
  | |- triple _ (if ?b then _ else _) _ => destruct b eqn:?
  | |- triple _ (match ?x with _ => _ end) _ => destruct x eqn:?
  end.

Ltac amount_is_positive :=
  cbv beta in *;
  match goal with
  | Ha : exists s, accept_amount _ s = Some _ |- _ =>
      let s := fresh "s" in
      let Hs := fresh "Hs" in
      destruct Ha as [s Hs]; apply accept_amount_positive in Hs; exact Hs
  end.

Lemma register_user_keeps (salt : string) :
  triple (outside W) (register_user pbkdf2_hmac_sha512_hex salt) anything.
Proof.
  unfold register_user. repeat triple_step.
  apply triple_execute. intros db db' Hw Hstmt.
  exact (W_insert_user _ _ _ _ Hw Hstmt).
Qed.

Lemma login_user_keeps :
  triple (outside W) (login_user pbkdf2_hmac_sha512_hex) anything.
Proof. unfold login_user. repeat triple_step. Qed.

Lemma view_transactions_keeps (user_id : Z) :
  triple (outside W) (view_transactions user_id) anything.
Proof. unfold view_transactions. repeat triple_step. Qed.

Lemma add_transaction_keeps (user_id : Z) :
  triple (outside W) (add_transaction float_of_string user_id) anything.
Proof.
  unfold add_transaction. repeat triple_step.
  apply triple_execute. intros db db' Hw Hstmt.
  refine (W_insert_transaction _ _ _ _ _ _ _ _ _ Hw Hstmt).
  amount_is_positive.
Qed.

Lemma update_transaction_keeps (user_id : Z) :
  triple (outside W) (update_transaction float_of_string user_id) anything.
Proof.
  unfold update_transaction.
  eapply triple_bind; [apply triple_print | intros _ _].
  eapply triple_bind; [apply view_transactions_keeps | intros _ _].
  repeat triple_step.
  apply triple_execute. intros db db' Hw Hstmt.
  refine (W_update_transaction _ _ _ _ _ _ _ _ _ _ Hw Hstmt).
  amount_is_positive.
Qed.

Lemma delete_transaction_keeps (user_id : Z) :
  triple (outside W) (delete_transaction user_id) anything.
Proof.
  unfold delete_transaction.
  eapply triple_bind; [apply triple_print | intros _ _].
  eapply triple_bind; [apply view_transactions_keeps | intros _ _].
  repeat triple_step.
Qed.

Lemma set_budget_keeps (user_id : Z) :
  triple (outside W) (set_budget float_of_string user_id) anything.
Proof.
  unfold set_budget. repeat triple_step.
  apply triple_execute. intros db db' Hw Hstmt. injection Hstmt as <-.
  apply W_insert_or_replace_budget; [| exact Hw].
  apply Qleb_false_positive. assumption.
Qed.

Lemma check_budget_keeps (now : Query.date) (user_id : Z) :
  triple (outside W) (check_budget now user_id) anything.
Proof. unfold check_budget. repeat triple_step. Qed.

Lemma generate_reports_keeps (user_id : Z) :
  triple (outside W) (generate_reports user_id) anything.
Proof. unfold generate_reports. repeat triple_step. Qed.

Lemma backup_data_keeps (timestamp : string) :
  triple (outside W) (backup_data timestamp) anything.
Proof. unfold backup_data. repeat triple_step. Qed.

Lemma restore_data_keeps : triple (outside W) restore_data anything.
Proof. unfold restore_data. repeat triple_step. Qed.

(** Whatever the command and whatever is typed, the file and the backups
    still satisfy [W] afterwards. *)
Lemma run_keeps (c : command) (st : state) :
  holds (outside W) st ->
  holds (outside W) (snd (run float_of_string pbkdf2_hmac_sha512_hex c st)).
Proof.
  intros H.
  assert (Ht : triple (outside W)
                      (run float_of_string pbkdf2_hmac_sha512_hex c) anything).
  { destruct c; simpl.
    - apply register_user_keeps.
    - eapply triple_bind; [apply login_user_keeps | intros; apply triple_ret].
    - apply add_transaction_keeps.
    - apply view_transactions_keeps.
    - apply update_transaction_keeps.
    - apply delete_transaction_keeps.
    - apply set_budget_keeps.
    - apply check_budget_keeps.
    - apply generate_reports_keeps.
    - apply backup_data_keeps.
    - apply restore_data_keeps. }
  apply (Ht st H).
Qed.

Lemma reachable_keeps (st : state) :
  W empty_database ->
  reachable float_of_string pbkdf2_hmac_sha512_hex st -> holds (outside W) st.
Proof.
  intros H0. induction 1 as [typed | c st Hr IH].
  - split; [exact H0 | constructor].
  - apply run_keeps, IH.
Qed.

End Preservation.

(** Both the whole of [well_formed] and the uniqueness of budgets alone are
    kept. *)

Lemma run_keeps_files_well_formed
    (float_of_string : string -> option Q)
    (pbkdf2_hmac_sha512_hex : string -> string -> string)
    (c : command) (st : state) :
  files_well_formed st ->
  files_well_formed (snd (run float_of_string pbkdf2_hmac_sha512_hex c st)).
Proof.
  apply (run_keeps float_of_string pbkdf2_hmac_sha512_hex well_formed).
  - exact insert_user_well_formed.
  - exact insert_transaction_well_formed.
  - exact update_transaction_well_formed.
  - exact delete_transaction_well_formed.
  - exact insert_or_replace_budget_well_formed.
Qed.

Lemma reachable_files_well_formed
    (float_of_string : string -> option Q)
    (pbkdf2_hmac_sha512_hex : string -> string -> string) (st : state) :
  reachable float_of_string pbkdf2_hmac_sha512_hex st -> files_well_formed st.
Proof.
  intros Hr.
  apply (reachable_keeps float_of_string pbkdf2_hmac_sha512_hex well_formed);
    try assumption.
  - exact insert_user_well_formed.
  - exact insert_transaction_well_formed.
  - exact update_transaction_well_formed.
  - exact delete_transaction_well_formed.
  - exact insert_or_replace_budget_well_formed.
  - exact well_formed_empty.
Qed.

Lemma run_keeps_budgets_unique
    (float_of_string : string -> option Q)
    (pbkdf2_hmac_sha512_hex : string -> string -> string)
    (c : command) (st : state) :
  budgets_unique_everywhere st ->
  budgets_unique_everywhere
    (snd (run float_of_string pbkdf2_hmac_sha512_hex c st)).
Proof.
  apply (run_keeps float_of_string pbkdf2_hmac_sha512_hex budgets_unique).
  - intros username password db db' H. unfold Table.insert_user.
    destruct (existsb _ _); [discriminate |]. intros E; injection E as <-. exact H.
  - intros user_id ty category amount description date db db' _ H.
    unfold Table.insert_transaction.
    destruct (Table.check_type ty); [| discriminate].
    intros E; injection E as <-. exact H.
  - intros ty category amount description date id user_id db db' _ H.
    unfold Table.update_transaction.
    destruct (_ && _); [discriminate |]. intros E; injection E as <-. exact H.
  - intros id user_id db H. exact H.
  - intros user_id category amount db _ H.
    apply insert_or_replace_budget_unique, H.
Qed.

(** ** Transaction kinds *)

Lemma to_upper_to_lower (c : ascii) :
  PyStr.is_lower (PyStr.to_lower c) = true ->
  PyStr.to_upper c = PyStr.to_upper (PyStr.to_lower c).
Proof.
  destruct c as [[] [] [] [] [] [] [] []]; vm_compute; intros;
    first [reflexivity | discriminate].
Qed.

Lemma capitalize_of_lowercase (typed : string) (c : ascii) (rest : string) :
  PyStr.is_lower c = true ->
  PyStr.lower typed = String c rest ->
  PyStr.capitalize typed = String (PyStr.to_upper c) rest.
Proof.
  intros Hc. destruct typed as [| a typed']; simpl; [discriminate |].
  intros H. injection H as Ha Hrest. subst rest.
  rewrite to_upper_to_lower; rewrite Ha; [reflexivity | exact Hc].
Qed.

Lemma accept_type_valid (typed ty : string) :
  accept_type typed = Some ty ->
  ty = PyStr.capitalize typed /\ (ty = "Income" \/ ty = "Expense").
Proof.
  unfold accept_type.
  destruct (_ || _) eqn:E; [| discriminate].
  intros H. injection H as <-. split; [reflexivity |].
  apply orb_true_iff in E. rewrite !String.eqb_eq in E. exact E.
Qed.

(** C8.  The kind typed by the user is capitalized and then checked, so every
    casing of "income" / "expense" is accepted as "Income" / "Expense" and
    nothing else is accepted; the INSERT refuses any other kind (CHECK
    constraint); and in every state the program can reach, every stored
    transaction has kind "Income" or "Expense". *)
Theorem stored_kind_is_income_or_expense
    (float_of_string : string -> option Q)
    (pbkdf2_hmac_sha512_hex : string -> string -> string) :
  (forall typed, PyStr.lower typed = "income" ->
                 accept_type typed = Some "Income")
  /\ (forall typed, PyStr.lower typed = "expense" ->
                    accept_type typed = Some "Expense")
  /\ (forall typed ty, accept_type typed = Some ty ->
                       ty = PyStr.capitalize typed
                       /\ (ty = "Income" \/ ty = "Expense"))
  /\ (forall user_id ty category amount description date db,
         ty <> "Income" -> ty <> "Expense" ->
         Table.insert_transaction user_id ty category amount description date db
         = inl IntegrityError)
  /\ (forall st,
         reachable float_of_string pbkdf2_hmac_sha512_hex st ->
         forall t, In t (transactions (db_file st)) ->
                   t_type t = "Income" \/ t_type t = "Expense").
Proof.
  split; [| split; [| split; [| split]]].
  - intros typed H. unfold accept_type.
    rewrite (capitalize_of_lowercase typed "i" "ncome" eq_refl H). reflexivity.
  - intros typed H. unfold accept_type.
    rewrite (capitalize_of_lowercase typed "e" "xpense" eq_refl H). reflexivity.
  - exact accept_type_valid.
  - intros user_id ty category amount description date db Hi He.
    unfold Table.insert_transaction.
    destruct (Table.check_type ty) eqn:E; [| reflexivity].
    apply check_type_valid in E. tauto.
  - intros st Hr t Hin.
    destruct (reachable_files_well_formed _ _ st Hr) as [(_ & Hk & _) _].
    unfold kinds_valid in Hk. rewrite Forall_forall in Hk. exact (Hk t Hin).
Qed.

(** ** Passwords *)

(** C9.  [verify_password] always returns a boolean: whatever goes wrong
    under its [try] is turned into [False].  A stored credential that does
    not split into exactly two parts around ':' gives [False], and
    [login_user] then answers as for any wrong password. *)
Theorem verify_password_never_raises
    (pbkdf2_hmac_sha512_hex : string -> string -> string) :
  (forall stored provided,
      exists b, verify_password pbkdf2_hmac_sha512_hex stored provided = inr b)
  /\ (forall stored provided,
         List.length (PyStr.split ":" stored) <> 2 ->
         verify_password pbkdf2_hmac_sha512_hex stored provided = inr false)
  /\ (forall st typed password rest id stored,
         stdin st = typed :: password :: rest ->
         Table.select_user (PyStr.strip typed) (db_file st) = Some (id, stored) ->
         List.length (PyStr.split ":" stored) <> 2 ->
         let result := login_user pbkdf2_hmac_sha512_hex st in
         fst result = inr None
         /\ stdin (snd result) = rest
         /\ stdout (snd result)
            = (stdout st
               ++ [Text (nl ++ "=== Login ===");
                   Prompt "Enter your username: ";
                   Prompt "Enter your password: ";
                   Text "Invalid username or password. Please try again."])%list
         /\ db_file (snd result) = db_file st).
Proof.
  assert (Hmal : forall stored provided,
             List.length (PyStr.split ":" stored) <> 2 ->
             verify_password pbkdf2_hmac_sha512_hex stored provided = inr false).
  { intros stored provided Hlen. unfold verify_password, verify_password_try.
    destruct (PyStr.split ":" stored) as [| salt [| stored_hash [| x l]]];
      try reflexivity.
    simpl in Hlen. congruence. }
  split; [| split; [exact Hmal |]].
  - intros stored provided. unfold verify_password.
    destruct (verify_password_try _ stored provided) as [e | b];
      [exists false | exists b]; reflexivity.
  - intros st typed password rest id stored Hin Hsel Hlen.
    unfold login_user, bind, print, input, try_except, with_connection, query, ret.
    simpl. rewrite Hin. simpl. rewrite Hsel.
    rewrite (Hmal stored password Hlen). simpl.
    repeat split. rewrite <- !app_assoc. reflexivity.
Qed.

(** ** Printed output *)

Lemma output_of_appended {A : Type} (m : M A) (st : state) (out : list line) :
  stdout (snd (m st)) = (stdout st ++ out)%list -> output_of m st = out.
Proof.
  unfold output_of. intros ->.
  induction (stdout st) as [| l ls IH]; simpl; [reflexivity | exact IH].
Qed.

Lemma view_transactions_result (user_id : Z) (st : state) :
  view_transactions user_id st
  = (inr tt,
     mk_state (stdin st) (stdout st ++ view_lines user_id (db_file st))
              (db_file st) (db_file st) (backup_files st)).
Proof.
  unfold view_transactions, view_lines, bind, try_except, with_connection,
    query, print, print_all.
  simpl.
  destruct (Table.select_transactions_of user_id (db_file st)); simpl;
    rewrite <- app_assoc; reflexivity.
Qed.

(** ** Deleting a transaction *)

Lemma filter_none {A : Type} (p : A -> bool) (l : list A) :
  (forall x, In x l -> p x = false) -> filter p l = [].
Proof.
  induction l as [| a l IH]; simpl; intros H; [reflexivity |].
  rewrite (H a (or_introl eq_refl)). apply IH. intros x Hx. apply H. right; exact Hx.
Qed.

Lemma filter_some_length {A : Type} (p : A -> bool) (l : list A) (x : A) :
  In x l -> p x = true -> 0 < List.length (filter p l).
Proof.
  induction l as [| a l IH]; simpl; intros Hin Hp; [contradiction |].
  destruct Hin as [-> | Hin].
  - rewrite Hp. simpl. lia.
  - destruct (p a); simpl; [lia | exact (IH Hin Hp)].
Qed.

Lemma filter_split_length {A : Type} (p : A -> bool) (l : list A) :
  List.length (filter p l) + List.length (filter (fun x => negb (p x)) l)
  = List.length l.
Proof.
  induction l as [| a l IH]; simpl; [reflexivity |].
  destruct (p a); simpl; lia.
Qed.

Lemma owned_spec (id user_id : Z) (t : transaction_row) :
  Table.owned id user_id t = true <-> t_id t = id /\ t_user_id t = user_id.
Proof.
  unfold Table.owned. rewrite andb_true_iff, !Z.eqb_eq. tauto.
Qed.

(** An id held by a stored row is one SQLite can bind; one it cannot bind
    is the id of no stored row. *)
Lemma stored_id_fits (db : database) (t : transaction_row) :
  ids_fit db -> In t (transactions db) -> fits_int64 (t_id t) = true.
Proof.
  intros Hids Hin. unfold ids_fit in Hids. rewrite Forall_forall in Hids.
  exact (Hids t Hin).
Qed.

Lemma unbound_id_owns_nothing (id user_id : Z) (db : database) :
  ids_fit db -> fits_int64 id = false ->
  filter (Table.owned id user_id) (transactions db) = [].
Proof.
  intros Hids Hfits. unfold ids_fit in Hids.
  induction Hids as [| t l Ht _ IH]; simpl; [reflexivity |].
  destruct (Table.owned id user_id t) eqn:E; [| exact IH].
  apply owned_spec in E. destruct E as [E _]. congruence.
Qed.

(** [delete_transaction] once the id is typed and the deletion confirmed,
    for an id that SQLite can bind. *)
Lemma delete_transaction_bound (user_id : Z) (st : state)
    (typed_id confirm : string) (rest : list string) (id : Z) :
  stdin st = typed_id :: confirm :: rest ->
  PyStr.int_of_string typed_id = Some id ->
  PyStr.lower confirm = "y" ->
  fits_int64 id = true ->
  delete_transaction user_id st
  = if 0 <? List.length (filter (Table.owned id user_id)
                                (transactions (db_file st)))
    then
      (inr tt,
       mk_state rest
         (stdout st ++ delete_preamble user_id (db_file st)
          ++ [Text "Transaction deleted successfully!"])
         (fst (Table.delete_transaction id user_id (db_file st)))
         (fst (Table.delete_transaction id user_id (db_file st)))
         (backup_files st))
    else
      (inr tt,
       mk_state rest
         (stdout st ++ delete_preamble user_id (db_file st)
          ++ [Text "Transaction not found."])
         (db_file st)
         (fst (Table.delete_transaction id user_id (db_file st)))
         (backup_files st)).
Proof.
  intros Hin Hid Hconfirm Hfits.
  unfold delete_transaction, bind at 1 2. unfold print at 1.
  rewrite view_transactions_result. simpl.
  unfold bind, input. simpl. rewrite Hin, Hid. simpl.
  rewrite Hconfirm. simpl.
  unfold try_except, with_connection, lift, bind_integer, execute_delete,
    commit, print.
  rewrite Hfits. simpl.
  unfold delete_preamble.
  destruct (0 <? _); simpl; repeat (rewrite <- !app_assoc; simpl);
    reflexivity.
Qed.

(** The same for an id that SQLite cannot bind: the statement is not run. *)
Lemma delete_transaction_unbound (user_id : Z) (st : state)
    (typed_id confirm : string) (rest : list string) (id : Z) :
  stdin st = typed_id :: confirm :: rest ->
  PyStr.int_of_string typed_id = Some id ->
  PyStr.lower confirm = "y" ->
  fits_int64 id = false ->
  delete_transaction user_id st
  = (inr tt,
     mk_state rest
       (stdout st ++ delete_preamble user_id (db_file st)
        ++ [Text "Failed to delete transaction. Please try again."])
       (db_file st) (db_file st) (backup_files st)).
Proof.
  intros Hin Hid Hconfirm Hfits.
  unfold delete_transaction, bind at 1 2. unfold print at 1.
  rewrite view_transactions_result. simpl.
  unfold bind, input. simpl. rewrite Hin, Hid. simpl.
  rewrite Hconfirm. simpl.
  unfold try_except, with_connection, lift, bind_integer, print.
  rewrite Hfits. simpl.
  unfold delete_preamble.
  repeat (rewrite <- !app_assoc; simpl). reflexivity.
Qed.

(** C7, as amended.  With a transaction id typed and the deletion confirmed.
    When the id fits the 64 bits of SQLite's INTEGER: if no stored
    transaction has that id and belongs to the user (it does not exist, or it
    is someone else's), [delete_transaction] prints "Transaction not found."
    and leaves the database file as it was, row for row; if there is one,
    the rows with that id and owner are removed, the file is committed and
    "Transaction deleted successfully!" is printed instead.  When the id does
    not fit, the DELETE is not run: "Failed to delete transaction. Please try
    again." is printed and the database file is as it was. *)
Theorem delete_transaction_reports_not_found
    (user_id : Z) (st : state) (typed_id confirm : string)
    (rest : list string) (id : Z) :
  stdin st = typed_id :: confirm :: rest ->
  PyStr.int_of_string typed_id = Some id ->
  PyStr.lower confirm = "y" ->
  let after := snd (delete_transaction user_id st) in
  let printed := output_of (delete_transaction user_id) st in
  (fits_int64 id = true ->
   (forall t, In t (transactions (db_file st)) ->
              ~ (t_id t = id /\ t_user_id t = user_id)) ->
   db_file after = db_file st
   /\ backup_files after = backup_files st
   /\ List.length (transactions (db_file after))
      = List.length (transactions (db_file st))
   /\ printed = (delete_preamble user_id (db_file st)
                 ++ [Text "Transaction not found."])%list)
  /\ (fits_int64 id = true ->
      (exists t, In t (transactions (db_file st))
                 /\ t_id t = id /\ t_user_id t = user_id) ->
      db_file after = fst (Table.delete_transaction id user_id (db_file st))
      /\ backup_files after = backup_files st
      /\ List.length (transactions (db_file after))
         < List.length (transactions (db_file st))
      /\ printed = (delete_preamble user_id (db_file st)
                    ++ [Text "Transaction deleted successfully!"])%list)
  /\ (fits_int64 id = false ->
      db_file after = db_file st
      /\ backup_files after = backup_files st
      /\ printed
         = (delete_preamble user_id (db_file st)
            ++ [Text "Failed to delete transaction. Please try again."])%list).
Proof.
  intros Hin Hid Hconfirm after printed.
  split; [| split].
  - intros Hfits Hnone.
    pose proof (delete_transaction_bound user_id st typed_id confirm rest id
                  Hin Hid Hconfirm Hfits) as Hrun.
    assert (Hf : filter (Table.owned id user_id) (transactions (db_file st)) = []).
    { apply filter_none. intros t Ht.
      destruct (Table.owned id user_id t) eqn:E; [| reflexivity].
      apply owned_spec in E. destruct (Hnone t Ht E). }
    subst after printed. rewrite Hf in Hrun. simpl in Hrun.
    repeat split; try (rewrite Hrun; reflexivity).
    apply output_of_appended. rewrite Hrun. reflexivity.
  - intros Hfits (t & Ht & Hid' & Hu).
    pose proof (delete_transaction_bound user_id st typed_id confirm rest id
                  Hin Hid Hconfirm Hfits) as Hrun.
    assert (Hpos : 0 < List.length (filter (Table.owned id user_id)
                                           (transactions (db_file st))))
      by (apply (filter_some_length _ _ t Ht); apply owned_spec; auto).
    subst after printed.
    apply Nat.ltb_lt in Hpos as Hb. rewrite Hb in Hrun.
    repeat split; try (rewrite Hrun; reflexivity).
    + rewrite Hrun. simpl.
      pose proof (filter_split_length (Table.owned id user_id)
                    (transactions (db_file st))). lia.
    + apply output_of_appended. rewrite Hrun. reflexivity.
  - intros Hfits.
    pose proof (delete_transaction_unbound user_id st typed_id confirm rest id
                  Hin Hid Hconfirm Hfits) as Hrun.
    subst after printed.
    repeat split; try (rewrite Hrun; reflexivity).
    apply output_of_appended. rewrite Hrun. reflexivity.
Qed.

(** ** Budgets *)

Lemma is_empty_false (s : string) : s <> "" -> PyStr.is_empty s = false.
Proof. destruct s; [intros H; destruct (H eq_refl) | reflexivity]. Qed.

Lemma positive_Qleb_false (a : Q) : (0 < a)%Q -> Qleb a 0 = false.
Proof.
  intros H. unfold Qleb. destruct (Qle_bool a 0) eqn:E; [| reflexivity].
  apply Qle_bool_iff in E. destruct (Qlt_not_le _ _ H E).
Qed.

Lemma nonpositive_Qleb_true (a : Q) : (a <= 0)%Q -> Qleb a 0 = true.
Proof. intros H. apply Qle_bool_iff, H. Qed.

(** [set_budget] with a category and a positive amount typed. *)
Lemma set_budget_stores (float_of_string : string -> option Q)
    (user_id : Z) (st : state) (typed typed_amount : string)
    (rest : list string) (amount : Q) :
  stdin st = typed :: typed_amount :: rest ->
  PyStr.strip typed <> "" ->
  float_of_string typed_amount = Some amount ->
  (0 < amount)%Q ->
  let db' := Table.insert_or_replace_budget user_id (PyStr.strip typed) amount
               (db_file st) in
  set_budget float_of_string user_id st
  = (inr tt,
     mk_state rest
       (stdout st ++ [Text (nl ++ "=== Set Budget ===");
                      Prompt "Enter category for the budget: ";
                      Prompt "Enter budget amount: ";
                      BudgetSet (PyStr.strip typed) amount])
       db' db' (backup_files st)).
Proof.
  intros Hin Hcat Hf Hpos db'.
  unfold set_budget, bind, print, input, try_except, with_connection, execute,
    commit. simpl.
  rewrite Hin. simpl. rewrite (is_empty_false _ Hcat). simpl.
  rewrite Hf, (positive_Qleb_false _ Hpos). simpl.
  rewrite <- !app_assoc. reflexivity.
Qed.

(** [set_budget] with an amount that is not positive. *)
Lemma set_budget_rejects (float_of_string : string -> option Q)
    (user_id : Z) (st : state) (typed typed_amount : string)
    (rest : list string) (amount : Q) :
  stdin st = typed :: typed_amount :: rest ->
  PyStr.strip typed <> "" ->
  float_of_string typed_amount = Some amount ->
  (amount <= 0)%Q ->
  set_budget float_of_string user_id st
  = (inr tt,
     mk_state rest
       (stdout st ++ [Text (nl ++ "=== Set Budget ===");
                      Prompt "Enter category for the budget: ";
                      Prompt "Enter budget amount: ";
                      Text "Budget amount must be positive."])
       (db_file st) (pending st) (backup_files st)).
Proof.
  intros Hin Hcat Hf Hneg.
  unfold set_budget, bind, print, input, try_except. simpl.
  rewrite Hin. simpl. rewrite (is_empty_false _ Hcat). simpl.
  rewrite Hf, (nonpositive_Qleb_true _ Hneg). simpl.
  rewrite <- !app_assoc. reflexivity.
Qed.

Lemma rows_after_insert_or_replace (user_id : Z) (category : string)
    (amount : Q) (db : database) :
  filter (Table.same_budget_key user_id category)
         (budgets (Table.insert_or_replace_budget user_id category amount db))
  = [mk_budget (Table.next_id (seq_budgets db) (map b_id (budgets db)))
               user_id category amount].
Proof.
  unfold Table.insert_or_replace_budget. cbn [budgets].
  rewrite filter_app. cbn [filter].
  match goal with
  | |- context [Table.same_budget_key ?u ?c (mk_budget ?i ?u ?c ?a)] =>
      rewrite (proj2 (same_budget_key_spec u c (mk_budget i u c a)) eq_refl)
  end.
  rewrite filter_none; [reflexivity |].
  intros b Hb. apply filter_In in Hb. destruct Hb as [_ Hb].
  apply negb_true_iff in Hb. exact Hb.
Qed.

(** [set_budget] with a category of which nothing is left once stripped. *)
Lemma set_budget_blank (float_of_string : string -> option Q)
    (user_id : Z) (st : state) (typed : string) (rest : list string) :
  stdin st = typed :: rest ->
  PyStr.strip typed = "" ->
  set_budget float_of_string user_id st
  = (inr tt,
     mk_state rest
       (stdout st ++ [Text (nl ++ "=== Set Budget ===");
                      Prompt "Enter category for the budget: ";
                      Text "Category cannot be empty."])
       (db_file st) (pending st) (backup_files st)).
Proof.
  intros Hin Hcat.
  unfold set_budget, bind, print, input. simpl.
  rewrite Hin. simpl. rewrite Hcat. simpl.
  rewrite <- !app_assoc. reflexivity.
Qed.

(** C4, as amended.  Two calls of [set_budget] in a row for the same
    category -- ASCII text typed, stripped of surrounding white space, and
    not empty -- with positive amounts [a1] and [a2] leave exactly one budget
    row for (user, category), and its amount is [a2].  A category of which
    nothing is left once stripped is refused before the amount is asked: the
    next line stays unread and nothing is stored.  An amount that is not
    positive is refused and the database file and the backups stay as they
    were.  Every command keeps at most one budget row per (user, category)
    in the file and in every backup, so this holds in every state that can
    be reached. *)
Theorem set_budget_upserts
    (float_of_string : string -> option Q)
    (pbkdf2_hmac_sha512_hex : string -> string -> string) :
  (forall user_id st typed1 amount1 typed2 amount2 rest category a1 a2,
      stdin st = typed1 :: amount1 :: typed2 :: amount2 :: rest ->
      ascii_text typed1 = true -> ascii_text typed2 = true ->
      PyStr.strip typed1 = category -> PyStr.strip typed2 = category ->
      category <> "" ->
      float_of_string amount1 = Some a1 -> float_of_string amount2 = Some a2 ->
      (0 < a1)%Q -> (0 < a2)%Q ->
      let after :=
        snd (set_budget float_of_string user_id
               (snd (set_budget float_of_string user_id st))) in
      exists row,
        filter (Table.same_budget_key user_id category)
               (budgets (db_file after)) = [row]
        /\ b_user_id row = user_id /\ b_category row = category
        /\ b_amount row = a2)
  /\ (forall user_id st typed rest,
         stdin st = typed :: rest ->
         PyStr.strip typed = "" ->
         let after := snd (set_budget float_of_string user_id st) in
         db_file after = db_file st
         /\ backup_files after = backup_files st
         /\ stdin after = rest
         /\ output_of (set_budget float_of_string user_id) st
            = [Text (nl ++ "=== Set Budget ===");
               Prompt "Enter category for the budget: ";
               Text "Category cannot be empty."])
  /\ (forall user_id st typed typed_amount rest amount,
         stdin st = typed :: typed_amount :: rest ->
         ascii_text typed = true ->
         PyStr.strip typed <> "" ->
         float_of_string typed_amount = Some amount ->
         (amount <= 0)%Q ->
         let after := snd (set_budget float_of_string user_id st) in
         db_file after = db_file st
         /\ backup_files after = backup_files st
         /\ output_of (set_budget float_of_string user_id) st
            = [Text (nl ++ "=== Set Budget ===");
               Prompt "Enter category for the budget: ";
               Prompt "Enter budget amount: ";
               Text "Budget amount must be positive."])
  /\ (forall c st,
         budgets_unique_everywhere st ->
         budgets_unique_everywhere
           (snd (run float_of_string pbkdf2_hmac_sha512_hex c st)))
  /\ (forall st,
         reachable float_of_string pbkdf2_hmac_sha512_hex st ->
         budgets_unique (db_file st)).
Proof.
  split; [| split; [| split; [| split]]].
  - intros user_id st typed1 amount1 typed2 amount2 rest category a1 a2
           Hin _ _ H1 H2 Hcat Hf1 Hf2 Hp1 Hp2 after.
    subst after.
    rewrite (set_budget_stores float_of_string user_id st typed1 amount1
               (typed2 :: amount2 :: rest) a1 Hin
               ltac:(rewrite H1; exact Hcat) Hf1 Hp1).
    cbv zeta. simpl snd.
    erewrite set_budget_stores;
      [| reflexivity | rewrite H2; exact Hcat | exact Hf2 | exact Hp2].
    cbv zeta. simpl snd. simpl db_file. rewrite H1, H2.
    rewrite rows_after_insert_or_replace.
    eexists. split; [reflexivity |]. simpl. auto.
  - intros user_id st typed rest Hin Hcat after. subst after.
    pose proof (set_budget_blank float_of_string user_id st typed rest
                  Hin Hcat) as Hrun.
    repeat split; try (rewrite Hrun; reflexivity).
    apply output_of_appended. rewrite Hrun. reflexivity.
  - intros user_id st typed typed_amount rest amount Hin _ Hcat Hf Hneg after.
    subst after.
    pose proof (set_budget_rejects float_of_string user_id st typed
                  typed_amount rest amount Hin Hcat Hf Hneg) as Hrun.
    repeat split; try (rewrite Hrun; reflexivity).
    apply output_of_appended. rewrite Hrun. reflexivity.
  - intros c st. apply run_keeps_budgets_unique.
  - intros st Hr.
    destruct (reachable_files_well_formed _ _ st Hr) as [(Hu & _) _]. exact Hu.
Qed.

(** ** GROUP BY *)

Section Distinct.
Context {K : Type} (same : K -> K -> bool).
Hypothesis same_refl : forall k, same k k = true.
Hypothesis same_trans :
  forall a b c, same a b = true -> same b c = true -> same a c = true.

Lemma distinct_incl (keys : list K) (k : K) :
  In k (Sql.distinct same keys) -> In k keys.
Proof.
  revert k. induction keys as [| a rest IH]; simpl; intros k; [tauto |].
  intros [-> | Hin]; [left; reflexivity |].
  apply filter_In in Hin. right. apply IH, Hin.
Qed.

Lemma distinct_complete (keys : list K) (k : K) :
  In k keys ->
  exists k', In k' (Sql.distinct same keys) /\ same k' k = true.
Proof.
  induction keys as [| a rest IH]; simpl; [tauto |].
  intros [-> | Hin].
  - exists k. split; [left; reflexivity | apply same_refl].
  - destruct (IH Hin) as (k' & Hk' & Hs).
    destruct (same a k') eqn:E.
    + exists a. split; [left; reflexivity | exact (same_trans _ _ _ E Hs)].
    + exists k'. split; [| exact Hs]. right.
      apply filter_In. split; [exact Hk' | rewrite E; reflexivity].
Qed.

End Distinct.

Lemma distinct_strings_NoDup (keys : list string) :
  NoDup (Sql.distinct String.eqb keys).
Proof.
  induction keys as [| a rest IH]; simpl; constructor.
  - intros Hin. apply filter_In in Hin. destruct Hin as [_ Hin].
    rewrite String.eqb_refl in Hin. discriminate.
  - apply NoDup_filter, IH.
Qed.

Lemma same_key_refl (k : string * Q) : Query.same_key k k = true.
Proof.
  unfold Query.same_key. rewrite String.eqb_refl. simpl.
  apply Qeq_bool_iff. reflexivity.
Qed.

Lemma same_key_trans (a b c : string * Q) :
  Query.same_key a b = true -> Query.same_key b c = true ->
  Query.same_key a c = true.
Proof.
  unfold Query.same_key. rewrite !andb_true_iff, !String.eqb_eq, !Qeq_bool_iff.
  intros [-> H1] [-> H2]. split; [reflexivity | rewrite H1; exact H2].
Qed.

Lemma same_key_category (a b : string * Q) :
  Query.same_key a b = true -> fst a = fst b.
Proof.
  unfold Query.same_key. rewrite andb_true_iff, String.eqb_eq. tauto.
Qed.

(** ** The query of [check_budget] *)

Lemma rows_of_budget (month_start : string) (db : database) (b : budget_row)
    (r : budget_row * option transaction_row) :
  In r (rows_of month_start db b) -> fst r = b.
Proof.
  unfold rows_of.
  destruct (filter _ _) as [| t m]; [intros [<- | []]; reflexivity |].
  intros Hin. apply in_map_iff in Hin. destruct Hin as (t' & <- & _). reflexivity.
Qed.

Lemma rows_of_nonempty (month_start : string) (db : database) (b : budget_row) :
  rows_of month_start db b <> [].
Proof. unfold rows_of. destruct (filter _ _); discriminate. Qed.

Lemma rows_of_total (month_start : string) (db : database) (b : budget_row) :
  Sql.coalesce
    (Sql.sum_agg (map (fun r => option_map t_amount (snd r))
                      (rows_of month_start db b))) 0%Q
  = matching_total month_start b db.
Proof.
  unfold rows_of, matching_total.
  destruct (filter _ _) as [| t m]; [reflexivity |].
  assert (H : forall l : list transaction_row,
             flat_map (fun v : option Q => match v with Some q => [q] | None => [] end)
               (map (fun r : budget_row * option transaction_row =>
                       option_map t_amount (snd r))
                    (map (fun t => (b, Some t)) l))
             = map t_amount l).
  { induction l as [| x l IH]; simpl; [reflexivity | rewrite IH; reflexivity]. }
  unfold Sql.sum_agg. rewrite H. reflexivity.
Qed.

Lemma filter_rows_of (month_start : string) (db : database) (b : budget_row)
    (q : budget_row -> bool) :
  filter (fun r => q (fst r)) (rows_of month_start db b)
  = if q b then rows_of month_start db b else [].
Proof.
  pose proof (rows_of_budget month_start db b) as H.
  induction (rows_of month_start db b) as [| r l IH]; simpl.
  - destruct (q b); reflexivity.
  - rewrite (H r (or_introl eq_refl)).
    rewrite IH by (intros r' Hr'; apply H; right; exact Hr').
    destruct (q b); reflexivity.
Qed.

Lemma flat_map_none {X Y : Type} (f : X -> list Y) (q : X -> bool) (l : list X) :
  (forall x, In x l -> q x = false) ->
  flat_map (fun x => if q x then f x else []) l = [].
Proof.
  induction l as [| a l IH]; simpl; intros H; [reflexivity |].
  rewrite (H a (or_introl eq_refl)). simpl.
  apply IH. intros x Hx. apply H. right; exact Hx.
Qed.

Lemma flat_map_single {X Y : Type} (f : X -> list Y) (q : X -> bool)
    (l : list X) (b : X) :
  NoDup l -> In b l -> q b = true ->
  (forall x, In x l -> q x = true -> x = b) ->
  flat_map (fun x => if q x then f x else []) l = f b.
Proof.
  induction 1 as [| a l Ha Hl IH]; simpl; intros Hin Hb Honly; [contradiction |].
  destruct Hin as [-> | Hin].
  - rewrite Hb. rewrite flat_map_none; [apply app_nil_r |].
    intros x Hx. destruct (q x) eqn:E; [| reflexivity].
    assert (x = b) by (apply Honly; [right; exact Hx | exact E]).
    subst x. contradiction.
  - destruct (q a) eqn:E.
    + assert (a = b) by (apply Honly; [left; reflexivity | exact E]).
      subst a. contradiction.
    + simpl. apply IH; [exact Hin | exact Hb |].
      intros x Hx. apply Honly. right; exact Hx.
Qed.

Lemma filter_flat_map {X Y : Type} (f : X -> list Y) (p : Y -> bool) (l : list X) :
  filter p (flat_map f l) = flat_map (fun x => filter p (f x)) l.
Proof.
  induction l as [| a l IH]; simpl; [reflexivity |].
  rewrite filter_app, IH. reflexivity.
Qed.

Lemma filter_twice {X : Type} (p q : X -> bool) (l : list X) :
  filter q (filter p l) = filter (fun x => p x && q x) l.
Proof.
  induction l as [| a l IH]; simpl; [reflexivity |].
  destruct (p a); simpl; [destruct (q a) |]; rewrite IH; reflexivity.
Qed.

Lemma NoDup_of_map {X Y : Type} (f : X -> Y) (l : list X) :
  NoDup (map f l) -> NoDup l.
Proof.
  induction l as [| a l IH]; simpl; intros H; constructor;
    inversion H as [| ? ? Hn Hr]; subst.
  - intros Hin. apply Hn, in_map, Hin.
  - apply IH, Hr.
Qed.

Lemma NoDup_map_injective {X Y : Type} (f : X -> Y) (l : list X) (x y : X) :
  NoDup (map f l) -> In x l -> In y l -> f x = f y -> x = y.
Proof.
  induction l as [| a l IH]; simpl; intros H Hx Hy E; [contradiction |].
  inversion H as [| ? ? Hn Hr]; subst.
  destruct Hx as [-> | Hx], Hy as [-> | Hy].
  - reflexivity.
  - destruct Hn. rewrite E. apply in_map, Hy.
  - destruct Hn. rewrite <- E. apply in_map, Hx.
  - exact (IH Hr Hx Hy E).
Qed.

Lemma joined_rows_budget (month_start : string) (user_id : Z) (db : database)
    (r : budget_row * option transaction_row) :
  In r (joined_rows month_start user_id db) ->
  In (fst r) (budgets db) /\ b_user_id (fst r) = user_id.
Proof.
  unfold joined_rows, Query.left_join. intros Hin.
  apply filter_In in Hin. destruct Hin as [Hin Hu].
  apply Z.eqb_eq in Hu. split; [| exact Hu].
  apply in_flat_map in Hin. destruct Hin as (b & Hb & Hr).
  rewrite (rows_of_budget month_start db b r Hr). exact Hb.
Qed.

Lemma rows_of_joined (month_start : string) (db : database) (b : budget_row)
    (r : budget_row * option transaction_row) :
  In b (budgets db) -> In r (rows_of month_start db b) ->
  In r (joined_rows month_start (b_user_id b) db).
Proof.
  intros Hb Hr. unfold joined_rows. apply filter_In. split.
  - unfold Query.left_join. apply in_flat_map. exists b. split; assumption.
  - rewrite (rows_of_budget _ _ _ _ Hr). apply Z.eqb_refl.
Qed.

(** Under UNIQUE(user_id, category) the group of a budget is made of its own
    joined rows. *)
Lemma group_of_budget (month_start : string) (db : database) (b : budget_row) :
  budgets_unique db -> In b (budgets db) ->
  filter (fun r => Query.same_key (key_of_budget b) (Query.group_key r))
         (joined_rows month_start (b_user_id b) db)
  = rows_of month_start db b.
Proof.
  intros Hu Hb. unfold joined_rows, Query.left_join.
  rewrite filter_twice, filter_flat_map.
  set (q := fun x : budget_row =>
              (b_user_id x =? b_user_id b)%Z
              && Query.same_key (key_of_budget b)
                   (b_category x, b_amount x)).
  rewrite (flat_map_ext _
             (fun x => if q x then rows_of month_start db x else [])).
  - apply flat_map_single.
    + apply (NoDup_of_map budget_key), Hu.
    + exact Hb.
    + unfold q. rewrite Z.eqb_refl. apply same_key_refl.
    + intros x Hx Hq. unfold q in Hq. apply andb_true_iff in Hq.
      destruct Hq as [Hid Hk]. apply Z.eqb_eq in Hid.
      apply same_key_category in Hk. simpl in Hk.
      apply (NoDup_map_injective budget_key _ _ _ Hu Hx Hb).
      unfold budget_key. rewrite Hid, Hk. reflexivity.
  - intros x. apply (filter_rows_of month_start db x q).
Qed.

(** Every budget of the user has its row in the result, with the sum of its
    matching transactions. *)
Lemma check_budget_query_row (month_start : string) (db : database)
    (b : budget_row) :
  budgets_unique db -> In b (budgets db) ->
  In (b_category b, b_amount b, matching_total month_start b db)
     (Query.check_budget_query month_start (b_user_id b) db).
Proof.
  intros Hu Hb. unfold Query.check_budget_query.
  fold (joined_rows month_start (b_user_id b) db).
  apply in_map_iff. exists (key_of_budget b). split.
  - rewrite (group_of_budget month_start db b Hu Hb), rows_of_total.
    reflexivity.
  - destruct (rows_of month_start db b) as [| r l] eqn:E;
      [destruct (rows_of_nonempty _ _ _ E) |].
    assert (Hr : In r (joined_rows month_start (b_user_id b) db))
      by (apply rows_of_joined; [exact Hb | rewrite E; left; reflexivity]).
    assert (Hfst : fst r = b)
      by (apply (rows_of_budget month_start db b); rewrite E; left; reflexivity).
    destruct (distinct_complete Query.same_key same_key_refl same_key_trans
                (map Query.group_key (joined_rows month_start (b_user_id b) db))
                (key_of_budget b))
      as (k' & Hk' & Hs).
    { replace (key_of_budget b) with (Query.group_key r)
        by (unfold Query.group_key, key_of_budget; rewrite Hfst; reflexivity).
      apply in_map, Hr. }
    pose proof (distinct_incl Query.same_key _ _ Hk') as Hin'.
    apply in_map_iff in Hin'. destruct Hin' as (r' & Hkey & Hr').
    apply joined_rows_budget in Hr'. destruct Hr' as [Hb' Hid'].
    assert (fst r' = b).
    { apply (NoDup_map_injective budget_key _ _ _ Hu Hb' Hb).
      unfold budget_key. rewrite Hid'. subst k'.
      apply same_key_category in Hs. simpl in Hs. rewrite Hs. reflexivity. }
    subst k'.
    replace (key_of_budget b) with (Query.group_key r')
      by (unfold Query.group_key, key_of_budget; rewrite H; reflexivity).
    exact Hk'.
Qed.

(** The result is empty exactly when the user has no budget. *)
Lemma check_budget_query_empty (month_start : string) (user_id : Z)
    (db : database) :
  Query.check_budget_query month_start user_id db = []
  <-> (forall b, In b (budgets db) -> b_user_id b <> user_id).
Proof.
  unfold Query.check_budget_query.
  fold (joined_rows month_start user_id db).
  split.
  - intros H b Hb Hid.
    destruct (rows_of month_start db b) as [| r l] eqn:E;
      [destruct (rows_of_nonempty _ _ _ E) |].
    assert (Hr : In r (joined_rows month_start user_id db))
      by (rewrite <- Hid; apply rows_of_joined;
          [exact Hb | rewrite E; left; reflexivity]).
    destruct (joined_rows month_start user_id db) as [| r0 l0];
      [contradiction | discriminate].
  - intros H.
    assert (E : joined_rows month_start user_id db = []).
    { destruct (joined_rows month_start user_id db) as [| r l] eqn:E;
        [reflexivity |].
      assert (Hr : In r (joined_rows month_start user_id db))
        by (rewrite E; left; reflexivity).
      apply joined_rows_budget in Hr. destruct Hr as [Hb Hid].
      destruct (H _ Hb Hid). }
    rewrite E. reflexivity.
Qed.

(** ** What [check_budget] prints *)

Lemma report_budgets_result (results : list (string * Q * Q)) :
  forall (flag : bool) (st : state),
    report_budgets results flag st
    = (inr (flag || existsb exceeded results),
       mk_state (stdin st) (stdout st ++ map budget_line results)
                (db_file st) (pending st) (backup_files st)).
Proof.
  induction results as [| [[category budget_amount] spent] rest IH];
    intros flag st; simpl.
  - rewrite orb_false_r, app_nil_r. destruct st; reflexivity.
  - destruct (Qgtb spent budget_amount); unfold bind, print; simpl; rewrite IH;
      simpl; rewrite <- app_assoc; try rewrite orb_true_r; reflexivity.
Qed.

Lemma check_budget_result (now : Query.date) (user_id : Z) (st : state) :
  check_budget now user_id st
  = (inr tt,
     mk_state (stdin st)
       (stdout st
        ++ check_budget_lines
             (Query.check_budget_query (Query.start_of_month now) user_id
                                       (db_file st)))
       (db_file st) (db_file st) (backup_files st)).
Proof.
  unfold check_budget, check_budget_lines, bind at 1, print at 1, try_except,
    with_connection, bind at 1, query.
  cbn [db_file pending stdin stdout backup_files fst snd].
  destruct (Query.check_budget_query _ user_id (db_file st)) as [| r results] eqn:E.
  - unfold print. simpl. rewrite <- app_assoc. reflexivity.
  - unfold bind. rewrite report_budgets_result.
    cbn [db_file pending stdin stdout backup_files fst snd orb negb].
    destruct (existsb exceeded (r :: results)); unfold print, ret; simpl;
      repeat (rewrite <- !app_assoc; simpl); try rewrite app_nil_r; reflexivity.
Qed.

Lemma check_budget_printed (now : Query.date) (user_id : Z) (st : state) :
  output_of (check_budget now user_id) st
  = check_budget_lines
      (Query.check_budget_query (Query.start_of_month now) user_id (db_file st)).
Proof. apply output_of_appended. rewrite check_budget_result. reflexivity. Qed.

Lemma Qgtb_spec (a b : Q) : Qgtb a b = true <-> (b < a)%Q.
Proof.
  unfold Qgtb. rewrite negb_true_iff. split.
  - intros H. apply Qnot_le_lt. intros Hle. apply Qle_bool_iff in Hle. congruence.
  - intros H. destruct (Qle_bool a b) eqn:E; [| reflexivity].
    apply Qle_bool_iff in E. destruct (Qlt_not_le _ _ H E).
Qed.

Lemma Qgtb_false_spec (a b : Q) : Qgtb a b = false <-> (a <= b)%Q.
Proof.
  unfold Qgtb. rewrite negb_false_iff. apply Qle_bool_iff.
Qed.

Lemma in_check_budget_lines (results : list (string * Q * Q)) (l : line) :
  results <> [] ->
  (forall s, l <> Text s) ->
  In l (check_budget_lines results) <-> In l (map budget_line results).
Proof.
  intros Hne Htext. unfold check_budget_lines.
  destruct results as [| r rest]; [destruct (Hne eq_refl) |].
  split.
  - intros [H | H]; [destruct (Htext _ (eq_sym H)) |].
    apply in_app_iff in H. destruct H as [H | H]; [exact H |].
    destruct (existsb exceeded (r :: rest)); [destruct H |].
    destruct H as [H | []]. destruct (Htext _ (eq_sym H)).
  - intros H. right. apply in_app_iff. left. exact H.
Qed.



(** C5.  For a user without any budget row [check_budget] prints its title
    and "No budgets set. Please set a budget first.", and nothing about
    budgets being within limits.  As soon as the user has a budget row that
    line is not printed: the report starts with the line of a budget. *)
Theorem check_budget_signals_no_budgets
    (now : Query.date) (user_id : Z) (st : state) :
  let printed := output_of (check_budget now user_id) st in
  ((forall b, In b (budgets (db_file st)) -> b_user_id b <> user_id) ->
     printed = [Text (nl ++ "=== Check Budget ===");
                Text "No budgets set. Please set a budget first."]
     /\ ~ In (Text "All budgets are within limits.") printed)
  /\ ((exists b, In b (budgets (db_file st)) /\ b_user_id b = user_id) ->
        ~ In (Text "No budgets set. Please set a budget first.") printed
        /\ exists category budget_amount spent rest,
             printed = Text (nl ++ "=== Check Budget ===")
                       :: budget_line (category, budget_amount, spent) :: rest).
Proof.
  intros printed. subst printed. rewrite check_budget_printed.
  split.
  - intros Hnone.
    apply (check_budget_query_empty (Query.start_of_month now)) in Hnone.
    rewrite Hnone. split; [reflexivity |].
    simpl. intros [H | [H | []]]; discriminate.
  - intros (b & Hb & Hid).
    destruct (Query.check_budget_query (Query.start_of_month now) user_id
                (db_file st)) as [| [[category budget_amount] spent] rest] eqn:E.
    + pose proof (proj1 (check_budget_query_empty _ _ _) E b Hb) as H.
      destruct (H Hid).
    + split.
      * unfold check_budget_lines. intros [H | H]; [discriminate |].
        apply in_app_iff in H. destruct H as [H | H].
        -- apply in_map_iff in H. destruct H as ([[c a] s] & Hl & _).
           simpl in Hl. destruct (Qgtb s a); discriminate.
        -- destruct (existsb exceeded _); [destruct H |].
           destruct H as [H | []]. discriminate.
      * exists category, budget_amount, spent. eexists.
        unfold check_budget_lines. simpl. reflexivity.
Qed.

Lemma spent_since_month_start_matching (now : Query.date) (b : budget_row)
    (db : database) :
  spent_since_month_start now b db
  = matching_total (Query.start_of_month now) b db.
Proof.
  unfold spent_since_month_start, matching_total. f_equal. f_equal.
  apply filter_ext. intros t. unfold Query.join_on.
  rewrite (Z.eqb_sym (b_user_id b)), (String.eqb_sym (b_category b)).
  reflexivity.
Qed.

(** C2, as amended.  For every budget row B of a database that respects
    UNIQUE(user_id, category) and whose amounts SQLite adds exactly, the row
    [check_budget] gets for B carries the sum of the amounts of the
    transactions of B's user, in B's category (compared byte for byte), of
    kind "Expense", whose date string is not below the first day of the
    current month; later dates, also those after today, are counted.  The
    line printed for B shows that sum. *)
Theorem check_budget_spent_since_month_start
    (now : Query.date) (st : state) (b : budget_row) (k : nat) :
  budgets_unique (db_file st) -> exact_amounts k (db_file st) ->
  In b (budgets (db_file st)) ->
  let spent := spent_since_month_start now b (db_file st) in
  In (b_category b, b_amount b, spent)
     (Query.check_budget_query (Query.start_of_month now) (b_user_id b)
                               (db_file st))
  /\ In (budget_line (b_category b, b_amount b, spent))
        (output_of (check_budget now (b_user_id b)) st).
Proof.
  intros Hu _ Hb spent. subst spent.
  rewrite spent_since_month_start_matching.
  pose proof (check_budget_query_row (Query.start_of_month now) (db_file st) b
                Hu Hb) as Hrow.
  split; [exact Hrow |].
  rewrite check_budget_printed. unfold check_budget_lines.
  destruct (Query.check_budget_query _ _ _) as [| r rest]; [destruct Hrow |].
  right. apply in_app_iff. left. apply in_map, Hrow.
Qed.

(** ** Reports *)

Lemma total_from (amounts : list Q) (start : Q) :
  Forall (fun q => (0 <= q)%Q) amounts -> (0 <= start)%Q ->
  (0 <= fold_left Qplus amounts start)%Q.
Proof.
  intros H. revert start. induction H as [| q l Hq Hl IH]; simpl; intros start Hs.
  - exact Hs.
  - apply IH. rewrite <- (Qplus_0_l 0). apply Qplus_le_compat; assumption.
Qed.

Lemma total_nonnegative (amounts : list Q) :
  Forall (fun q => (0 <= q)%Q) amounts -> (0 <= Sql.total amounts)%Q.
Proof. intros H. apply total_from; [exact H | apply Qle_refl]. Qed.

Lemma total_of_kind_nonnegative (kind : string) (user_id : Z)
    (pattern : string) (db : database) :
  Forall (fun t => (0 < t_amount t)%Q) (transactions db) ->
  (0 <= total_of_kind kind (Query.totals_by_type user_id pattern db))%Q.
Proof.
  intros Hpos. unfold total_of_kind. apply total_nonnegative.
  rewrite Forall_forall in *. intros q Hq.
  apply in_map_iff in Hq. destruct Hq as ([k s] & <- & Hin).
  apply filter_In in Hin. destruct Hin as [Hin _].
  unfold Query.totals_by_type in Hin. apply in_map_iff in Hin.
  destruct Hin as (k' & Hk & _). injection Hk as _ <-. simpl.
  apply total_nonnegative. rewrite Forall_forall. intros a Ha.
  apply in_map_iff in Ha. destruct Ha as (t & <- & Ht).
  apply filter_In in Ht. destruct Ht as [Ht _].
  apply filter_In in Ht. destruct Ht as [Ht _].
  apply Qlt_le_weak, Hpos, Ht.
Qed.

Lemma percentage_value (amount monthly_expense : Q) :
  (0 <= monthly_expense)%Q ->
  percentage amount monthly_expense = inr (share_of monthly_expense amount).
Proof.
  intros Hnn. unfold percentage, share_of, divide.
  destruct (Qgtb monthly_expense 0) eqn:E.
  - apply Qgtb_spec in E.
    destruct (Qeq_bool monthly_expense 0) eqn:Z; [| reflexivity].
    apply Qeq_bool_iff in Z. rewrite Z in E. destruct (Qlt_irrefl _ E).
  - apply Qgtb_false_spec in E.
    assert (Z : (monthly_expense == 0)%Q) by (apply Qle_antisym; assumption).
    apply Qeq_bool_iff in Z. rewrite Z. reflexivity.
Qed.

Lemma print_breakdown_result (categories : list (string * Q))
    (monthly_expense : Q) :
  (0 <= monthly_expense)%Q ->
  forall st,
    print_breakdown categories monthly_expense st
    = (inr tt,
       mk_state (stdin st)
         (stdout st
          ++ map (fun ca => CategoryShare (fst ca) (snd ca)
                              (share_of monthly_expense (snd ca)))
                 categories)
         (db_file st) (pending st) (backup_files st)).
Proof.
  intros Hnn. induction categories as [| [category amount] rest IH];
    intros st; simpl.
  - rewrite app_nil_r. destruct st; reflexivity.
  - unfold bind, lift, print. rewrite (percentage_value _ _ Hnn).
    rewrite IH. simpl. rewrite <- app_assoc. reflexivity.
Qed.

(** ** Grouped sums *)

Lemma insert_sorted_permutation {A : Type} (goes_first : A -> A -> bool)
    (x : A) (l : list A) :
  Permutation (Sql.insert_sorted goes_first x l) (x :: l).
Proof.
  induction l as [| y l IH]; simpl; [apply Permutation_refl |].
  destruct (goes_first y x); [| apply Permutation_refl].
  apply (perm_trans (perm_skip y IH)), perm_swap.
Qed.

Lemma order_by_permutation {A : Type} (goes_first : A -> A -> bool)
    (l : list A) :
  Permutation (Sql.order_by goes_first l) l.
Proof.
  induction l as [| x l IH]; simpl; [apply perm_nil |].
  apply (perm_trans (insert_sorted_permutation _ _ _)), perm_skip, IH.
Qed.

Lemma filter_map_pairs {K V : Type} (p : K -> bool) (g : K -> V)
    (keys : list K) :
  filter (fun r => p (fst r)) (map (fun k => (k, g k)) keys)
  = map (fun k => (k, g k)) (filter p keys).
Proof.
  induction keys as [| k keys IH]; simpl; [reflexivity |].
  destruct (p k); simpl; rewrite IH; reflexivity.
Qed.

Lemma filter_one_key (keys : list string) (kind : string) :
  NoDup keys ->
  filter (fun k => (k =? kind)%string) keys
  = if in_dec string_dec kind keys then [kind] else [].
Proof.
  induction 1 as [| k keys Hk Hnd IH]; simpl; [reflexivity |].
  destruct (String.eqb_spec k kind) as [E | Hne].
  - subst k.
    destruct (string_dec kind kind) as [T | F]; [| destruct (F eq_refl)].
    rewrite filter_none; [reflexivity |].
    intros x Hx. apply String.eqb_neq. intros E. rewrite E in Hx.
    exact (Hk Hx).
  - rewrite IH. destruct (string_dec k kind) as [E | N]; [destruct (Hne E) |].
    destruct (in_dec string_dec kind keys); reflexivity.
Qed.

Lemma string_eqb_trans (a b c : string) :
  (a =? b)%string = true -> (b =? c)%string = true -> (a =? c)%string = true.
Proof. rewrite !String.eqb_eq. congruence. Qed.

Lemma in_distinct_strings (keys : list string) (k : string) :
  In k (Sql.distinct String.eqb keys) <-> In k keys.
Proof.
  split; [apply distinct_incl |].
  intros H.
  destruct (distinct_complete String.eqb String.eqb_refl string_eqb_trans
              keys k H) as (k' & Hk' & E).
  apply String.eqb_eq in E. subst k'. exact Hk'.
Qed.

Lemma total_single (q : Q) : (Sql.total [q] == q)%Q.
Proof. unfold Sql.total. simpl. apply Qplus_0_l. Qed.

Lemma total_of_kind_is_sum (user_id : Z) (pattern kind : string)
    (db : database) :
  (total_of_kind kind (Query.totals_by_type user_id pattern db)
   == Sql.total (map t_amount (rows_of_kind user_id pattern kind db)))%Q.
Proof.
  unfold total_of_kind, Query.totals_by_type, rows_of_kind.
  set (rows := filter (fun t => (t_user_id t =? user_id)%Z
                                && Sql.like pattern (t_date t))
                      (transactions db)).
  rewrite (filter_map_pairs (fun k => (k =? kind)%string)).
  rewrite (filter_one_key _ kind (distinct_strings_NoDup _)).
  assert (Hrows : filter (fun t => (t_user_id t =? user_id)%Z
                                   && Sql.like pattern (t_date t)
                                   && (t_type t =? kind)%string)
                         (transactions db)
                  = filter (fun t => (t_type t =? kind)%string) rows)
    by (subst rows; rewrite filter_twice; reflexivity).
  rewrite Hrows.
  destruct (in_dec string_dec kind (Sql.distinct String.eqb (map t_type rows)))
    as [Hin | Hout].
  - cbn [map snd]. apply total_single.
  - rewrite (filter_none (fun t => (t_type t =? kind)%string) rows);
      [reflexivity |].
    intros t Ht. apply String.eqb_neq. intros E. apply Hout.
    apply in_distinct_strings. rewrite <- E. apply in_map, Ht.
Qed.

Lemma in_expenses_by_category (user_id : Z) (pattern : string) (db : database)
    (c : string) (a : Q) :
  In (c, a) (Query.expenses_by_category user_id pattern db)
  <-> expenses_in_category user_id pattern c db <> []
      /\ a = Sql.total (map t_amount
                            (expenses_in_category user_id pattern c db)).
Proof.
  unfold Query.expenses_by_category, expenses_in_category.
  set (rows := filter (fun t => (t_user_id t =? user_id)%Z
                                && (t_type t =? "Expense")%string
                                && Sql.like pattern (t_date t))
                      (transactions db)).
  assert (Hrows : forall k,
             filter (fun t => (t_user_id t =? user_id)%Z
                              && (t_type t =? "Expense")%string
                              && Sql.like pattern (t_date t)
                              && (t_category t =? k)%string)
                    (transactions db)
             = filter (fun t => (t_category t =? k)%string) rows)
    by (intros k; subst rows; rewrite filter_twice; reflexivity).
  rewrite Hrows.
  assert (Hkey : In c (Sql.distinct String.eqb (map t_category rows))
                 <-> filter (fun t => (t_category t =? c)%string) rows <> []).
  { rewrite in_distinct_strings. split.
    - intros H. apply in_map_iff in H. destruct H as (t & Ht & Hin).
      intros E.
      assert (Hf : In t (filter (fun t => (t_category t =? c)%string) rows))
        by (apply filter_In; split; [exact Hin | apply String.eqb_eq, Ht]).
      rewrite E in Hf. destruct Hf.
    - intros H.
      destruct (filter (fun t => (t_category t =? c)%string) rows)
        as [| t l] eqn:E; [destruct (H eq_refl) |].
      assert (Hf : In t (filter (fun t => (t_category t =? c)%string) rows))
        by (rewrite E; left; reflexivity).
      apply filter_In in Hf. destruct Hf as [Hin Ht].
      apply String.eqb_eq in Ht. rewrite <- Ht. apply in_map, Hin. }
  split.
  - intros H.
    apply (Permutation_in _ (order_by_permutation _ _)) in H.
    apply in_map_iff in H. destruct H as (k & E & Hk).
    injection E as Ek Ea. subst k.
    split; [apply Hkey, Hk | symmetry; exact Ea].
  - intros [Hne Ha].
    apply (Permutation_in _ (Permutation_sym (order_by_permutation _ _))).
    apply in_map_iff. exists c. split; [rewrite Ha; reflexivity |].
    apply Hkey, Hne.
Qed.

Lemma total_from_positive (amounts : list Q) (start : Q) :
  Forall (fun q => (0 <= q)%Q) amounts -> (0 < start)%Q ->
  (0 < fold_left Qplus amounts start)%Q.
Proof.
  intros H. revert start.
  induction H as [| q l Hq Hl IH]; simpl; intros start Hs; [exact Hs |].
  apply IH. rewrite <- (Qplus_0_l 0). apply Qplus_lt_le_compat; assumption.
Qed.

Lemma total_positive (amounts : list Q) :
  Forall (fun q => (0 < q)%Q) amounts -> amounts <> [] ->
  (0 < Sql.total amounts)%Q.
Proof.
  intros H Hne. destruct H as [| q l Hq Hl]; [destruct (Hne eq_refl) |].
  unfold Sql.total. simpl. apply total_from_positive.
  - apply (Forall_impl _ (fun a Ha => Qlt_le_weak _ _ Ha) Hl).
  - rewrite Qplus_0_l. exact Hq.
Qed.

(** A category is listed only when the month has an expense, and then the
    monthly expense is above zero. *)
Lemma listed_category_positive_expense (user_id : Z) (pattern : string)
    (db : database) (category : string) (amount : Q) :
  Forall (fun t => (0 < t_amount t)%Q) (transactions db) ->
  In (category, amount) (Query.expenses_by_category user_id pattern db) ->
  (0 < total_of_kind "Expense" (Query.totals_by_type user_id pattern db))%Q.
Proof.
  intros Hpos Hin. rewrite total_of_kind_is_sum.
  apply in_expenses_by_category in Hin. destruct Hin as [Hne _].
  assert (Hrow : exists t, In t (rows_of_kind user_id pattern "Expense" db)).
  { unfold expenses_in_category in Hne. unfold rows_of_kind.
    destruct (filter _ (transactions db)) as [| t l] eqn:E in Hne;
      [destruct (Hne eq_refl) |].
    assert (Ht : In t (t :: l)) by (left; reflexivity).
    rewrite <- E in Ht. apply filter_In in Ht. destruct Ht as [Ht Hc].
    exists t. apply filter_In. split; [exact Ht |].
    repeat (apply andb_true_iff in Hc; destruct Hc as [Hc ?]).
    repeat (apply andb_true_iff; split); assumption. }
  destruct Hrow as (t & Ht).
  apply total_positive.
  - rewrite Forall_forall in *. intros q Hq.
    apply in_map_iff in Hq. destruct Hq as (t' & <- & Ht').
    apply Hpos. apply filter_In in Ht'. exact (proj1 Ht').
  - intros E. apply (in_map t_amount) in Ht. rewrite E in Ht. destruct Ht.
Qed.

Lemma percentage_returns (amount monthly_expense : Q) :
  exists q, percentage amount monthly_expense = inr q.
Proof.
  unfold percentage, divide.
  destruct (Qgtb monthly_expense 0) eqn:E; [| eexists; reflexivity].
  apply Qgtb_spec in E.
  destruct (Qeq_bool monthly_expense 0) eqn:Z; [| eexists; reflexivity].
  apply Qeq_bool_iff in Z. rewrite Z in E. destruct (Qlt_irrefl _ E).
Qed.

Lemma percentage_without_expense (amount monthly_expense : Q) :
  (monthly_expense <= 0)%Q -> percentage amount monthly_expense = inr 0%Q.
Proof.
  intros H. unfold percentage. apply Qgtb_false_spec in H. rewrite H.
  reflexivity.
Qed.

Lemma percentage_with_expense (amount monthly_expense : Q) :
  (0 < monthly_expense)%Q ->
  percentage amount monthly_expense = inr (amount / monthly_expense * 100)%Q.
Proof.
  intros H. unfold percentage, divide.
  rewrite (proj2 (Qgtb_spec monthly_expense 0) H).
  destruct (Qeq_bool monthly_expense 0) eqn:Z; [| reflexivity].
  apply Qeq_bool_iff in Z. rewrite Z in H. destruct (Qlt_irrefl _ H).
Qed.

Lemma print_breakdown_returns (categories : list (string * Q))
    (monthly_expense : Q) (st : state) :
  fst (print_breakdown categories monthly_expense st) = inr tt.
Proof.
  revert st. induction categories as [| [category amount] rest IH];
    intros st; simpl; [reflexivity |].
  unfold bind, lift, print.
  destruct (percentage_returns amount monthly_expense) as [q ->].
  apply IH.
Qed.

(** C6.  The share of a category is amount / monthly_expense * 100 when the
    monthly expense -- a sum of amounts, not negative -- is not zero, and 0
    when it is zero: whatever the amount and the monthly expense, the
    computation does not raise [ZeroDivisionError], and the loop over any
    list of categories returns normally, printing these shares.  In every
    state the program can reach the stored amounts are positive; in the
    breakdown of a database with positive amounts (which SQLite adds
    exactly) the monthly expense is not negative, and for every category
    listed it is above zero and the share is
    amount / monthly_expense * 100. *)
Theorem category_share_never_divides_by_zero :
  (forall amount monthly_expense,
      ((0 <= monthly_expense)%Q -> ~ (monthly_expense == 0)%Q ->
       percentage amount monthly_expense
       = inr (amount / monthly_expense * 100)%Q)
      /\ ((monthly_expense == 0)%Q ->
          percentage amount monthly_expense = inr 0%Q)
      /\ percentage amount monthly_expense <> inl ZeroDivisionError)
  /\ (forall categories monthly_expense st,
         fst (print_breakdown categories monthly_expense st) = inr tt
         /\ ((0 <= monthly_expense)%Q ->
             output_of (print_breakdown categories monthly_expense) st
             = map (fun ca => CategoryShare (fst ca) (snd ca)
                                (share_of monthly_expense (snd ca)))
                   categories))
  /\ (forall user_id pattern db k,
         exact_amounts k db ->
         Forall (fun t => (0 < t_amount t)%Q) (transactions db) ->
         let monthly_expense :=
           total_of_kind "Expense" (Query.totals_by_type user_id pattern db) in
         (0 <= monthly_expense)%Q
         /\ (forall category amount,
                In (category, amount)
                   (Query.expenses_by_category user_id pattern db) ->
                (0 < monthly_expense)%Q
                /\ percentage amount monthly_expense
                   = inr (amount / monthly_expense * 100)%Q))
  /\ (forall float_of_string pbkdf2_hmac_sha512_hex st,
         reachable float_of_string pbkdf2_hmac_sha512_hex st ->
         Forall (fun t => (0 < t_amount t)%Q) (transactions (db_file st))).
Proof.
  split; [| split; [| split]].
  - intros amount monthly_expense. split; [| split].
    + intros Hnn Hnz. apply percentage_with_expense.
      destruct (Qle_lt_or_eq _ _ Hnn) as [H | H]; [exact H |].
      destruct Hnz. symmetry. exact H.
    + intros Z. apply percentage_without_expense. rewrite Z. apply Qle_refl.
    + destruct (percentage_returns amount monthly_expense) as [q ->].
      discriminate.
  - intros categories monthly_expense st.
    split; [apply print_breakdown_returns |].
    intros Hnn. apply output_of_appended.
    rewrite (print_breakdown_result _ _ Hnn). reflexivity.
  - intros user_id pattern db k _ Hpos monthly_expense.
    split; [apply total_of_kind_nonnegative, Hpos |].
    intros category amount Hin.
    pose proof (listed_category_positive_expense user_id pattern db category
                  amount Hpos Hin) as Hgt.
    split; [exact Hgt | apply percentage_with_expense, Hgt].
  - intros float_of_string pbkdf2_hmac_sha512_hex st Hr.
    destruct (reachable_files_well_formed _ _ st Hr)
      as [(_ & _ & Hpos & _) _].
    exact Hpos.
Qed.

Lemma generate_reports_result (user_id : Z) (st : state)
    (month year : string) (rest : list string) :
  stdin st = month :: year :: rest ->
  validate_date (year ++ "-" ++ month ++ "-01") = true ->
  let monthly :=
    Query.totals_by_type user_id (year ++ "-" ++ month ++ "-%") (db_file st) in
  generate_reports user_id st
  = (inr tt,
     mk_state rest
       (stdout st
        ++ [Text (nl ++ "=== Financial Reports ===");
            Prompt "Enter month for report (MM): ";
            Prompt "Enter year for report (YYYY): ";
            Text (nl ++ "Monthly Report (" ++ year ++ "-" ++ month ++ "):");
            TotalIncome (total_of_kind "Income" monthly);
            TotalExpense (total_of_kind "Expense" monthly);
            Savings (total_of_kind "Income" monthly
                     - total_of_kind "Expense" monthly)%Q;
            Text "Failed to generate reports. Please try again."])
       (db_file st) (db_file st) (backup_files st)).
Proof.
  intros Hin Hvalid monthly.
  unfold generate_reports, bind at 1, print at 1, try_except, bind at 1,
    input_month_year.
  cbn [stdin stdout db_file pending backup_files].
  rewrite Hin. cbn [read_month_year]. rewrite Hvalid.
  lazy beta iota zeta delta [with_connection bind query query_checked print
    Query.yearly_totals_statement any_exception
    stdin stdout db_file pending backup_files fst snd].
  rewrite <- !app_assoc. cbn [app].
  reflexivity.
Qed.

(** Whatever the user, the database and the valid month and year typed,
    [generate_reports] prints the monthly totals and then "Failed to generate
    reports. Please try again.": the statement it sends for the yearly
    totals is refused, so no yearly report (and no category breakdown) is
    ever printed. *)
Lemma generate_reports_stops_after_monthly_totals
    (user_id : Z) (st : state) (month year : string) (rest : list string) :
  stdin st = month :: year :: rest ->
  validate_date (year ++ "-" ++ month ++ "-01") = true ->
  let monthly :=
    Query.totals_by_type user_id (year ++ "-" ++ month ++ "-%") (db_file st) in
  let printed := output_of (generate_reports user_id) st in
  printed
  = [Text (nl ++ "=== Financial Reports ===");
     Prompt "Enter month for report (MM): ";
     Prompt "Enter year for report (YYYY): ";
     Text (nl ++ "Monthly Report (" ++ year ++ "-" ++ month ++ "):");
     TotalIncome (total_of_kind "Income" monthly);
     TotalExpense (total_of_kind "Expense" monthly);
     Savings (total_of_kind "Income" monthly
              - total_of_kind "Expense" monthly)%Q;
     Text "Failed to generate reports. Please try again."]
  /\ ~ In (Text (nl ++ "Yearly Report (" ++ year ++ "):")) printed
  /\ ~ In (Text (nl ++ "Expense Breakdown by Category:")) printed.
Proof.
  intros Hin Hvalid monthly printed.
  assert (E : printed
              = [Text (nl ++ "=== Financial Reports ===");
                 Prompt "Enter month for report (MM): ";
                 Prompt "Enter year for report (YYYY): ";
                 Text (nl ++ "Monthly Report (" ++ year ++ "-" ++ month ++ "):");
                 TotalIncome (total_of_kind "Income" monthly);
                 TotalExpense (total_of_kind "Expense" monthly);
                 Savings (total_of_kind "Income" monthly
                          - total_of_kind "Expense" monthly)%Q;
                 Text "Failed to generate reports. Please try again."]).
  { subst printed. apply output_of_appended.
    rewrite (generate_reports_result user_id st month year rest Hin Hvalid).
    reflexivity. }
  split; [exact E | rewrite E; split];
    simpl; intros H;
    repeat (destruct H as [H | H]; [discriminate H |]); exact H.
Qed.

(** ** A month typed without its leading zero *)

Example validate_date_padded : validate_date "2024-01-05" = true.
Proof. reflexivity. Qed.
Example validate_date_unpadded : validate_date "2024-1-01" = true.
Proof. reflexivity. Qed.
Example validate_date_month13 : validate_date "2024-13-01" = false.
Proof. reflexivity. Qed.
Example validate_date_feb30 : validate_date "2023-02-29" = false.
Proof. reflexivity. Qed.
Example validate_date_trailing : validate_date "2024-01-011" = false.
Proof. reflexivity. Qed.







Lemma days_in_month_positive (y m : nat) : 1 <= Strptime.days_in_month y m.
Proof.
  unfold Strptime.days_in_month.
  destruct m as [| [| [| [| [| [| [| [| [| [| [| [| m]]]]]]]]]]]]; try lia.
  destruct (Strptime.is_leap y); lia.
Qed.




(** ** The examples of the specification, and instances of the statements *)

(** C1 (the program does not do what the claim says).  On the three example
    transactions, with month "01" and year "2024" typed, [generate_reports]
    prints the monthly totals 1000 / 100 / 900 and then "Failed to generate
    reports. Please try again."; it prints no yearly report, although the
    yearly expense of these rows, summed as the specification says, is 150. *)
Theorem generate_reports_example_lacks_yearly_totals :
  let st := Sample.start ["01"; "2024"] Sample.ledger in
  let printed := output_of (generate_reports 1) st in
  printed
  = [Text (nl ++ "=== Financial Reports ===");
     Prompt "Enter month for report (MM): ";
     Prompt "Enter year for report (YYYY): ";
     Text (nl ++ "Monthly Report (2024-01):");
     TotalIncome 1000; TotalExpense 100; Savings 900;
     Text "Failed to generate reports. Please try again."]
  /\ ~ In (Text (nl ++ "Yearly Report (2024):")) printed
  /\ (forall q, In (TotalExpense q) printed -> q = 100%Q)
  /\ (total_of_kind "Expense" (Spec.yearly_totals 1 "2024" Sample.ledger)
      == 150)%Q.
Proof.
  intros st printed.
  destruct (generate_reports_stops_after_monthly_totals 1 st "01" "2024" []
              eq_refl eq_refl) as (E & Hyear & _).
  fold printed in E, Hyear.
  split; [rewrite E; reflexivity | split; [exact Hyear | split]].
  - rewrite E. simpl. intros q H.
    repeat (destruct H as [H | H]; [try discriminate H |]);
      [injection H as <-; reflexivity | destruct H].
  - vm_compute. reflexivity.
Qed.

(** C2, the claim as it stands fails: in mid January 2024, with a Food
    expense dated 1 February in the ledger, the row reported for the Food
    budget carries 150, not the 100 spent from the first of the month up to
    today. *)
Lemma check_budget_counts_later_dates :
  ~ Spec.reports_spent_amount Sample.mid_january Sample.food_budget
      Sample.ledger_with_budget.
Proof.
  intros (spent & Hin & Heq).
  vm_compute in Hin. destruct Hin as [H | []].
  injection H as <-. vm_compute in Heq. discriminate Heq.
Qed.

Lemma sample_budgets_unique : budgets_unique Sample.ledger_with_budget.
Proof.
  unfold budgets_unique. simpl.
  constructor; [intros [] | constructor].
Defined.


Lemma check_budget_spent_since_month_start_witness :
  budgets_unique Sample.ledger_with_budget
  /\ exact_amounts 0 Sample.ledger_with_budget
  /\ In Sample.food_budget (budgets Sample.ledger_with_budget)
  /\ In ("Food", 80%Q, 150%Q)
        (Query.check_budget_query "2024-01-01" 1 Sample.ledger_with_budget)
  /\ In (BudgetExceeded "Food" 150 80)
        (output_of (check_budget Sample.mid_january 1)
                   (Sample.start [] Sample.ledger_with_budget)).
Proof.
  pose proof (check_budget_spent_since_month_start Sample.mid_january
                (Sample.start [] Sample.ledger_with_budget) Sample.food_budget
                0 sample_budgets_unique eq_refl (or_introl eq_refl)) as H.
  vm_compute in H.
  split; [exact sample_budgets_unique | split; [reflexivity |]].
  split; [left; reflexivity |].
  vm_compute. exact H.
Defined.


Lemma check_budget_signals_no_budgets_witness :
  (forall b, In b (budgets Sample.ledger) -> b_user_id b <> 1%Z)
  /\ output_of (check_budget Sample.mid_january 1)
               (Sample.start [] Sample.ledger)
     = [Text (nl ++ "=== Check Budget ===");
        Text "No budgets set. Please set a budget first."]
  /\ ~ In (Text "No budgets set. Please set a budget first.")
          (output_of (check_budget Sample.mid_january 1)
                     (Sample.start [] Sample.ledger_with_budget)).
Proof.
  assert (Hnone : forall b, In b (budgets (db_file (Sample.start [] Sample.ledger))) ->
                            b_user_id b <> 1%Z)
    by (intros b []).
  pose proof (proj1 (proj1 (check_budget_signals_no_budgets Sample.mid_january 1
                              (Sample.start [] Sample.ledger)) Hnone)) as Hempty.
  pose proof (proj1 (proj2 (check_budget_signals_no_budgets Sample.mid_january 1
                              (Sample.start [] Sample.ledger_with_budget))
                       (ex_intro _ Sample.food_budget
                          (conj (or_introl eq_refl) eq_refl)))) as Hsome.
  vm_compute in Hempty. vm_compute in Hsome.
  split; [exact Hnone | split].
  - vm_compute. exact Hempty.
  - vm_compute. exact Hsome.
Defined.

(** C4, the claim as it stands fails for the empty category: [set_budget]
    called twice with nothing typed for the category prints "Category cannot
    be empty." both times and stores no budget row, so there is not exactly
    one row for (user, ""). *)
Lemma set_budget_refuses_empty_category :
  let st := Sample.start [""; ""] empty_database in
  let after :=
    snd (set_budget Sample.decimal 1 (snd (set_budget Sample.decimal 1 st))) in
  stdout after
  = [Text (nl ++ "=== Set Budget ===");
     Prompt "Enter category for the budget: ";
     Text "Category cannot be empty.";
     Text (nl ++ "=== Set Budget ===");
     Prompt "Enter category for the budget: ";
     Text "Category cannot be empty."]
  /\ ~ exists row,
         filter (Table.same_budget_key 1 "") (budgets (db_file after)) = [row].
Proof.
  split; [vm_compute; reflexivity |].
  intros (row & H). vm_compute in H. discriminate H.
Qed.

Lemma set_budget_upserts_witness :
  let st := Sample.start [" Food"; "80"; "Food "; "120.5"; "Rent"; "0"]
                         Sample.ledger in
  let after :=
    snd (set_budget Sample.decimal 1 (snd (set_budget Sample.decimal 1 st))) in
  let blank := Sample.start ["  "; "80"] Sample.ledger in
  let refused := Sample.start ["Rent"; "0"] Sample.ledger_with_budget in
  (ascii_text " Food" = true /\ ascii_text "Food " = true
   /\ PyStr.strip " Food" = "Food" /\ PyStr.strip "Food " = "Food"
   /\ Sample.decimal "80" = Some 80%Q
   /\ Sample.decimal "120.5" = Some (241 # 2)%Q
   /\ PyStr.strip "  " = "")
  /\ (exists row,
         filter (Table.same_budget_key 1 "Food") (budgets (db_file after))
         = [row]
         /\ b_user_id row = 1%Z /\ b_category row = "Food"
         /\ b_amount row = (241 # 2)%Q)
  /\ (db_file (snd (set_budget Sample.decimal 1 blank)) = db_file blank
      /\ stdin (snd (set_budget Sample.decimal 1 blank)) = ["80"])
  /\ db_file (snd (set_budget Sample.decimal 1 refused)) = db_file refused
  /\ budgets_unique_everywhere
       (snd (run Sample.decimal Sample.toy_kdf (SetBudget 1) st)).
Proof.
  intros st after blank refused.
  assert (H0 : budgets_unique_everywhere st)
    by (split; [apply NoDup_nil | apply Forall_nil]).
  split; [repeat split; reflexivity | split; [| split; [| split]]].
  - exact (proj1 (set_budget_upserts Sample.decimal Sample.toy_kdf)
             1%Z st " Food" "80" "Food " "120.5" ["Rent"; "0"] "Food"
             80%Q (241 # 2)%Q eq_refl eq_refl eq_refl eq_refl eq_refl
             ltac:(discriminate) eq_refl eq_refl eq_refl eq_refl).
  - pose proof (proj1 (proj2 (set_budget_upserts Sample.decimal
                                Sample.toy_kdf))
                  1%Z blank "  " ["80"] eq_refl eq_refl) as H.
    exact (conj (proj1 H) (proj1 (proj2 (proj2 H)))).
  - exact (proj1 (proj1 (proj2 (proj2 (set_budget_upserts Sample.decimal
                                         Sample.toy_kdf)))
                    1%Z refused "Rent" "0" [] 0%Q eq_refl eq_refl
                    ltac:(discriminate) eq_refl ltac:(discriminate))).
  - exact (proj1 (proj2 (proj2 (proj2 (set_budget_upserts Sample.decimal
                                         Sample.toy_kdf))))
             (SetBudget 1) st H0).
Defined.

Lemma category_share_witness :
  let st := Sample.start [] Sample.ledger in
  let reached :=
    snd (run Sample.decimal Sample.toy_kdf (AddTransaction 1)
           (Sample.start ["expense"; "Food"; "12.50"; ""; "2024-03-01"]
                         empty_database)) in
  ((0 == 0)%Q /\ (0 <= 0)%Q
   /\ ((0 <= 200)%Q /\ ~ (200 == 0)%Q)
   /\ exact_amounts 0 Sample.ledger
   /\ Forall (fun t => (0 < t_amount t)%Q) (transactions Sample.ledger)
   /\ In ("Food", 100%Q)
         (Query.expenses_by_category 1 "2024-01-%" Sample.ledger)
   /\ reachable Sample.decimal Sample.toy_kdf reached)
  /\ percentage 100 0 = inr 0%Q
  /\ percentage 100 200 = inr (100 / 200 * 100)%Q
  /\ fst (print_breakdown [("Food", 100%Q)] 0 st) = inr tt
  /\ output_of (print_breakdown [("Food", 100%Q)] 0) st
     = [CategoryShare "Food" 100 (share_of 0 100)]
  /\ percentage 100
       (total_of_kind "Expense"
          (Query.totals_by_type 1 "2024-01-%" Sample.ledger))
     = inr (100
            / total_of_kind "Expense"
                (Query.totals_by_type 1 "2024-01-%" Sample.ledger)
            * 100)%Q
  /\ Forall (fun t => (0 < t_amount t)%Q) (transactions (db_file reached)).
Proof.
  intros st reached.
  assert (Hz : (0 == 0)%Q) by reflexivity.
  assert (Hnn : (0 <= 0)%Q) by discriminate.
  assert (Hnn' : (0 <= 200)%Q) by discriminate.
  assert (Hnz : ~ (200 == 0)%Q) by discriminate.
  assert (Hpos : Forall (fun t => (0 < t_amount t)%Q)
                        (transactions Sample.ledger))
    by (repeat (apply Forall_cons || apply Forall_nil); reflexivity).
  assert (Hin : In ("Food", 100%Q)
                   (Query.expenses_by_category 1 "2024-01-%" Sample.ledger))
    by (left; reflexivity).
  assert (Hr : reachable Sample.decimal Sample.toy_kdf reached)
    by exact (reachable_run Sample.decimal Sample.toy_kdf (AddTransaction 1) _
                (reachable_start Sample.decimal Sample.toy_kdf
                   ["expense"; "Food"; "12.50"; ""; "2024-03-01"])).
  split;
    [exact (conj Hz (conj Hnn (conj (conj Hnn' Hnz)
              (conj eq_refl (conj Hpos (conj Hin Hr)))))) |].
  split;
    [exact (proj1 (proj2 (proj1 category_share_never_divides_by_zero 100%Q 0%Q))
              Hz) |].
  split;
    [exact (proj1 (proj1 category_share_never_divides_by_zero 100%Q 200%Q)
              Hnn' Hnz) |].
  split;
    [exact (proj1 (proj1 (proj2 category_share_never_divides_by_zero)
                     [("Food", 100%Q)] 0%Q st)) |].
  split;
    [exact (proj2 (proj1 (proj2 category_share_never_divides_by_zero)
                     [("Food", 100%Q)] 0%Q st) Hnn) |].
  split;
    [exact (proj2 (proj2 (proj1 (proj2 (proj2
                                     category_share_never_divides_by_zero))
                         1%Z "2024-01-%" Sample.ledger 0 eq_refl Hpos)
                  "Food" 100%Q Hin)) |].
  exact (proj2 (proj2 (proj2 category_share_never_divides_by_zero))
           Sample.decimal Sample.toy_kdf reached Hr).
Defined.

(** C7, the claim as it stands fails for an id that SQLite's INTEGER cannot
    hold: 9223372036854775808 is the id of no transaction of the ledger, yet
    with it typed and the deletion confirmed [delete_transaction] does not
    print "Transaction not found." but "Failed to delete transaction. Please
    try again.". *)
Lemma delete_transaction_fails_on_unbindable_id :
  let st := Sample.start ["9223372036854775808"; "y"] Sample.ledger in
  (forall t, In t (transactions (db_file st)) ->
             t_id t <> 9223372036854775808%Z)
  /\ PyStr.int_of_string "9223372036854775808" = Some 9223372036854775808%Z
  /\ output_of (delete_transaction 1) st
     = (delete_preamble 1 (db_file st)
        ++ [Text "Failed to delete transaction. Please try again."])%list
  /\ ~ In (Text "Transaction not found.") (output_of (delete_transaction 1) st).
Proof.
  intros st. split; [| split; [| split]].
  - intros t Ht E. simpl in Ht.
    destruct Ht as [<- | [<- | [<- | []]]]; discriminate E.
  - vm_compute. reflexivity.
  - vm_compute. reflexivity.
  - intros H. vm_compute in H.
    repeat (destruct H as [H | H]; [discriminate H |]). destruct H.
Qed.

Lemma delete_transaction_witness :
  let missing := Sample.start ["99"; "y"] Sample.ledger in
  let present := Sample.start ["3"; "Y"] Sample.ledger in
  let unbound := Sample.start ["9223372036854775808"; "y"] Sample.ledger in
  (PyStr.int_of_string "99" = Some 99%Z /\ fits_int64 99 = true
   /\ PyStr.lower "Y" = "y"
   /\ fits_int64 9223372036854775808 = false)
  /\ (db_file (snd (delete_transaction 1 missing)) = db_file missing
      /\ output_of (delete_transaction 1) missing
         = (delete_preamble 1 (db_file missing)
            ++ [Text "Transaction not found."])%list)
  /\ (db_file (snd (delete_transaction 1 present))
      = fst (Table.delete_transaction 3 1 (db_file present))
      /\ output_of (delete_transaction 1) present
         = (delete_preamble 1 (db_file present)
            ++ [Text "Transaction deleted successfully!"])%list)
  /\ db_file (snd (delete_transaction 1 unbound)) = db_file unbound.
Proof.
  intros missing present unbound.
  assert (Hnone : forall t,
             In t (transactions (db_file missing)) ->
             ~ (t_id t = 99%Z /\ t_user_id t = 1%Z)).
  { intros t Ht [Hid _]. simpl in Ht.
    destruct Ht as [<- | [<- | [<- | []]]]; discriminate Hid. }
  pose proof (proj1 (delete_transaction_reports_not_found 1 missing
                       "99" "y" [] 99 eq_refl eq_refl eq_refl) eq_refl Hnone)
    as (Hdb & _ & _ & Hout).
  pose proof (proj1 (proj2 (delete_transaction_reports_not_found 1 present
                              "3" "Y" [] 3 eq_refl eq_refl eq_refl))
                eq_refl
                (ex_intro _ (mk_transaction 3 1 "Expense" "Food" 50 ""
                                            "2024-02-01")
                   (conj (or_intror (or_intror (or_introl eq_refl)))
                         (conj eq_refl eq_refl))))
    as (Hdb' & _ & _ & Hout').
  pose proof (proj2 (proj2 (delete_transaction_reports_not_found 1 unbound
                              "9223372036854775808" "y" []
                              9223372036854775808 eq_refl eq_refl eq_refl))
                eq_refl)
    as (Hdb'' & _).
  split; [repeat split; reflexivity | split; [| split]].
  - exact (conj Hdb Hout).
  - exact (conj Hdb' Hout').
  - exact Hdb''.
Defined.

Lemma stored_kind_witness :
  let st :=
    snd (run Sample.decimal Sample.toy_kdf (AddTransaction 1)
           (Sample.start ["salary"; "eXPENSE"; "Food"; "12.50"; ""; "2024-03-01"]
                         empty_database)) in
  (PyStr.lower "iNcOmE" = "income" /\ PyStr.lower "EXPENSE" = "expense")
  /\ accept_type "iNcOmE" = Some "Income"
  /\ accept_type "EXPENSE" = Some "Expense"
  /\ (forall t, In t (transactions (db_file st)) ->
                t_type t = "Income" \/ t_type t = "Expense").
Proof.
  intros st.
  pose proof (stored_kind_is_income_or_expense Sample.decimal Sample.toy_kdf)
    as (Hi & He & _ & _ & Hreach).
  split; [split; reflexivity |].
  split; [exact (Hi "iNcOmE" eq_refl) | split; [exact (He "EXPENSE" eq_refl) |]].
  exact (Hreach st
           (reachable_run Sample.decimal Sample.toy_kdf (AddTransaction 1) _
              (reachable_start Sample.decimal Sample.toy_kdf
                 ["salary"; "eXPENSE"; "Food"; "12.50"; ""; "2024-03-01"]))).
Defined.

Lemma verify_password_witness :
  let st := Sample.start [" alice "; "secret-password"] Sample.broken_credential in
  (List.length (PyStr.split ":" "0123456789abcdef") <> 2
   /\ Table.select_user (PyStr.strip " alice ") (db_file st)
      = Some (1%Z, "0123456789abcdef"))
  /\ verify_password Sample.toy_kdf "0123456789abcdef" "secret-password"
     = inr false
  /\ fst (login_user Sample.toy_kdf st) = inr None
  /\ stdout (snd (login_user Sample.toy_kdf st))
     = (stdout st
        ++ [Text (nl ++ "=== Login ===");
            Prompt "Enter your username: ";
            Prompt "Enter your password: ";
            Text "Invalid username or password. Please try again."])%list.
Proof.
  intros st.
  assert (Hlen : List.length (PyStr.split ":" "0123456789abcdef") <> 2)
    by discriminate.
  pose proof (verify_password_never_raises Sample.toy_kdf)
    as (_ & Hmal & Hlogin).
  pose proof (Hlogin st " alice " "secret-password" [] 1%Z "0123456789abcdef"
                eq_refl eq_refl Hlen) as H.
  cbv zeta in H. destruct H as (Hres & _ & Hout & _).
  split; [split; [exact Hlen | reflexivity] |].
  split; [exact (Hmal _ "secret-password" Hlen) |].
  split; [exact Hres | exact Hout].
Defined.


(** * Further properties of the commands *)

(** ** Retrying until the input is valid *)

Ltac run_io :=
  lazy beta iota zeta delta
    [bind ret raise lift print print_all input input_until read_until
     try_except with_connection query query_checked execute execute_delete
     commit glob_backups copy_database_to copy_to_database
     stdin stdout db_file pending backup_files
     any_exception is_value_error is_integrity_error].

Lemma read_until_retries {A : Type} (prompt : string)
    (accept : string -> option A) (complain : string -> line)
    (bad : list string) :
  Forall (fun s => accept s = None) bad ->
  (forall good a rest,
      accept good = Some a ->
      read_until prompt accept complain (bad ++ good :: rest)
      = (inr a, rest,
         (flat_map (fun s => [Prompt prompt; complain s]) bad
          ++ [Prompt prompt])%list))
  /\ read_until prompt accept complain bad
     = (inl EOFError, [],
        (flat_map (fun s => [Prompt prompt; complain s]) bad
         ++ [Prompt prompt])%list).
Proof.
  induction 1 as [| s bad Hs Hbad [IHgood IHeof]]; split.
  - intros good a rest Ha. simpl. rewrite Ha. reflexivity.
  - reflexivity.
  - intros good a rest Ha. simpl. rewrite Hs, (IHgood good a rest Ha).
    reflexivity.
  - simpl. rewrite Hs, IHeof. reflexivity.
Qed.

Lemma add_transaction_stores (float_of_string : string -> option Q)
    (user_id : Z) (st : state)
    (typed_type typed_category typed_amount description date : string)
    (rest : list string) (ty : string) (amount : Q) :
  stdin st = typed_type :: typed_category :: typed_amount :: description
             :: date :: rest ->
  accept_type typed_type = Some ty ->
  PyStr.strip typed_category <> "" ->
  accept_amount float_of_string typed_amount = Some amount ->
  validate_date date = true ->
  let db' :=
    mk_database (users (db_file st))
      (transactions (db_file st)
       ++ [mk_transaction
             (Table.next_id (seq_transactions (db_file st))
                            (map t_id (transactions (db_file st))))
             user_id ty (PyStr.strip typed_category) amount description date])
      (budgets (db_file st))
      (seq_users (db_file st))
      (Table.next_id (seq_transactions (db_file st))
                     (map t_id (transactions (db_file st))))
      (seq_budgets (db_file st)) in
  add_transaction float_of_string user_id st
  = (inr tt,
     mk_state rest
       (stdout st
        ++ [Text (nl ++ "=== Add Transaction ===");
            Prompt "Enter transaction type (Income/Expense): ";
            Prompt "Enter category (e.g., Food, Rent, Salary): ";
            Prompt "Enter amount: ";
            Prompt "Enter description (optional): ";
            Prompt "Enter date (YYYY-MM-DD): ";
            Text "Transaction added successfully!"])
       db' db' (backup_files st)).
Proof.
  intros Hin Hty Hcat Hamount Hdate db'.
  destruct st as [ins out db pend files]. cbn in Hin. subst ins.
  pose proof (proj1 (accept_type_valid _ _ Hty)) as Hcap.
  assert (Hcheck : Table.check_type ty = true)
    by (apply check_type_valid, (accept_type_valid _ _ Hty)).
  unfold add_transaction. run_io. rewrite Hty. run_io.
  rewrite (is_empty_false _ Hcat). run_io. rewrite Hamount. run_io.
  unfold accept_date. rewrite Hdate. run_io.
  unfold Table.insert_transaction. rewrite Hcheck. run_io.
  subst db'. cbn [db_file stdout backup_files].
  rewrite <- !app_assoc. reflexivity.
Qed.

(** X1.  A [while True:] input loop of [add_transaction] /
    [update_transaction] skips every line it does not accept, printing its
    prompt and its complaint once per such line, and returns what it makes of
    the first accepted line, leaving the later lines unread; when no line is
    accepted it ends with [EOFError].  The database is not touched. *)
Theorem input_until_retries {A : Type} (prompt : string)
    (accept : string -> option A) (complain : string -> line)
    (st : state) (bad : list string) :
  Forall (fun s => accept s = None) bad ->
  (forall good a rest,
      stdin st = (bad ++ good :: rest)%list -> accept good = Some a ->
      input_until prompt accept complain st
      = (inr a,
         mk_state rest
           (stdout st
            ++ flat_map (fun s => [Prompt prompt; complain s]) bad
            ++ [Prompt prompt])
           (db_file st) (pending st) (backup_files st)))
  /\ (stdin st = bad ->
      input_until prompt accept complain st
      = (inl EOFError,
         mk_state []
           (stdout st
            ++ flat_map (fun s => [Prompt prompt; complain s]) bad
            ++ [Prompt prompt])
           (db_file st) (pending st) (backup_files st))).
Proof.
  intros Hbad.
  destruct (read_until_retries prompt accept complain bad Hbad) as [Hgood Heof].
  split.
  - intros good a rest Hin Ha. unfold input_until.
    rewrite Hin, (Hgood good a rest Ha). reflexivity.
  - intros Hin. unfold input_until. rewrite Hin, Heof. reflexivity.
Qed.

Lemma input_until_retries_witness :
  Forall (fun s => accept_type s = None) ["salary"; ""]
  /\ input_until "Enter transaction type (Income/Expense): " accept_type
       (fun _ => Text "Invalid transaction type. Please enter 'Income' or 'Expense'.")
       (Sample.start ["salary"; ""; "INCOME"; "Pay"] empty_database)
     = (inr "Income",
        mk_state ["Pay"]
          ([]
           ++ flat_map
                (fun s =>
                   [Prompt "Enter transaction type (Income/Expense): ";
                    (fun _ : string =>
                       Text "Invalid transaction type. Please enter 'Income' or 'Expense'.") s])
                ["salary"; ""]
           ++ [Prompt "Enter transaction type (Income/Expense): "])
          empty_database empty_database []).
Proof.
  assert (Hbad : Forall (fun s => accept_type s = None) ["salary"; ""])
    by (repeat (apply Forall_cons || apply Forall_nil); reflexivity).
  split; [exact Hbad |].
  exact (proj1 (input_until_retries
                  "Enter transaction type (Income/Expense): " accept_type
                  (fun _ => Text "Invalid transaction type. Please enter 'Income' or 'Expense'.")
                  (Sample.start ["salary"; ""; "INCOME"; "Pay"] empty_database)
                  ["salary"; ""] Hbad)
           "INCOME" "Income" ["Pay"] eq_refl eq_refl).
Defined.

(** ** Adding and listing transactions *)

Lemma in_select_transactions_of (user_id : Z) (db : database)
    (t : transaction_row) :
  In t (Table.select_transactions_of user_id db)
  <-> In t (transactions db) /\ t_user_id t = user_id.
Proof.
  unfold Table.select_transactions_of. split.
  - intros H. apply (Permutation_in _ (order_by_permutation _ _)) in H.
    apply filter_In in H. rewrite Z.eqb_eq in H. exact H.
  - intros [H Hu].
    apply (Permutation_in _ (Permutation_sym (order_by_permutation _ _))).
    apply filter_In. rewrite Z.eqb_eq. split; assumption.
Qed.

Lemma view_transactions_printed (user_id : Z) (st : state) :
  output_of (view_transactions user_id) st = view_lines user_id (db_file st).
Proof.
  apply output_of_appended. rewrite view_transactions_result. reflexivity.
Qed.

Lemma in_view_lines (user_id : Z) (db : database) (t : transaction_row) :
  In t (Table.select_transactions_of user_id db) ->
  In (transaction_line t) (view_lines user_id db).
Proof.
  unfold view_lines. intros H. right.
  destruct (Table.select_transactions_of user_id db) as [| r rows];
    [destruct H | apply in_map, H].
Qed.

(** X2.  After [add_transaction] has been given a kind, a non-blank category,
    a positive amount and a valid date, the user's listing contains the new
    transaction with exactly these values (the kind capitalized, the
    category stripped), [view_transactions] prints it, the listing has grown
    by one row, and the listing of every other user is what it was. *)
Theorem added_transaction_is_listed (float_of_string : string -> option Q)
    (user_id : Z) (st : state)
    (typed_type typed_category typed_amount description date : string)
    (rest : list string) (ty : string) (amount : Q) :
  stdin st = typed_type :: typed_category :: typed_amount :: description
             :: date :: rest ->
  accept_type typed_type = Some ty ->
  PyStr.strip typed_category <> "" ->
  accept_amount float_of_string typed_amount = Some amount ->
  validate_date date = true ->
  let after := snd (add_transaction float_of_string user_id st) in
  let added :=
    mk_transaction
      (Table.next_id (seq_transactions (db_file st))
                     (map t_id (transactions (db_file st))))
      user_id ty (PyStr.strip typed_category) amount description date in
  In added (Table.select_transactions_of user_id (db_file after))
  /\ In (transaction_line added) (output_of (view_transactions user_id) after)
  /\ List.length (Table.select_transactions_of user_id (db_file after))
     = S (List.length (Table.select_transactions_of user_id (db_file st)))
  /\ (forall other,
         other <> user_id ->
         Table.select_transactions_of other (db_file after)
         = Table.select_transactions_of other (db_file st)).
Proof.
  intros Hin Hty Hcat Hamount Hdate after added.
  subst after.
  rewrite (add_transaction_stores float_of_string user_id st _ _ _ _ _ _ _ _
             Hin Hty Hcat Hamount Hdate).
  cbv zeta. cbn [snd db_file]. fold added.
  assert (Hlisted : In added
            (Table.select_transactions_of user_id
               (mk_database (users (db_file st))
                  (transactions (db_file st) ++ [added]) (budgets (db_file st))
                  (seq_users (db_file st)) (t_id added)
                  (seq_budgets (db_file st))))).
  { apply in_select_transactions_of. cbn [transactions]. split.
    - apply in_app_iff. right. left. reflexivity.
    - reflexivity. }
  split; [exact Hlisted | split; [| split]].
  - rewrite view_transactions_printed. cbn [db_file].
    apply in_view_lines, Hlisted.
  - unfold Table.select_transactions_of. cbn [transactions].
    rewrite !(Permutation_length (order_by_permutation _ _)).
    rewrite filter_app, length_app. cbn [filter]. subst added. cbn [t_user_id].
    rewrite Z.eqb_refl. simpl. lia.
  - intros other Hother. unfold Table.select_transactions_of.
    cbn [transactions]. rewrite filter_app. cbn [filter].
    subst added. cbn [t_user_id].
    destruct (Z.eqb_spec user_id other) as [E | _];
      [destruct (Hother (eq_sym E)) | rewrite app_nil_r; reflexivity].
Qed.

Lemma added_transaction_is_listed_witness :
  let st := Sample.start ["expense"; " Books "; "12.50"; "novel"; "2024-03-09"]
                         Sample.ledger in
  (accept_type "expense" = Some "Expense"
   /\ accept_amount Sample.decimal "12.50" = Some (25 # 2)%Q
   /\ validate_date "2024-03-09" = true)
  /\ In (mk_transaction
           (Table.next_id (seq_transactions (db_file st))
                          (map t_id (transactions (db_file st))))
           1 "Expense" (PyStr.strip " Books ") (25 # 2)%Q "novel" "2024-03-09")
        (Table.select_transactions_of 1
           (db_file (snd (add_transaction Sample.decimal 1 st)))).
Proof.
  intros st. split; [repeat split; reflexivity |].
  exact (proj1 (added_transaction_is_listed Sample.decimal 1 st
                  "expense" " Books " "12.50" "novel" "2024-03-09" []
                  "Expense" (25 # 2)%Q eq_refl eq_refl
                  ltac:(discriminate) eq_refl eq_refl)).
Defined.

(** X3.  When the category typed to [add_transaction] is blank, it prints
    "Category cannot be empty." and returns: the amount, the description and
    the date are not asked for, and the database file and the backups are
    as before. *)
Theorem add_transaction_refuses_blank_category
    (float_of_string : string -> option Q) (user_id : Z) (st : state)
    (typed_type typed_category : string) (rest : list string) (ty : string) :
  stdin st = typed_type :: typed_category :: rest ->
  accept_type typed_type = Some ty ->
  PyStr.strip typed_category = "" ->
  add_transaction float_of_string user_id st
  = (inr tt,
     mk_state rest
       (stdout st
        ++ [Text (nl ++ "=== Add Transaction ===");
            Prompt "Enter transaction type (Income/Expense): ";
            Prompt "Enter category (e.g., Food, Rent, Salary): ";
            Text "Category cannot be empty."])
       (db_file st) (pending st) (backup_files st)).
Proof.
  intros Hin Hty Hcat.
  destruct st as [ins out db pend files]. cbn in Hin. subst ins.
  unfold add_transaction. run_io. rewrite Hty. run_io.
  rewrite Hcat. cbn [PyStr.is_empty]. run_io.
  rewrite <- !app_assoc. reflexivity.
Qed.

Lemma add_transaction_refuses_blank_category_witness :
  PyStr.strip "   " = ""
  /\ db_file (snd (add_transaction Sample.decimal 1
                     (Sample.start ["income"; "   "; "5"] Sample.ledger)))
     = Sample.ledger.
Proof.
  split; [reflexivity |].
  exact (f_equal (fun r => db_file (snd r))
           (add_transaction_refuses_blank_category Sample.decimal 1
              (Sample.start ["income"; "   "; "5"] Sample.ledger)
              "income" "   " ["5"] "Income" eq_refl eq_refl eq_refl)).
Defined.

(** ** Updating a transaction *)

Lemma find_owned_none (id user_id : Z) (l : list transaction_row) :
  (forall t, In t l -> ~ (t_id t = id /\ t_user_id t = user_id)) ->
  find (Table.owned id user_id) l = None.
Proof.
  intros H. destruct (find (Table.owned id user_id) l) as [t |] eqn:E;
    [| reflexivity].
  apply find_some in E. destruct E as [Hin Hown].
  apply owned_spec in Hown. destruct (H t Hin Hown).
Qed.

Lemma find_owned_some (id user_id : Z) (l : list transaction_row)
    (t : transaction_row) :
  In t l -> t_id t = id -> t_user_id t = user_id ->
  exists t', find (Table.owned id user_id) l = Some t'
             /\ existsb (Table.owned id user_id) l = true.
Proof.
  intros Hin Hid Hu.
  assert (Hown : Table.owned id user_id t = true)
    by (apply owned_spec; split; assumption).
  destruct (find (Table.owned id user_id) l) as [t' |] eqn:E.
  - exists t'. split; [reflexivity |].
    apply existsb_exists. exists t. split; assumption.
  - rewrite (find_none _ _ E t Hin) in Hown. discriminate.
Qed.

(** X4.  [update_transaction] with an id that is not the id of a transaction
    of the user (it does not exist, or belongs to another user) asks for no
    new value and leaves the database file and the backups unchanged: right
    after the id is typed it prints "Transaction not found." when the id
    fits the 64 bits of SQLite's INTEGER, and "Failed to update transaction.
    Please try again." when it does not (the SELECT is not run). *)
Theorem update_transaction_not_found (float_of_string : string -> option Q)
    (user_id : Z) (st : state) (typed_id : string) (rest : list string)
    (id : Z) :
  stdin st = typed_id :: rest ->
  PyStr.int_of_string typed_id = Some id ->
  (forall t, In t (transactions (db_file st)) ->
             ~ (t_id t = id /\ t_user_id t = user_id)) ->
  update_transaction float_of_string user_id st
  = (inr tt,
     mk_state rest
       (stdout st
        ++ Text (nl ++ "=== Update Transaction ===")
           :: view_lines user_id (db_file st)
        ++ [Prompt "Enter the transaction ID to update: ";
            Text (if fits_int64 id then "Transaction not found."
                  else "Failed to update transaction. Please try again.")])
       (db_file st) (db_file st) (backup_files st)).
Proof.
  intros Hin Hid Hnone.
  destruct st as [ins out db pend files]. cbn in Hin. subst ins.
  cbn [db_file] in Hnone.
  unfold update_transaction. run_io. rewrite view_transactions_result. run_io.
  rewrite Hid. run_io. unfold bind_integer.
  destruct (fits_int64 id).
  - run_io. unfold Table.select_transaction.
    rewrite (find_owned_none _ _ _ Hnone). run_io.
    rewrite <- !app_assoc. reflexivity.
  - run_io. rewrite <- !app_assoc. reflexivity.
Qed.

Lemma update_transaction_not_found_witness :
  let st := Sample.start ["1"; "income"] Sample.ledger in
  PyStr.int_of_string "1" = Some 1%Z
  /\ db_file (snd (update_transaction Sample.decimal 2 st)) = db_file st
  /\ stdin (snd (update_transaction Sample.decimal 2 st)) = ["income"].
Proof.
  intros st.
  assert (Hnone : forall t, In t (transactions (db_file st)) ->
                            ~ (t_id t = 1%Z /\ t_user_id t = 2%Z)).
  { intros t Ht [_ Hu]. simpl in Ht.
    destruct Ht as [<- | [<- | [<- | []]]]; discriminate Hu. }
  pose proof (update_transaction_not_found Sample.decimal 2 st "1" ["income"]
                1 eq_refl eq_refl Hnone) as H.
  split; [reflexivity | split].
  - exact (f_equal (fun r => db_file (snd r)) H).
  - exact (f_equal (fun r => stdin (snd r)) H).
Defined.

Lemma filter_map_unchanged {A : Type} (p q : A -> bool) (f : A -> A)
    (l : list A) :
  (forall x, q x = true -> p (f x) = p x) ->
  (forall x, q x = true -> p x = true -> f x = x) ->
  (forall x, q x = false -> f x = x) ->
  filter p (map f l) = filter p l.
Proof.
  intros Hp Hkeep Hout. induction l as [| x l IH]; simpl; [reflexivity |].
  destruct (q x) eqn:Q.
  - rewrite (Hp x Q). destruct (p x) eqn:P.
    + rewrite (Hkeep x Q P), IH. reflexivity.
    + exact IH.
  - rewrite (Hout x Q), IH. reflexivity.
Qed.

(** X5.  [update_transaction] on a transaction of the user, in a database
    whose ids are values of SQLite's INTEGER, with a kind, a non-blank
    category, a positive amount and a valid date typed: every row with that
    id and owner takes the new kind, category, amount, description and date
    and keeps its id and owner; every other row, the users and the budgets
    are unchanged; the number of rows is the same, and the listing of every
    other user is what it was. *)
Theorem update_transaction_rewrites_owned_row
    (float_of_string : string -> option Q)
    (user_id : Z) (st : state)
    (typed_id typed_type typed_category typed_amount description date : string)
    (rest : list string) (id : Z) (ty : string) (amount : Q) :
  stdin st = typed_id :: typed_type :: typed_category :: typed_amount
             :: description :: date :: rest ->
  PyStr.int_of_string typed_id = Some id ->
  ids_fit (db_file st) ->
  (exists t, In t (transactions (db_file st))
             /\ t_id t = id /\ t_user_id t = user_id) ->
  accept_type typed_type = Some ty ->
  PyStr.strip typed_category <> "" ->
  accept_amount float_of_string typed_amount = Some amount ->
  validate_date date = true ->
  let after := snd (update_transaction float_of_string user_id st) in
  transactions (db_file after)
  = map (fun t =>
           if Table.owned id user_id t
           then mk_transaction (t_id t) (t_user_id t) ty
                  (PyStr.strip typed_category) amount description date
           else t)
        (transactions (db_file st))
  /\ users (db_file after) = users (db_file st)
  /\ budgets (db_file after) = budgets (db_file st)
  /\ List.length (transactions (db_file after))
     = List.length (transactions (db_file st))
  /\ (forall other,
         other <> user_id ->
         Table.select_transactions_of other (db_file after)
         = Table.select_transactions_of other (db_file st))
  /\ stdin after = rest.
Proof.
  intros Hin Hid Hids (t0 & Ht0 & Hid0 & Hu0) Hty Hcat Hamount Hdate after.
  assert (Hfits : fits_int64 id = true)
    by (rewrite <- Hid0; exact (stored_id_fits _ _ Hids Ht0)).
  destruct (find_owned_some id user_id _ t0 Ht0 Hid0 Hu0) as (t' & Hfind & Hex).
  assert (Hcheck : Table.check_type ty = true)
    by (apply check_type_valid, (accept_type_valid _ _ Hty)).
  assert (Hrun :
    update_transaction float_of_string user_id st
    = (inr tt,
       mk_state rest
         (stdout st
          ++ Text (nl ++ "=== Update Transaction ===")
             :: view_lines user_id (db_file st)
          ++ [Prompt "Enter the transaction ID to update: ";
              Prompt "Enter new transaction type (Income/Expense): ";
              Prompt "Enter new category: ";
              Prompt "Enter new amount: ";
              Prompt "Enter new description: ";
              Prompt "Enter new date (YYYY-MM-DD): ";
              Text "Transaction updated successfully!"])
         (mk_database (users (db_file st))
            (map (fun t =>
                    if Table.owned id user_id t
                    then mk_transaction (t_id t) (t_user_id t) ty
                           (PyStr.strip typed_category) amount description date
                    else t)
                 (transactions (db_file st)))
            (budgets (db_file st)) (seq_users (db_file st))
            (seq_transactions (db_file st)) (seq_budgets (db_file st)))
         (mk_database (users (db_file st))
            (map (fun t =>
                    if Table.owned id user_id t
                    then mk_transaction (t_id t) (t_user_id t) ty
                           (PyStr.strip typed_category) amount description date
                    else t)
                 (transactions (db_file st)))
            (budgets (db_file st)) (seq_users (db_file st))
            (seq_transactions (db_file st)) (seq_budgets (db_file st)))
         (backup_files st))).
  { clear after. destruct st as [ins out db pend files]. cbn in Hin. subst ins.
    cbn [db_file] in *.
    unfold update_transaction. run_io. rewrite view_transactions_result. run_io.
    rewrite Hid. run_io. unfold bind_integer. rewrite Hfits. run_io.
    unfold Table.select_transaction. rewrite Hfind. run_io.
    rewrite Hty. run_io. rewrite (is_empty_false _ Hcat). run_io.
    rewrite Hamount. run_io. unfold accept_date. rewrite Hdate. run_io.
    unfold Table.update_transaction. rewrite Hex, Hcheck.
    cbn [negb andb]. run_io.
    rewrite <- !app_assoc. reflexivity. }
  subst after. rewrite Hrun. cbn [snd db_file transactions users budgets stdin].
  split; [reflexivity | split; [reflexivity | split; [reflexivity | split]]].
  - apply length_map.
  - split; [| reflexivity].
    intros other Hother. unfold Table.select_transactions_of.
    cbn [transactions]. f_equal.
    apply (filter_map_unchanged _ (Table.owned id user_id)).
    + intros x Hx. cbv beta. rewrite Hx. reflexivity.
    + intros x Hx Hp. apply owned_spec in Hx. apply Z.eqb_eq in Hp.
      destruct Hx as [_ Hx]. rewrite Hx in Hp. destruct (Hother (eq_sym Hp)).
    + intros x Hx. cbv beta. rewrite Hx. reflexivity.
Qed.

Lemma update_transaction_rewrites_owned_row_witness :
  let st := Sample.start ["3"; "expense"; "Dining"; "55"; "dinner"; "2024-02-02"]
                         Sample.ledger in
  (PyStr.int_of_string "3" = Some 3%Z
   /\ ids_fit (db_file st)
   /\ accept_type "expense" = Some "Expense"
   /\ accept_amount Sample.decimal "55" = Some 55%Q
   /\ validate_date "2024-02-02" = true)
  /\ transactions (db_file (snd (update_transaction Sample.decimal 1 st)))
     = map (fun t =>
              if Table.owned 3 1 t
              then mk_transaction (t_id t) (t_user_id t) "Expense"
                     (PyStr.strip "Dining") 55%Q "dinner" "2024-02-02"
              else t)
           (transactions (db_file st)).
Proof.
  intros st.
  assert (Hids : ids_fit (db_file st))
    by (repeat (apply Forall_cons || apply Forall_nil); reflexivity).
  split;
    [exact (conj eq_refl (conj Hids (conj eq_refl (conj eq_refl eq_refl)))) |].
  exact (proj1 (update_transaction_rewrites_owned_row Sample.decimal 1 st
                  "3" "expense" "Dining" "55" "dinner" "2024-02-02" [] 3
                  "Expense" 55%Q eq_refl eq_refl Hids
                  (ex_intro _ (mk_transaction 3 1 "Expense" "Food" 50 ""
                                              "2024-02-01")
                     (conj (or_intror (or_intror (or_introl eq_refl)))
                           (conj eq_refl eq_refl)))
                  eq_refl ltac:(discriminate) eq_refl eq_refl)).
Defined.

(** ** Guards of [delete_transaction] *)

(** X6.  [delete_transaction] deletes nothing unless the id typed is an
    integer and the confirmation is "y" or "Y": after a line that [int]
    refuses it prints "Invalid transaction ID." without asking for a
    confirmation, and after any other answer to the confirmation it prints
    "Deletion cancelled."; in both cases the database file and the backups
    are unchanged. *)
Theorem delete_transaction_guards (user_id : Z) (st : state) :
  (forall typed_id rest,
      stdin st = typed_id :: rest ->
      PyStr.int_of_string typed_id = None ->
      delete_transaction user_id st
      = (inr tt,
         mk_state rest
           (stdout st
            ++ Text (nl ++ "=== Delete Transaction ===")
               :: view_lines user_id (db_file st)
            ++ [Prompt "Enter the transaction ID to delete: ";
                Text "Invalid transaction ID."])
           (db_file st) (db_file st) (backup_files st)))
  /\ (forall typed_id confirm rest id,
         stdin st = typed_id :: confirm :: rest ->
         PyStr.int_of_string typed_id = Some id ->
         PyStr.lower confirm <> "y" ->
         delete_transaction user_id st
         = (inr tt,
            mk_state rest
              (stdout st
               ++ delete_preamble user_id (db_file st)
               ++ [Text "Deletion cancelled."])
              (db_file st) (db_file st) (backup_files st))).
Proof.
  split.
  - intros typed_id rest Hin Hid.
    destruct st as [ins out db pend files]. cbn in Hin. subst ins.
    unfold delete_transaction. run_io. rewrite view_transactions_result. run_io.
    rewrite Hid. run_io. rewrite <- !app_assoc. reflexivity.
  - intros typed_id confirm rest id Hin Hid Hconfirm.
    destruct st as [ins out db pend files]. cbn in Hin. subst ins.
    apply String.eqb_neq in Hconfirm.
    unfold delete_transaction, delete_preamble. run_io.
    rewrite view_transactions_result. run_io.
    rewrite Hid. run_io. rewrite Hconfirm. cbn [negb]. run_io.
    cbn [db_file]. rewrite <- !app_assoc. cbn [app]. rewrite <- !app_assoc.
    reflexivity.
Qed.

Lemma delete_transaction_guards_witness :
  (PyStr.int_of_string "one" = None
   /\ db_file (snd (delete_transaction 1
                      (Sample.start ["one"; "y"] Sample.ledger)))
      = Sample.ledger)
  /\ (PyStr.lower "yes" <> "y"
      /\ db_file (snd (delete_transaction 1
                         (Sample.start ["1"; "yes"] Sample.ledger)))
         = Sample.ledger).
Proof.
  split; split.
  - reflexivity.
  - exact (f_equal (fun r => db_file (snd r))
             (proj1 (delete_transaction_guards 1
                       (Sample.start ["one"; "y"] Sample.ledger))
                "one" ["y"] eq_refl eq_refl)).
  - discriminate.
  - exact (f_equal (fun r => db_file (snd r))
             (proj2 (delete_transaction_guards 1
                       (Sample.start ["1"; "yes"] Sample.ledger))
                "1" "yes" [] 1%Z eq_refl eq_refl ltac:(discriminate))).
Defined.

(** ** Commands that only read *)

Lemma triple_with_connection_untouched {A : Type}
    (file : database) (backups : list (string * database))
    (body : M A) (R : A -> Prop) :
  triple (untouched file backups) body R ->
  triple (untouched file backups) (with_connection body) R.
Proof.
  intros Hb st H. unfold with_connection. apply Hb. exact H.
Qed.

Ltac untouched_step :=
  lazymatch goal with
  | |- triple _ (bind _ _) _ => eapply triple_bind; [ | intros ? ? ]
  | |- triple _ (try_except _ _ _) _ => apply triple_try; [ | intros ? ]
  | |- triple _ (with_connection _) _ => apply triple_with_connection_untouched
  | |- triple _ (print _) _ => apply triple_print
  | |- triple _ (print_all _) _ => apply triple_print_all
  | |- triple _ (input _) _ => apply triple_input
  | |- triple _ (input_until _ _ _) _ => apply triple_input_until
  | |- triple _ input_month_year _ => apply triple_input_month_year
  | |- triple _ (ret _) _ => apply triple_ret
  | |- triple _ (raise _) _ => apply triple_raise
  | |- triple _ (lift _) _ => apply triple_lift
  | |- triple _ (query _) _ => apply triple_query
  | |- triple _ (query_checked _) _ => apply triple_query_checked
  | |- triple _ glob_backups _ => apply triple_glob_backups
  | |- triple _ (report_budgets _ _) _ => apply triple_report_budgets
  | |- triple _ (print_breakdown _ _) _ => apply triple_print_breakdown
  | |- triple _ (if ?b then _ else _) _ => destruct b eqn:?
  | |- triple _ (match ?x with _ => _ end) _ => destruct x eqn:?
  end.

(** X7.  [view_transactions], [check_budget], [generate_reports] and
    [login_user] only read: whatever is typed and however they end, the
    database file and the backups are the same afterwards. *)
Theorem reading_commands_change_nothing
    (pbkdf2_hmac_sha512_hex : string -> string -> string)
    (now : Query.date) (user_id : Z) (st : state) :
  (db_file (snd (view_transactions user_id st)) = db_file st
   /\ backup_files (snd (view_transactions user_id st)) = backup_files st)
  /\ (db_file (snd (check_budget now user_id st)) = db_file st
      /\ backup_files (snd (check_budget now user_id st)) = backup_files st)
  /\ (db_file (snd (generate_reports user_id st)) = db_file st
      /\ backup_files (snd (generate_reports user_id st)) = backup_files st)
  /\ (db_file (snd (login_user pbkdf2_hmac_sha512_hex st)) = db_file st
      /\ backup_files (snd (login_user pbkdf2_hmac_sha512_hex st))
         = backup_files st).
Proof.
  assert (Hstart : holds (untouched (db_file st) (backup_files st)) st)
    by (split; reflexivity).
  split; [| split; [| split]].
  - assert (H : triple (untouched (db_file st) (backup_files st))
                       (view_transactions user_id) anything)
      by (unfold view_transactions; repeat untouched_step).
    exact (proj1 (H st Hstart)).
  - assert (H : triple (untouched (db_file st) (backup_files st))
                       (check_budget now user_id) anything)
      by (unfold check_budget; repeat untouched_step).
    exact (proj1 (H st Hstart)).
  - assert (H : triple (untouched (db_file st) (backup_files st))
                       (generate_reports user_id) anything)
      by (unfold generate_reports; repeat untouched_step).
    exact (proj1 (H st Hstart)).
  - assert (H : triple (untouched (db_file st) (backup_files st))
                       (login_user pbkdf2_hmac_sha512_hex) anything)
      by (unfold login_user; repeat untouched_step).
    exact (proj1 (H st Hstart)).
Qed.

(** ** Backups *)

Lemma read_file_write_file (name : string) (content : database)
    (files : list (string * database)) :
  read_file name (write_file name content files) = inr content.
Proof.
  induction files as [| [n c] files IH]; simpl.
  - rewrite String.eqb_refl. reflexivity.
  - destruct (n =? name)%string eqn:E; simpl; rewrite E; [reflexivity | exact IH].
Qed.

Lemma read_file_write_file_other (name other : string) (content : database)
    (files : list (string * database)) :
  other <> name ->
  read_file other (write_file name content files) = read_file other files.
Proof.
  intros Hne. induction files as [| [n c] files IH]; simpl.
  - apply String.eqb_neq in Hne. rewrite String.eqb_sym, Hne. reflexivity.
  - destruct (n =? name)%string eqn:E; simpl.
    + apply String.eqb_eq in E. subst n.
      apply not_eq_sym, String.eqb_neq in Hne. rewrite Hne. reflexivity.
    + rewrite IH. reflexivity.
Qed.

Lemma backup_data_result (timestamp : string) (st : state) :
  backup_data timestamp st
  = (inr tt,
     mk_state (stdin st)
       (stdout st
        ++ [Text ("Backup completed successfully: "
                  ++ "finance_backup_" ++ timestamp ++ ".db")])
       (db_file st) (pending st)
       (write_file ("finance_backup_" ++ timestamp ++ ".db") (db_file st)
                   (backup_files st))).
Proof. reflexivity. Qed.

Lemma list_index_out_of_range {A : Type} (l : list A) (i : Z) :
  (Z.of_nat (List.length l) <= i \/ i < - Z.of_nat (List.length l))%Z ->
  list_index l i = inl IndexError.
Proof.
  intros H. unfold list_index.
  destruct (i <? 0)%Z eqn:Hneg.
  - apply Z.ltb_lt in Hneg.
    assert (E : (0 <=? i + Z.of_nat (List.length l))%Z = false)
      by (apply Z.leb_gt; lia).
    rewrite E. reflexivity.
  - apply Z.ltb_ge in Hneg.
    assert (E : (i <? Z.of_nat (List.length l))%Z = false)
      by (apply Z.ltb_ge; lia).
    rewrite E, andb_false_r. reflexivity.
Qed.

Lemma restore_data_selected (st : state) (choice confirm : string)
    (rest : list string) (n : Z) (name : string) (content : database) :
  stdin st = choice :: confirm :: rest ->
  PyStr.lower choice <> "cancel" ->
  PyStr.int_of_string choice = Some n ->
  list_index (map fst (backup_files st)) (n - 1) = inr name ->
  PyStr.lower confirm = "y" ->
  read_file name (backup_files st) = inr content ->
  restore_data st
  = (inr tt,
     mk_state rest
       (stdout st
        ++ Text (nl ++ "Available backups:")
           :: backup_entries 1 (map fst (backup_files st))
        ++ [Prompt (nl ++ "Enter backup number to restore (or 'cancel'): ");
            Prompt ("Are you sure you want to restore from " ++ name
                    ++ "? Current data will be overwritten (y/n): ");
            Text "Data restored successfully!"])
       content (pending st) (backup_files st)).
Proof.
  intros Hin Hcancel Hn Hindex Hconfirm Hread.
  destruct st as [ins out db pend files]. cbn in Hin. subst ins.
  cbn [backup_files] in *.
  apply String.eqb_neq in Hcancel.
  destruct files as [| f files];
    [rewrite list_index_out_of_range in Hindex by (cbn; lia);
     discriminate Hindex |].
  unfold restore_data. run_io. cbn [map]. run_io.
  rewrite Hcancel. run_io. rewrite Hn. run_io.
  change (fst f :: map fst files) with (map fst (f :: files)).
  rewrite Hindex. run_io. rewrite Hconfirm.
  change (negb ("y" =? "y")%string) with false. run_io.
  rewrite Hread. run_io.
  repeat rewrite <- app_assoc. reflexivity.
Qed.

(** X8.  A backup can be restored: after [backup_data] at some time,
    whatever happened to the database since (the backup files being the
    same), [restore_data] with the number of that backup typed and the
    confirmation "y" puts the database file back to what it was when the
    backup was made. *)
Theorem backup_then_restore (timestamp : string) (st later : state)
    (choice confirm : string) (rest : list string) (n : Z) :
  backup_files later = backup_files (snd (backup_data timestamp st)) ->
  stdin later = choice :: confirm :: rest ->
  PyStr.lower choice <> "cancel" ->
  PyStr.int_of_string choice = Some n ->
  list_index (map fst (backup_files later)) (n - 1)
  = inr ("finance_backup_" ++ timestamp ++ ".db") ->
  PyStr.lower confirm = "y" ->
  db_file (snd (restore_data later)) = db_file st
  /\ backup_files (snd (restore_data later)) = backup_files later.
Proof.
  intros Hfiles Hin Hcancel Hn Hindex Hconfirm.
  rewrite backup_data_result in Hfiles. cbn [snd backup_files] in Hfiles.
  rewrite (restore_data_selected later choice confirm rest n _ (db_file st)
             Hin Hcancel Hn Hindex Hconfirm).
  - split; reflexivity.
  - rewrite Hfiles. apply read_file_write_file.
Qed.

Lemma backup_then_restore_witness :
  let st := Sample.start [] Sample.ledger in
  let later :=
    mk_state ["1"; "Y"] [] empty_database empty_database
             (backup_files (snd (backup_data "20240310_120000" st))) in
  (PyStr.int_of_string "1" = Some 1%Z /\ PyStr.lower "Y" = "y")
  /\ db_file (snd (restore_data later)) = db_file st.
Proof.
  intros st later. split; [split; reflexivity |].
  exact (proj1 (backup_then_restore "20240310_120000" st later "1" "Y" [] 1
                  eq_refl eq_refl ltac:(discriminate) eq_refl eq_refl
                  eq_refl)).
Defined.

(** X9.  [restore_data] leaves the database file and the backups alone when
    there is no backup ("No backup files found.", nothing is read), when
    "cancel" is typed in any casing, when the choice is not an integer, and
    when it is an integer past the end of the list or too far below zero
    ("Invalid selection." in the last two cases). *)
Theorem restore_data_refusals (st : state) :
  (backup_files st = [] ->
   restore_data st
   = (inr tt,
      mk_state (stdin st) (stdout st ++ [Text "No backup files found."])
               (db_file st) (pending st) (backup_files st)))
  /\ (forall choice rest,
         backup_files st <> [] -> stdin st = choice :: rest ->
         PyStr.lower choice = "cancel"
         \/ PyStr.int_of_string choice = None
         \/ (exists n,
                PyStr.int_of_string choice = Some n
                /\ (Z.of_nat (List.length (backup_files st)) < n
                    \/ n <= - Z.of_nat (List.length (backup_files st)))%Z) ->
         db_file (snd (restore_data st)) = db_file st
         /\ backup_files (snd (restore_data st)) = backup_files st
         /\ stdin (snd (restore_data st)) = rest
         /\ (PyStr.lower choice <> "cancel" ->
             last (stdout (snd (restore_data st))) (Text "")
             = Text "Invalid selection.")).
Proof.
  split.
  - intros Hnone. destruct st as [ins out db pend files].
    cbn [backup_files] in Hnone. subst files. reflexivity.
  - intros choice rest Hsome Hin Hcase.
    destruct st as [ins out db pend files]. cbn in Hin. subst ins.
    cbn [backup_files db_file] in *.
    destruct files as [| f files]; [destruct (Hsome eq_refl) |].
    unfold restore_data. run_io. cbn [map]. run_io.
    destruct (PyStr.lower choice =? "cancel")%string eqn:Hc.
    + run_io. cbn [snd stdin stdout db_file backup_files]. repeat split.
      intros Hne. apply String.eqb_eq in Hc. destruct (Hne Hc).
    + run_io. apply String.eqb_neq in Hc.
      destruct Hcase as [Hcancel | [Hnone | (n & Hn & Hrange)]];
        [destruct (Hc Hcancel) | |].
      * rewrite Hnone. run_io. cbn [snd stdin stdout db_file backup_files]. repeat split.
        intros _. rewrite last_last. reflexivity.
      * rewrite Hn. run_io.
        change (fst f :: map fst files) with (map fst (f :: files)).
        rewrite list_index_out_of_range
          by (rewrite length_map; cbn [List.length] in *; lia).
        run_io. cbn [snd stdin stdout db_file backup_files]. repeat split.
        intros _. rewrite last_last. reflexivity.
Qed.

Lemma restore_data_refusals_witness :
  let st :=
    mk_state ["7"; "y"] [] Sample.ledger Sample.ledger
             [("finance_backup_20240310_120000.db", empty_database)] in
  backup_files st <> []
  /\ (PyStr.int_of_string "7" = Some 7%Z
      /\ (Z.of_nat (List.length (backup_files st)) < 7)%Z)
  /\ db_file (snd (restore_data st)) = db_file st.
Proof.
  intros st.
  assert (Hsome : backup_files st <> []) by discriminate.
  split; [exact Hsome | split; [split; reflexivity |]].
  exact (proj1 (proj2 (restore_data_refusals st) "7" ["y"] Hsome eq_refl
                  (or_intror (or_intror
                     (ex_intro _ 7%Z (conj eq_refl (or_introl eq_refl))))))).
Defined.

Lemma list_index_minus_one {A : Type} (l : list A) (d : A) :
  l <> [] -> list_index l (-1) = inr (last l d).
Proof.
  intros Hne. unfold list_index.
  destruct l as [| a l]; [destruct (Hne eq_refl) |].
  change (-1 <? 0)%Z with true. cbv iota.
  assert (E : ((0 <=? -1 + Z.of_nat (List.length (a :: l)))%Z
               && (-1 + Z.of_nat (List.length (a :: l))
                   <? Z.of_nat (List.length (a :: l)))%Z)%bool = true).
  { apply andb_true_iff. split; [apply Z.leb_le | apply Z.ltb_lt];
      cbn [List.length]; lia. }
  rewrite E.
  replace (Z.to_nat (-1 + Z.of_nat (List.length (a :: l)))) with (List.length l)
    by (cbn [List.length]; lia).
  clear E Hne. revert a. induction l as [| b l IH]; intros a; [reflexivity |].
  cbn [List.length nth_error]. rewrite (IH b). reflexivity.
Qed.

Lemma read_file_last (files : list (string * database))
    (d : string * database) :
  files <> [] -> NoDup (map fst files) ->
  read_file (fst (last files d)) files = inr (snd (last files d)).
Proof.
  induction files as [| [n c] files IH]; intros Hne Hnd; [destruct (Hne eq_refl) |].
  destruct files as [| f files].
  - simpl. rewrite String.eqb_refl. reflexivity.
  - change (last ((n, c) :: f :: files) d) with (last (f :: files) d).
    cbn [read_file].
    assert (Hlast : In (last (f :: files) d) (f :: files)).
    { destruct (exists_last (l := f :: files) ltac:(discriminate))
        as (l' & x & Hl).
      rewrite Hl, last_last. apply in_app_iff. right. left. reflexivity. }
    apply (in_map fst) in Hlast.
    apply NoDup_cons_iff in Hnd. destruct Hnd as [Hnotin Hrest].
    destruct (n =? fst (last (f :: files) d))%string eqn:E.
    + apply String.eqb_eq in E. destruct Hnotin. cbn [fst]. rewrite E.
      exact Hlast.
    + apply IH; [discriminate | exact Hrest].
Qed.

Lemma map_last {A B : Type} (f : A -> B) (l : list A) (d : A) :
  last (map f l) (f d) = f (last l d).
Proof.
  induction l as [| a l IH]; [reflexivity |].
  destruct l as [| b l]; [reflexivity |]. exact IH.
Qed.

Lemma last_app_nonempty {A : Type} (l l' : list A) (d : A) :
  l' <> [] -> last (l ++ l') d = last l' d.
Proof.
  intros Hne. induction l as [| a l IH]; [reflexivity |].
  cbn [app]. destruct (l ++ l')%list eqn:E; [| exact IH].
  apply app_eq_nil in E. destruct (Hne (proj2 E)).
Qed.

(** X10.  The choice typed to [restore_data] indexes the list as Python does:
    "0" is not refused, it selects the element at index -1, so with the
    confirmation "y" the database file is replaced by the last backup of the
    list. *)
Theorem restore_data_zero_selects_last_backup (st : state)
    (choice confirm : string) (rest : list string) (d : string * database) :
  backup_files st <> [] ->
  NoDup (map fst (backup_files st)) ->
  stdin st = choice :: confirm :: rest ->
  PyStr.lower choice <> "cancel" ->
  PyStr.int_of_string choice = Some 0%Z ->
  PyStr.lower confirm = "y" ->
  db_file (snd (restore_data st)) = snd (last (backup_files st) d)
  /\ last (stdout (snd (restore_data st))) (Text "")
     = Text "Data restored successfully!".
Proof.
  intros Hsome Hnd Hin Hcancel Hn Hconfirm.
  assert (Hindex : list_index (map fst (backup_files st)) (0 - 1)
                   = inr (fst (last (backup_files st) d))).
  { change (0 - 1)%Z with (-1)%Z.
    rewrite (list_index_minus_one _ (fst d)), map_last; [reflexivity |].
    destruct (backup_files st); [destruct (Hsome eq_refl) | discriminate]. }
  rewrite (restore_data_selected st choice confirm rest 0 _ _
             Hin Hcancel Hn Hindex Hconfirm (read_file_last _ d Hsome Hnd)).
  split; [reflexivity |]. cbn [snd stdout].
  rewrite app_comm_cons, app_assoc, last_app_nonempty by discriminate.
  reflexivity.
Qed.

Lemma restore_data_zero_selects_last_backup_witness :
  let st :=
    mk_state ["0"; "y"] [] empty_database empty_database
             [("finance_backup_20240101_000000.db", Sample.ledger);
              ("finance_backup_20240310_120000.db", Sample.ledger_with_budget)] in
  (backup_files st <> [] /\ PyStr.int_of_string "0" = Some 0%Z)
  /\ db_file (snd (restore_data st))
     = snd (last (backup_files st) ("", empty_database)).
Proof.
  intros st.
  assert (Hsome : backup_files st <> []) by discriminate.
  assert (Hnd : NoDup (map fst (backup_files st))).
  { simpl. apply NoDup_cons; [| apply NoDup_cons; [intros [] | apply NoDup_nil]].
    intros [H | []]. discriminate H. }
  split; [split; [exact Hsome | reflexivity] |].
  exact (proj1 (restore_data_zero_selects_last_backup st "0" "y" []
                  ("", empty_database) Hsome Hnd eq_refl
                  ltac:(discriminate) eq_refl eq_refl)).
Defined.

Lemma write_file_names (name : string) (content : database)
    (files : list (string * database)) :
  map fst (write_file name content files)
  = if existsb (fun f => (fst f =? name)%string) files
    then map fst files
    else (map fst files ++ [name])%list.
Proof.
  induction files as [| [n c] files IH]; simpl; [reflexivity |].
  destruct (n =? name)%string eqn:E; simpl; [reflexivity |].
  rewrite IH. destruct (existsb _ files); reflexivity.
Qed.

(** X11.  [backup_data] stores the current database under
    "finance_backup_<timestamp>.db" and changes nothing else: the database
    file is the same, every backup with another name keeps its content, the
    backup names are the old ones and the new one, and there is one backup
    more only when the name was not there (a backup taken in the same second
    replaces the earlier one).  Nothing is said of the place the new name
    takes in the directory. *)
Theorem backup_data_snapshot (timestamp : string) (st : state) :
  let name := "finance_backup_" ++ timestamp ++ ".db" in
  let after := snd (backup_data timestamp st) in
  read_file name (backup_files after) = inr (db_file st)
  /\ db_file after = db_file st
  /\ (forall other, other <> name ->
                    read_file other (backup_files after)
                    = read_file other (backup_files st))
  /\ (forall n,
         In n (map fst (backup_files after))
         <-> n = name \/ In n (map fst (backup_files st)))
  /\ List.length (backup_files after)
     = (if existsb (fun f => (fst f =? name)%string) (backup_files st)
        then List.length (backup_files st)
        else S (List.length (backup_files st))).
Proof.
  intros name after. subst after. rewrite backup_data_result.
  cbn [snd backup_files db_file]. fold name.
  split; [apply read_file_write_file | split; [reflexivity | split]].
  - intros other Hother. apply read_file_write_file_other, Hother.
  - pose proof (write_file_names name (db_file st) (backup_files st)) as Hnames.
    split.
    + intros n. rewrite Hnames.
      destruct (existsb (fun f => (fst f =? name)%string) (backup_files st))
        eqn:E.
      * split; [intros H; right; exact H |].
        intros [-> | H]; [| exact H].
        apply existsb_exists in E. destruct E as (f & Hf & Ef).
        apply String.eqb_eq in Ef. rewrite <- Ef. apply in_map, Hf.
      * rewrite in_app_iff. split.
        -- intros [H | [<- | []]]; [right; exact H | left; reflexivity].
        -- intros [-> | H]; [right; left; reflexivity | left; exact H].
    + rewrite <- (length_map fst (write_file name (db_file st) (backup_files st))).
      rewrite Hnames.
      destruct (existsb (fun f => (fst f =? name)%string) (backup_files st)).
      * apply length_map.
      * rewrite length_app, length_map. simpl. lia.
Qed.

(** ** Passwords and accounts *)

Lemma split_without_separator (sep : ascii) (s : string) :
  PyStr.all_chars (fun c => negb (Ascii.eqb c sep)) s = true ->
  PyStr.split sep s = [s].
Proof.
  induction s as [| c s IH]; simpl; [reflexivity |].
  intros H. apply andb_true_iff in H. destruct H as [Hc Hs].
  apply negb_true_iff in Hc. rewrite Hc, (IH Hs). reflexivity.
Qed.

Lemma split_at_separator (sep : ascii) (a b : string) :
  PyStr.all_chars (fun c => negb (Ascii.eqb c sep)) a = true ->
  PyStr.all_chars (fun c => negb (Ascii.eqb c sep)) b = true ->
  PyStr.split sep (a ++ String sep b) = [a; b].
Proof.
  intros Ha Hb. induction a as [| c a IH]; simpl.
  - rewrite Ascii.eqb_refl, (split_without_separator sep b Hb). reflexivity.
  - simpl in Ha. apply andb_true_iff in Ha. destruct Ha as [Hc Ha].
    apply negb_true_iff in Hc. rewrite Hc, (IH Ha). reflexivity.
Qed.

Lemma verify_password_try_own_hash
    (pbkdf2_hmac_sha512_hex : string -> string -> string)
    (salt password : string) :
  salt_ok salt ->
  PyStr.all_chars (fun c => negb (Ascii.eqb c ":"))
    (pbkdf2_hmac_sha512_hex password salt) = true ->
  verify_password_try pbkdf2_hmac_sha512_hex
    (hash_password pbkdf2_hmac_sha512_hex salt password) password
  = inr true.
Proof.
  intros [Hcolon Hascii] Hhash.
  unfold verify_password_try, hash_password.
  change (salt ++ ":" ++ pbkdf2_hmac_sha512_hex password salt)
    with (salt ++ String ":" (pbkdf2_hmac_sha512_hex password salt)).
  rewrite (split_at_separator ":" _ _ Hcolon Hhash).
  unfold encode_ascii. rewrite Hascii, String.eqb_refl. reflexivity.
Qed.

(** X12.  A password verifies against its own hash: when the salt is ASCII
    without ':' and the derived key is printed without ':' (both are hex
    digests), [verify_password (hash_password password) password] is
    [True]. *)
Theorem verify_password_accepts_own_hash
    (pbkdf2_hmac_sha512_hex : string -> string -> string)
    (salt password : string) :
  salt_ok salt ->
  PyStr.all_chars (fun c => negb (Ascii.eqb c ":"))
    (pbkdf2_hmac_sha512_hex password salt) = true ->
  verify_password pbkdf2_hmac_sha512_hex
    (hash_password pbkdf2_hmac_sha512_hex salt password) password
  = inr true.
Proof.
  intros Hsalt Hhash. unfold verify_password.
  rewrite (verify_password_try_own_hash _ _ _ Hsalt Hhash). reflexivity.
Qed.

Lemma verify_password_accepts_own_hash_witness :
  salt_ok "9f86d081884c7d65"
  /\ verify_password Sample.toy_kdf
       (hash_password Sample.toy_kdf "9f86d081884c7d65" "correct horse")
       "correct horse"
     = inr true.
Proof.
  assert (Hsalt : salt_ok "9f86d081884c7d65") by (split; reflexivity).
  split; [exact Hsalt |].
  exact (verify_password_accepts_own_hash Sample.toy_kdf "9f86d081884c7d65"
           "correct horse" Hsalt eq_refl).
Defined.

Lemma register_user_stores
    (pbkdf2_hmac_sha512_hex : string -> string -> string)
    (salt : string) (st : state)
    (typed password confirm_password : string) (rest : list string) :
  stdin st = typed :: password :: confirm_password :: rest ->
  PyStr.strip typed <> "" ->
  password = confirm_password ->
  8 <= String.length password ->
  existsb (fun u => (u_username u =? PyStr.strip typed)%string)
          (users (db_file st)) = false ->
  let db' :=
    mk_database
      (users (db_file st)
       ++ [mk_user (Table.next_id (seq_users (db_file st))
                                  (map u_id (users (db_file st))))
                   (PyStr.strip typed)
                   (hash_password pbkdf2_hmac_sha512_hex salt password)])
      (transactions (db_file st)) (budgets (db_file st))
      (Table.next_id (seq_users (db_file st)) (map u_id (users (db_file st))))
      (seq_transactions (db_file st)) (seq_budgets (db_file st)) in
  register_user pbkdf2_hmac_sha512_hex salt st
  = (inr tt,
     mk_state rest
       (stdout st
        ++ [Text (nl ++ "=== Register ===");
            Prompt "Enter a username: ";
            Prompt "Enter a password: ";
            Prompt "Confirm password: ";
            Text "Registration successful! You can now log in."])
       db' db' (backup_files st)).
Proof.
  intros Hin Hname Hsame Hlen Hfree db'. subst confirm_password.
  destruct st as [ins out db pend files]. cbn in Hin. subst ins.
  cbn [db_file] in *.
  apply Nat.ltb_ge in Hlen.
  unfold register_user. run_io. rewrite (is_empty_false _ Hname). run_io.
  rewrite String.eqb_refl. cbn [negb]. rewrite Hlen.
  run_io. unfold Table.insert_user. rewrite Hfree. run_io.
  subst db'. rewrite <- !app_assoc. reflexivity.
Qed.

Lemma find_app_new {A : Type} (p : A -> bool) (l : list A) (x : A) :
  existsb p l = false -> p x = true -> find p (l ++ [x]) = Some x.
Proof.
  induction l as [| a l IH]; simpl; intros Hl Hx; [rewrite Hx; reflexivity |].
  apply orb_false_iff in Hl. destruct Hl as [Ha Hl].
  rewrite Ha. exact (IH Hl Hx).
Qed.

(** X13.  Registration followed by login: once [register_user] has accepted
    a new username with a password of at least eight characters typed twice
    (salt and derived key being hex digests), [login_user] with that username
    and password -- surrounding blanks of the username ignored -- prints
    "Welcome back, <username>!" and returns the id given to the new user. *)
Theorem register_then_login
    (pbkdf2_hmac_sha512_hex : string -> string -> string)
    (salt : string) (st : state)
    (typed password typed_again : string) (rest : list string) :
  stdin st = typed :: password :: password :: typed_again :: password :: rest ->
  PyStr.strip typed <> "" ->
  PyStr.strip typed_again = PyStr.strip typed ->
  8 <= String.length password ->
  existsb (fun u => (u_username u =? PyStr.strip typed)%string)
          (users (db_file st)) = false ->
  salt_ok salt ->
  PyStr.all_chars (fun c => negb (Ascii.eqb c ":"))
    (pbkdf2_hmac_sha512_hex password salt) = true ->
  let registered := snd (register_user pbkdf2_hmac_sha512_hex salt st) in
  let result := login_user pbkdf2_hmac_sha512_hex registered in
  fst result
  = inr (Some (Table.next_id (seq_users (db_file st))
                             (map u_id (users (db_file st)))))
  /\ last (stdout (snd result)) (Text "")
     = Text ("Welcome back, " ++ PyStr.strip typed ++ "!")
  /\ db_file (snd result) = db_file registered.
Proof.
  intros Hin Hname Hagain Hlen Hfree Hsalt Hhash registered result.
  subst result registered.
  rewrite (register_user_stores pbkdf2_hmac_sha512_hex salt st typed password
             password (typed_again :: password :: rest) Hin Hname eq_refl
             Hlen Hfree).
  cbv zeta. cbn [snd].
  unfold login_user. run_io. rewrite Hagain.
  unfold Table.select_user. cbn [users].
  rewrite find_app_new;
    [| exact Hfree | cbn [u_username]; apply String.eqb_refl].
  cbn [option_map u_id u_password].
  unfold verify_password.
  rewrite (verify_password_try_own_hash _ _ _ Hsalt Hhash).
  run_io. cbn [fst snd stdout db_file].
  split; [reflexivity | split; [| reflexivity]].
  apply last_last.
Qed.

Lemma register_then_login_witness :
  let st := Sample.start ["bob"; "hunter2hunter2"; "hunter2hunter2";
                          " bob "; "hunter2hunter2"]
                         Sample.broken_credential in
  (PyStr.strip " bob " = PyStr.strip "bob"
   /\ 8 <= String.length "hunter2hunter2"
   /\ salt_ok "9f86d081884c7d65")
  /\ fst (login_user Sample.toy_kdf
            (snd (register_user Sample.toy_kdf "9f86d081884c7d65" st)))
     = inr (Some (Table.next_id (seq_users (db_file st))
                                (map u_id (users (db_file st))))).
Proof.
  intros st.
  assert (Hsalt : salt_ok "9f86d081884c7d65") by (split; reflexivity).
  assert (Hlen : 8 <= String.length "hunter2hunter2") by (cbn; lia).
  split; [split; [reflexivity | split; [exact Hlen | exact Hsalt]] |].
  exact (proj1 (register_then_login Sample.toy_kdf "9f86d081884c7d65" st
                  "bob" "hunter2hunter2" " bob " [] eq_refl
                  ltac:(discriminate) eq_refl Hlen eq_refl Hsalt eq_refl)).
Defined.

(** X14.  [register_user] stores nothing and says why when the username is
    blank ("Username cannot be empty.", no password is asked), when the two
    passwords differ, when the password has fewer than eight characters, and
    when the username is already taken ("Username already exists. Please
    choose a different one."); the checks are made in this order. *)
Theorem register_user_refusals
    (pbkdf2_hmac_sha512_hex : string -> string -> string)
    (salt : string) (st : state) :
  (forall typed rest,
      stdin st = typed :: rest -> PyStr.strip typed = "" ->
      register_user pbkdf2_hmac_sha512_hex salt st
      = (inr tt,
         mk_state rest
           (stdout st ++ [Text (nl ++ "=== Register ===");
                          Prompt "Enter a username: ";
                          Text "Username cannot be empty."])
           (db_file st) (pending st) (backup_files st)))
  /\ (forall typed password confirm_password rest,
         stdin st = typed :: password :: confirm_password :: rest ->
         PyStr.strip typed <> "" ->
         let after := snd (register_user pbkdf2_hmac_sha512_hex salt st) in
         (password <> confirm_password ->
          db_file after = db_file st
          /\ last (stdout after) (Text "")
             = Text "Passwords do not match. Please try again.")
         /\ (password = confirm_password -> String.length password < 8 ->
             db_file after = db_file st
             /\ last (stdout after) (Text "")
                = Text "Password must be at least 8 characters long.")
         /\ (password = confirm_password -> 8 <= String.length password ->
             existsb (fun u => (u_username u =? PyStr.strip typed)%string)
                     (users (db_file st)) = true ->
             db_file after = db_file st
             /\ last (stdout after) (Text "")
                = Text "Username already exists. Please choose a different one.")).
Proof.
  split.
  - intros typed rest Hin Hname.
    destruct st as [ins out db pend files]. cbn in Hin. subst ins.
    unfold register_user. run_io. rewrite Hname. cbn [PyStr.is_empty]. run_io.
    rewrite <- !app_assoc. reflexivity.
  - intros typed password confirm_password rest Hin Hname after. subst after.
    destruct st as [ins out db pend files]. cbn in Hin. subst ins.
    cbn [db_file].
    unfold register_user. run_io. rewrite (is_empty_false _ Hname). run_io.
    split; [| split].
    + intros Hdiff. apply String.eqb_neq in Hdiff. rewrite Hdiff.
      cbn [negb]. run_io. cbn [snd db_file stdout].
      split; [reflexivity | apply last_last].
    + intros -> Hshort. apply Nat.ltb_lt in Hshort.
      rewrite String.eqb_refl. cbn [negb]. rewrite Hshort.
      run_io. cbn [snd db_file stdout].
      split; [reflexivity | apply last_last].
    + intros -> Hlong Htaken. apply Nat.ltb_ge in Hlong.
      rewrite String.eqb_refl. cbn [negb]. rewrite Hlong.
      run_io. unfold Table.insert_user. rewrite Htaken.
      run_io. cbn [snd db_file stdout].
      split; [reflexivity | apply last_last].
Qed.

Lemma register_user_refusals_witness :
  let st := Sample.start [" alice"; "longenough1"; "longenough1"]
                         Sample.broken_credential in
  (PyStr.strip " alice" <> "" /\ 8 <= String.length "longenough1"
   /\ existsb (fun u => (u_username u =? PyStr.strip " alice")%string)
              (users (db_file st)) = true)
  /\ db_file (snd (register_user Sample.toy_kdf "00ff" st)) = db_file st.
Proof.
  intros st.
  assert (Hname : PyStr.strip " alice" <> "") by discriminate.
  assert (Hlen : 8 <= String.length "longenough1") by (cbn; lia).
  split; [split; [exact Hname | split; [exact Hlen | reflexivity]] |].
  exact (proj1 (proj2 (proj2 (proj2 (register_user_refusals Sample.toy_kdf
                                       "00ff" st)
                                " alice" "longenough1" "longenough1" []
                                eq_refl Hname))
                  eq_refl Hlen eq_refl)).
Defined.

(** X15.  [login_user] answers an unknown username exactly as it answers a
    wrong password: it prints "Invalid username or password. Please try
    again." and returns [None]; the two printed outputs are the same. *)
Theorem login_user_does_not_tell_unknown_from_wrong
    (pbkdf2_hmac_sha512_hex : string -> string -> string)
    (st : state) (typed password : string) (rest : list string) :
  stdin st = typed :: password :: rest ->
  let refused :=
    (inr None,
     mk_state rest
       (stdout st ++ [Text (nl ++ "=== Login ===");
                      Prompt "Enter your username: ";
                      Prompt "Enter your password: ";
                      Text "Invalid username or password. Please try again."])
       (db_file st) (db_file st) (backup_files st)) in
  (Table.select_user (PyStr.strip typed) (db_file st) = None ->
   login_user pbkdf2_hmac_sha512_hex st = refused)
  /\ (forall id stored,
         Table.select_user (PyStr.strip typed) (db_file st) = Some (id, stored) ->
         verify_password pbkdf2_hmac_sha512_hex stored password = inr false ->
         login_user pbkdf2_hmac_sha512_hex st = refused).
Proof.
  intros Hin refused. subst refused.
  destruct st as [ins out db pend files]. cbn in Hin. subst ins.
  cbn [db_file stdout backup_files].
  split.
  - intros Hnone. unfold login_user. run_io. rewrite Hnone. run_io.
    rewrite <- !app_assoc. reflexivity.
  - intros id stored Hsome Hwrong. unfold login_user. run_io.
    rewrite Hsome, Hwrong. run_io. rewrite <- !app_assoc. reflexivity.
Qed.

Lemma login_user_does_not_tell_unknown_from_wrong_witness :
  let st := Sample.start ["carol"; "whatever"] Sample.broken_credential in
  Table.select_user (PyStr.strip "carol") (db_file st) = None
  /\ fst (login_user Sample.toy_kdf st) = inr None.
Proof.
  intros st. split; [reflexivity |].
  exact (f_equal fst
           (proj1 (login_user_does_not_tell_unknown_from_wrong Sample.toy_kdf
                     st "carol" "whatever" [] eq_refl)
              eq_refl)).
Defined.

(** ** Keys *)

Lemma next_id_above (seq : Z) (ids : list Z) :
  (seq < Table.next_id seq ids)%Z
  /\ forall i, In i ids -> (i < Table.next_id seq ids)%Z.
Proof.
  unfold Table.next_id. induction ids as [| a ids [IHs IHi]]; simpl.
  - split; [lia | intros i []].
  - split; [lia |]. intros i [-> | Hi]; [lia |]. specialize (IHi i Hi). lia.
Qed.

Lemma ids_ok_insert {A : Type} (key : A -> Z) (seq : Z) (l kept : list A)
    (x : A) :
  ids_ok key seq l ->
  NoDup (map key kept) -> incl kept l ->
  key x = Table.next_id seq (map key l) ->
  ids_ok key (Table.next_id seq (map key l)) (kept ++ [x]).
Proof.
  intros [Hnd Hle] Hkept Hincl Hx.
  destruct (next_id_above seq (map key l)) as [Hseq Hids].
  split.
  - rewrite map_app. apply NoDup_snoc; [exact Hkept |].
    cbn [map]. intros Hin. apply in_map_iff in Hin.
    destruct Hin as (y & Hy & Hyin).
    pose proof (Hids (key y) (in_map key _ _ (Hincl _ Hyin))). lia.
  - apply Forall_app. split.
    + rewrite Forall_forall in *. intros y Hy.
      specialize (Hle y (Hincl _ Hy)). lia.
    + apply Forall_cons; [lia | apply Forall_nil].
Qed.

Lemma ids_ok_filter {A : Type} (key : A -> Z) (seq : Z) (p : A -> bool)
    (l : list A) :
  ids_ok key seq l -> ids_ok key seq (filter p l).
Proof.
  intros [Hnd Hle].
  split; [apply NoDup_map_filter, Hnd | apply Forall_filter_keeps, Hle].
Qed.

Lemma ids_ok_map {A : Type} (key : A -> Z) (seq : Z) (f : A -> A)
    (l : list A) :
  (forall x, key (f x) = key x) ->
  ids_ok key seq l -> ids_ok key seq (map f l).
Proof.
  intros Hf [Hnd Hle]. split.
  - rewrite map_map. rewrite (map_ext _ key) by exact Hf. exact Hnd.
  - rewrite Forall_forall in *. intros y Hy. apply in_map_iff in Hy.
    destruct Hy as (x & <- & Hx). rewrite Hf. apply Hle, Hx.
Qed.

Lemma keys_ok_empty : keys_ok empty_database.
Proof.
  repeat split; simpl; first [apply NoDup_nil | apply Forall_nil].
Qed.

Lemma keys_ok_insert_user (username password : string) (db db' : database) :
  keys_ok db -> Table.insert_user username password db = inr db' -> keys_ok db'.
Proof.
  unfold Table.insert_user. intros (Hn & Hu & Ht & Hb).
  destruct (existsb _ _) eqn:E; [discriminate |].
  intros H. injection H as <-.
  split; [| split; [| split; assumption]]; cbn [users seq_users].
  - rewrite map_app. apply NoDup_snoc; [exact Hn |].
    intros Hin. apply in_map_iff in Hin. destruct Hin as (u & Hu' & Hin).
    assert (existsb (fun u => (u_username u =? username)%string) (users db)
            = true)
      by (apply existsb_exists; exists u; split;
          [exact Hin | apply String.eqb_eq; exact Hu']).
    congruence.
  - apply (ids_ok_insert u_id _ _ _ _ Hu (proj1 Hu) (incl_refl _)).
    reflexivity.
Qed.

Lemma keys_ok_insert_transaction (user_id : Z) (ty category : string)
    (amount : Q) (description date : string) (db db' : database) :
  keys_ok db ->
  Table.insert_transaction user_id ty category amount description date db
  = inr db' ->
  keys_ok db'.
Proof.
  unfold Table.insert_transaction. intros (Hn & Hu & Ht & Hb).
  destruct (Table.check_type ty); [| discriminate].
  intros H. injection H as <-.
  split; [exact Hn | split; [exact Hu | split; [| exact Hb]]].
  cbn [transactions seq_transactions].
  apply (ids_ok_insert t_id _ _ _ _ Ht (proj1 Ht) (incl_refl _)). reflexivity.
Qed.

Lemma keys_ok_update_transaction (ty category : string) (amount : Q)
    (description date : string) (id user_id : Z) (db db' : database) :
  keys_ok db ->
  Table.update_transaction ty category amount description date id user_id db
  = inr db' ->
  keys_ok db'.
Proof.
  unfold Table.update_transaction. intros (Hn & Hu & Ht & Hb).
  destruct (_ && _); [discriminate |].
  intros H. injection H as <-.
  split; [exact Hn | split; [exact Hu | split; [| exact Hb]]].
  cbn [transactions seq_transactions].
  apply ids_ok_map; [| exact Ht].
  intros x. destruct (Table.owned id user_id x); reflexivity.
Qed.

Lemma keys_ok_delete_transaction (id user_id : Z) (db : database) :
  keys_ok db -> keys_ok (fst (Table.delete_transaction id user_id db)).
Proof.
  intros (Hn & Hu & Ht & Hb).
  split; [exact Hn | split; [exact Hu | split; [| exact Hb]]].
  cbn [fst Table.delete_transaction transactions seq_transactions].
  apply ids_ok_filter, Ht.
Qed.

Lemma keys_ok_insert_or_replace_budget (user_id : Z) (category : string)
    (amount : Q) (db : database) :
  keys_ok db ->
  keys_ok (Table.insert_or_replace_budget user_id category amount db).
Proof.
  intros (Hn & Hu & Ht & Hb).
  split; [exact Hn | split; [exact Hu | split; [exact Ht |]]].
  cbn [Table.insert_or_replace_budget budgets seq_budgets].
  apply (ids_ok_insert b_id _ _ _ _ Hb).
  - apply NoDup_map_filter, (proj1 Hb).
  - intros b Hin. apply filter_In in Hin. apply Hin.
  - reflexivity.
Qed.

Lemma at_most_one_with_key {A : Type} (key : A -> Z) (p : A -> bool)
    (k : Z) (l : list A) :
  NoDup (map key l) ->
  (forall x, p x = true -> key x = k) ->
  List.length (filter p l) <= 1.
Proof.
  intros Hnd Hp. induction l as [| a l IH]; simpl; [lia |].
  apply NoDup_cons_iff in Hnd. destruct Hnd as [Hnotin Hnd].
  destruct (p a) eqn:Pa; [| exact (IH Hnd)].
  rewrite (filter_none p l); [simpl; lia |].
  intros x Hx. destruct (p x) eqn:Px; [| reflexivity].
  destruct Hnotin. rewrite (Hp a Pa), <- (Hp x Px). apply in_map, Hx.
Qed.

(** X16.  In every state the program can reach, the ids of the users, of the
    transactions and of the budgets are pairwise distinct and not above
    their table's sequence counter, and usernames are pairwise distinct.
    Hence at most one stored transaction answers to an (id, owner) pair --
    an update or a delete touches one row at most -- and the id the next
    INSERT will use is above every stored id. *)
Theorem reachable_keys_are_unique
    (float_of_string : string -> option Q)
    (pbkdf2_hmac_sha512_hex : string -> string -> string) (st : state) :
  reachable float_of_string pbkdf2_hmac_sha512_hex st ->
  keys_ok (db_file st)
  /\ (forall id user_id,
         List.length (filter (Table.owned id user_id)
                             (transactions (db_file st))) <= 1)
  /\ (forall t, In t (transactions (db_file st)) ->
                (t_id t < Table.next_id (seq_transactions (db_file st))
                                        (map t_id (transactions (db_file st))))%Z).
Proof.
  intros Hr.
  assert (Hk : keys_ok (db_file st)).
  { apply (reachable_keeps float_of_string pbkdf2_hmac_sha512_hex keys_ok)
      in Hr.
    - exact (proj1 Hr).
    - exact keys_ok_insert_user.
    - intros user_id ty category amount description date db db' _.
      apply keys_ok_insert_transaction.
    - intros ty category amount description date id user_id db db' _.
      apply keys_ok_update_transaction.
    - exact keys_ok_delete_transaction.
    - intros user_id category amount db _.
      apply keys_ok_insert_or_replace_budget.
    - exact keys_ok_empty. }
  split; [exact Hk | split].
  - intros id user_id. destruct Hk as (_ & _ & [Hnd _] & _).
    apply (at_most_one_with_key t_id _ id _ Hnd).
    intros x Hx. apply owned_spec in Hx. apply Hx.
  - intros t Ht.
    apply (proj2 (next_id_above _ _)), in_map, Ht.
Qed.

Lemma reachable_keys_are_unique_witness :
  let st :=
    snd (run Sample.decimal Sample.toy_kdf (AddTransaction 1)
           (Sample.start ["income"; "Pay"; "10"; ""; "2024-03-01"]
                         empty_database)) in
  reachable Sample.decimal Sample.toy_kdf st /\ keys_ok (db_file st).
Proof.
  intros st.
  assert (Hr : reachable Sample.decimal Sample.toy_kdf st)
    by exact (reachable_run Sample.decimal Sample.toy_kdf (AddTransaction 1) _
                (reachable_start Sample.decimal Sample.toy_kdf
                   ["income"; "Pay"; "10"; ""; "2024-03-01"])).
  split; [exact Hr |].
  exact (proj1 (reachable_keys_are_unique Sample.decimal Sample.toy_kdf st Hr)).
Defined.

(** ** What is stored has been through the prompts *)

Lemma string_app_nil_r (s : string) : s ++ "" = s.
Proof. induction s as [| c s IH]; simpl; [| rewrite IH]; reflexivity. Qed.

Lemma string_app_assoc (a b c : string) : (a ++ b) ++ c = a ++ b ++ c.
Proof. induction a as [| x a IH]; simpl; [| rewrite IH]; reflexivity. Qed.

Lemma rev_append_spec (s acc : string) :
  PyStr.rev_append s acc = PyStr.rev s ++ acc.
Proof.
  unfold PyStr.rev. revert acc.
  induction s as [| c s IH]; intros acc; simpl; [reflexivity |].
  rewrite (IH (String c acc)), (IH (String c "")), string_app_assoc.
  reflexivity.
Qed.

Lemma rev_cons (c : ascii) (s : string) :
  PyStr.rev (String c s) = PyStr.rev s ++ String c "".
Proof. unfold PyStr.rev at 1. simpl. apply rev_append_spec. Qed.

Lemma rev_app (a b : string) :
  PyStr.rev (a ++ b) = PyStr.rev b ++ PyStr.rev a.
Proof.
  induction a as [| c a IH]; simpl.
  - rewrite string_app_nil_r. reflexivity.
  - rewrite !rev_cons, IH, string_app_assoc. reflexivity.
Qed.

Lemma rev_involutive (s : string) : PyStr.rev (PyStr.rev s) = s.
Proof.
  induction s as [| c s IH]; [reflexivity |].
  rewrite rev_cons, rev_app, IH. reflexivity.
Qed.

Lemma lstrip_starts_clean (s : string) : starts_clean (PyStr.lstrip s).
Proof.
  induction s as [| c s IH]; simpl; [exact I |].
  destruct (PyStr.is_space c) eqn:E; [exact IH | exact E].
Qed.

Lemma lstrip_clean (s : string) : starts_clean s -> PyStr.lstrip s = s.
Proof. destruct s as [| c s]; simpl; [reflexivity | intros ->; reflexivity]. Qed.

Lemma lstrip_before_clean (x : string) (c : ascii) :
  PyStr.is_space c = false ->
  exists z, PyStr.lstrip (x ++ String c "") = z ++ String c "".
Proof.
  intros Hc. induction x as [| a x [z IH]]; simpl.
  - rewrite Hc. exists "". reflexivity.
  - destruct (PyStr.is_space a); [exists z; exact IH |].
    exists (String a x). reflexivity.
Qed.

Lemma strip_clean_both_ends (s : string) :
  starts_clean (PyStr.strip s) /\ starts_clean (PyStr.rev (PyStr.strip s)).
Proof.
  unfold PyStr.strip, PyStr.rstrip. split.
  - pose proof (lstrip_starts_clean s) as Hu.
    destruct (PyStr.lstrip s) as [| c u]; [exact I |].
    simpl in Hu. rewrite rev_cons.
    destruct (lstrip_before_clean (PyStr.rev u) c Hu) as [z ->].
    rewrite rev_app. simpl. exact Hu.
  - rewrite rev_involutive. apply lstrip_starts_clean.
Qed.

Lemma strip_idempotent (s : string) :
  PyStr.strip (PyStr.strip s) = PyStr.strip s.
Proof.
  destruct (strip_clean_both_ends s) as [Hfront Hback].
  unfold PyStr.strip at 1, PyStr.rstrip.
  rewrite (lstrip_clean _ Hfront), (lstrip_clean _ Hback).
  apply rev_involutive.
Qed.

Lemma strip_trimmed (s : string) :
  PyStr.is_empty (PyStr.strip s) = false -> trimmed (PyStr.strip s).
Proof.
  intros H. split; [| apply strip_idempotent].
  intros E. rewrite E in H. discriminate.
Qed.

Lemma accept_date_valid (typed date : string) :
  accept_date typed = Some date -> validate_date date = true.
Proof.
  unfold accept_date. destruct (validate_date typed) eqn:E; [| discriminate].
  intros H. injection H as <-. exact E.
Qed.

Lemma rows_ok_insert_user (username password : string) (db db' : database) :
  trimmed username -> rows_ok db ->
  Table.insert_user username password db = inr db' -> rows_ok db'.
Proof.
  unfold Table.insert_user. intros Hname (Hu & Ht & Hb).
  destruct (existsb _ _); [discriminate |].
  intros H. injection H as <-.
  split; [| split; assumption]. cbn [users].
  apply Forall_app. split; [exact Hu |].
  apply Forall_cons; [exact Hname | apply Forall_nil].
Qed.

Lemma rows_ok_insert_transaction (user_id : Z) (ty category : string)
    (amount : Q) (description date : string) (db db' : database) :
  trimmed category -> validate_date date = true -> rows_ok db ->
  Table.insert_transaction user_id ty category amount description date db
  = inr db' ->
  rows_ok db'.
Proof.
  unfold Table.insert_transaction. intros Hcat Hdate (Hu & Ht & Hb).
  destruct (Table.check_type ty); [| discriminate].
  intros H. injection H as <-.
  split; [exact Hu | split; [| exact Hb]]. cbn [transactions].
  apply Forall_app. split; [exact Ht |].
  apply Forall_cons; [split; assumption | apply Forall_nil].
Qed.

Lemma rows_ok_update_transaction (ty category : string) (amount : Q)
    (description date : string) (id user_id : Z) (db db' : database) :
  trimmed category -> validate_date date = true -> rows_ok db ->
  Table.update_transaction ty category amount description date id user_id db
  = inr db' ->
  rows_ok db'.
Proof.
  unfold Table.update_transaction. intros Hcat Hdate (Hu & Ht & Hb).
  destruct (_ && _); [discriminate |].
  intros H. injection H as <-.
  split; [exact Hu | split; [| exact Hb]]. cbn [transactions].
  rewrite Forall_forall in *. intros t' Hin. apply in_map_iff in Hin.
  destruct Hin as (t & <- & Hin).
  destruct (Table.owned id user_id t); [split; assumption | apply Ht, Hin].
Qed.

Lemma rows_ok_delete_transaction (id user_id : Z) (db : database) :
  rows_ok db -> rows_ok (fst (Table.delete_transaction id user_id db)).
Proof.
  intros (Hu & Ht & Hb).
  split; [exact Hu | split; [| exact Hb]].
  apply Forall_filter_keeps, Ht.
Qed.

Lemma rows_ok_insert_or_replace_budget (user_id : Z) (category : string)
    (amount : Q) (db : database) :
  trimmed category -> rows_ok db ->
  rows_ok (Table.insert_or_replace_budget user_id category amount db).
Proof.
  intros Hcat (Hu & Ht & Hb).
  split; [exact Hu | split; [exact Ht |]].
  cbn [Table.insert_or_replace_budget budgets].
  apply Forall_app. split; [apply Forall_filter_keeps, Hb |].
  apply Forall_cons; [exact Hcat | apply Forall_nil].
Qed.

Ltac rows_step :=
  lazymatch goal with
  | |- triple _ (bind _ _) _ => eapply triple_bind; [ | intros ? ? ]
  | |- triple _ (try_except _ _ _) _ => apply triple_try; [ | intros ? ]
  | |- triple _ (with_connection _) _ => apply triple_with_connection
  | |- triple _ (print _) _ => apply triple_print
  | |- triple _ (print_all _) _ => apply triple_print_all
  | |- triple _ (input _) _ => apply triple_input
  | |- triple _ (input_until _ _ _) _ => apply triple_input_until
  | |- triple _ (ret _) _ => apply triple_ret
  | |- triple _ (raise _) _ => apply triple_raise
  | |- triple _ (lift _) _ => apply triple_lift
  | |- triple _ commit _ => apply triple_commit
  | |- triple _ (query _) _ => apply triple_query
  | |- triple _ (view_transactions _) _ => apply view_transactions_keeps
  | |- triple _ (if ?b then _ else _) _ => destruct b eqn:?
  | |- triple _ (match ?x with _ => _ end) _ => destruct x eqn:?
  end.

Ltac rows_facts :=
  cbv beta in *;
  repeat match goal with
         | H : exists s, accept_date s = Some _ |- _ =>
             let s := fresh "s" in
             destruct H as [s H]; apply accept_date_valid in H
         | H : PyStr.is_empty (PyStr.strip _) = false |- _ =>
             apply strip_trimmed in H
         end.

Lemma run_keeps_rows_ok
    (float_of_string : string -> option Q)
    (pbkdf2_hmac_sha512_hex : string -> string -> string)
    (c : command) :
  triple (outside rows_ok)
         (run float_of_string pbkdf2_hmac_sha512_hex c) anything.
Proof.
  destruct c; cbn [run].
  - unfold register_user. repeat rows_step.
    apply triple_execute. intros db db' Hok Hstmt. rows_facts.
    eapply rows_ok_insert_user; eassumption.
  - eapply triple_bind; [apply login_user_keeps | intros; apply triple_ret].
  - unfold add_transaction. repeat rows_step.
    apply triple_execute. intros db db' Hok Hstmt. rows_facts.
    eapply rows_ok_insert_transaction; eassumption.
  - apply view_transactions_keeps.
  - unfold update_transaction. repeat rows_step.
    apply triple_execute. intros db db' Hok Hstmt. rows_facts.
    eapply rows_ok_update_transaction; eassumption.
  - apply delete_transaction_keeps. exact rows_ok_delete_transaction.
  - unfold set_budget. repeat rows_step.
    apply triple_execute. intros db db' Hok Hstmt. rows_facts.
    injection Hstmt as <-.
    apply rows_ok_insert_or_replace_budget; assumption.
  - apply check_budget_keeps.
  - apply generate_reports_keeps.
  - apply backup_data_keeps.
  - apply restore_data_keeps.
Qed.

(** X17.  In every state the program can reach, every stored username, every
    transaction's category and every budget's category is non-empty and has
    no white space at either end (it is its own [strip]), and every
    transaction's date is one [validate_date] accepts. *)
Theorem reachable_rows_are_validated
    (float_of_string : string -> option Q)
    (pbkdf2_hmac_sha512_hex : string -> string -> string) (st : state) :
  reachable float_of_string pbkdf2_hmac_sha512_hex st ->
  (forall u, In u (users (db_file st)) ->
             u_username u <> "" /\ PyStr.strip (u_username u) = u_username u)
  /\ (forall t, In t (transactions (db_file st)) ->
                t_category t <> ""
                /\ PyStr.strip (t_category t) = t_category t
                /\ validate_date (t_date t) = true)
  /\ (forall b, In b (budgets (db_file st)) ->
                b_category b <> ""
                /\ PyStr.strip (b_category b) = b_category b).
Proof.
  intros Hr.
  assert (Hok : holds (outside rows_ok) st).
  { induction Hr as [typed | c st Hr IH].
    - split; [| apply Forall_nil].
      repeat split; apply Forall_nil.
    - apply (run_keeps_rows_ok float_of_string pbkdf2_hmac_sha512_hex c st IH). }
  destruct Hok as [(Hu & Ht & Hb) _]. rewrite Forall_forall in Hu, Ht, Hb.
  split; [| split].
  - intros u Hin. exact (Hu u Hin).
  - intros t Hin. destruct (Ht t Hin) as [[Hne Hs] Hd]. auto.
  - intros b Hin. exact (Hb b Hin).
Qed.

Lemma reachable_rows_are_validated_witness :
  let st :=
    snd (run Sample.decimal Sample.toy_kdf (SetBudget 1)
           (Sample.start ["  Rent "; "700"] empty_database)) in
  reachable Sample.decimal Sample.toy_kdf st
  /\ (forall b, In b (budgets (db_file st)) ->
                b_category b <> ""
                /\ PyStr.strip (b_category b) = b_category b).
Proof.
  intros st.
  assert (Hr : reachable Sample.decimal Sample.toy_kdf st)
    by exact (reachable_run Sample.decimal Sample.toy_kdf (SetBudget 1) _
                (reachable_start Sample.decimal Sample.toy_kdf
                   ["  Rent "; "700"])).
  split; [exact Hr |].
  exact (proj2 (proj2 (reachable_rows_are_validated Sample.decimal
                         Sample.toy_kdf st Hr))).
Defined.

(** X18.  The monthly report is made of sums over the user's own rows: with
    a valid month and year typed, on a database whose amounts SQLite adds
    exactly, [generate_reports] prints as "Total
    Income" (as "Total Expense") a number equal to the sum of the amounts of
    the user's transactions of kind "Income" ("Expense") whose date matches
    "<year>-<month>-%", and as "Savings" the first minus the second; both
    sums are 0 when no transaction matches. *)
Theorem monthly_totals_are_sums (user_id : Z) (st : state)
    (month year : string) (rest : list string) (k : nat) :
  stdin st = month :: year :: rest ->
  validate_date (year ++ "-" ++ month ++ "-01") = true ->
  exact_amounts k (db_file st) ->
  let pattern := year ++ "-" ++ month ++ "-%" in
  let printed := output_of (generate_reports user_id) st in
  exists income expense,
    In (TotalIncome income) printed
    /\ In (TotalExpense expense) printed
    /\ In (Savings (income - expense)%Q) printed
    /\ (income
        == Sql.total (map t_amount
                          (rows_of_kind user_id pattern "Income" (db_file st))))%Q
    /\ (expense
        == Sql.total (map t_amount
                          (rows_of_kind user_id pattern "Expense" (db_file st))))%Q
    /\ (rows_of_kind user_id pattern "Income" (db_file st) = [] ->
        (income == 0)%Q)
    /\ (rows_of_kind user_id pattern "Expense" (db_file st) = [] ->
        (expense == 0)%Q).
Proof.
  intros Hin Hvalid _ pattern printed.
  exists (total_of_kind "Income"
            (Query.totals_by_type user_id pattern (db_file st))),
         (total_of_kind "Expense"
            (Query.totals_by_type user_id pattern (db_file st))).
  assert (E : printed
              = [Text (nl ++ "=== Financial Reports ===");
                 Prompt "Enter month for report (MM): ";
                 Prompt "Enter year for report (YYYY): ";
                 Text (nl ++ "Monthly Report (" ++ year ++ "-" ++ month ++ "):");
                 TotalIncome (total_of_kind "Income"
                                (Query.totals_by_type user_id pattern (db_file st)));
                 TotalExpense (total_of_kind "Expense"
                                 (Query.totals_by_type user_id pattern (db_file st)));
                 Savings (total_of_kind "Income"
                            (Query.totals_by_type user_id pattern (db_file st))
                          - total_of_kind "Expense"
                              (Query.totals_by_type user_id pattern (db_file st)))%Q;
                 Text "Failed to generate reports. Please try again."]).
  { subst printed. apply output_of_appended.
    rewrite (generate_reports_result user_id st month year rest Hin Hvalid).
    reflexivity. }
  rewrite E.
  split; [do 4 right; left; reflexivity |].
  split; [do 5 right; left; reflexivity |].
  split; [do 6 right; left; reflexivity |].
  split; [apply total_of_kind_is_sum |].
  split; [apply total_of_kind_is_sum |].
  split; intros Hnone; rewrite total_of_kind_is_sum, Hnone; reflexivity.
Qed.

Lemma monthly_totals_are_sums_witness :
  let st := Sample.start ["01"; "2024"] Sample.ledger in
  (validate_date ("2024" ++ "-" ++ "01" ++ "-01") = true
   /\ exact_amounts 0 (db_file st))
  /\ exists income expense,
       In (TotalIncome income) (output_of (generate_reports 1) st)
       /\ In (TotalExpense expense) (output_of (generate_reports 1) st)
       /\ In (Savings (income - expense)%Q) (output_of (generate_reports 1) st)
       /\ (income
           == Sql.total
                (map t_amount
                     (rows_of_kind 1 ("2024" ++ "-" ++ "01" ++ "-%") "Income"
                                   (db_file st))))%Q.
Proof.
  intros st. split; [split; reflexivity |].
  destruct (monthly_totals_are_sums 1 st "01" "2024" [] 0 eq_refl eq_refl
              eq_refl)
    as (income & expense & Hi & He & Hs & Hsum & _).
  exists income, expense.
  exact (conj Hi (conj He (conj Hs Hsum))).
Defined.

(** ** ORDER BY *)

Lemma HdRel_insert_sorted {A : Type} (goes_first : A -> A -> bool)
    (R : A -> A -> Prop) (x y : A) (l : list A) :
  R y x -> HdRel R y l -> HdRel R y (Sql.insert_sorted goes_first x l).
Proof.
  intros Hyx H. destruct l as [| z l]; simpl; [constructor; exact Hyx |].
  destruct (goes_first z x); constructor;
    [inversion H; assumption | exact Hyx].
Qed.

Lemma insert_sorted_sorted {A : Type} (goes_first : A -> A -> bool)
    (R : A -> A -> Prop) :
  (forall x y, goes_first y x = false -> R x y) ->
  (forall x y, goes_first y x = true -> R y x) ->
  forall x l, Sorted R l -> Sorted R (Sql.insert_sorted goes_first x l).
Proof.
  intros Hfalse Htrue x l. induction 1 as [| y l Hl IH Hy]; simpl.
  - constructor; constructor.
  - destruct (goes_first y x) eqn:E.
    + constructor; [exact IH |].
      apply HdRel_insert_sorted; [exact (Htrue x y E) | exact Hy].
    + constructor; [constructor; assumption |].
      constructor. exact (Hfalse x y E).
Qed.

Lemma order_by_sorted {A : Type} (goes_first : A -> A -> bool)
    (R : A -> A -> Prop) :
  (forall x y, goes_first y x = false -> R x y) ->
  (forall x y, goes_first y x = true -> R y x) ->
  forall l, Sorted R (Sql.order_by goes_first l).
Proof.
  intros Hfalse Htrue l. induction l as [| x l IH]; simpl; [constructor |].
  apply insert_sorted_sorted; assumption.
Qed.

Lemma string_lt_trans (a b c : string) :
  String.compare a b = Lt -> String.compare b c = Lt ->
  String.compare a c = Lt.
Proof.
  intros H1 H2. apply OrderedTypeEx.String_as_OT.cmp_lt.
  apply (OrderedTypeEx.String_as_OT.lt_trans a b c);
    apply OrderedTypeEx.String_as_OT.cmp_lt; assumption.
Qed.

Lemma string_leb_trans (a b c : string) :
  String.leb a b = true -> String.leb b c = true -> String.leb a c = true.
Proof.
  unfold String.leb. intros H1 H2.
  destruct (String.compare a b) eqn:E1; try discriminate;
    destruct (String.compare b c) eqn:E2; try discriminate.
  - apply String.compare_eq_iff in E1. subst b. rewrite E2. reflexivity.
  - apply String.compare_eq_iff in E1. subst b. rewrite E2. reflexivity.
  - apply String.compare_eq_iff in E2. subst c. rewrite E1. reflexivity.
  - rewrite (string_lt_trans a b c E1 E2). reflexivity.
Qed.

Lemma ltb_false_leb (a b : string) :
  String.ltb a b = false -> String.leb b a = true.
Proof.
  unfold String.ltb, String.leb. rewrite (String.compare_antisym a b).
  destruct (String.compare b a); simpl; intros H;
    [reflexivity | reflexivity | discriminate].
Qed.

Lemma ltb_true_leb (a b : string) :
  String.ltb a b = true -> String.leb a b = true.
Proof.
  unfold String.ltb, String.leb.
  destruct (String.compare a b); intros H; [discriminate | reflexivity | discriminate].
Qed.

Lemma select_transactions_of_sorted (user_id : Z) (db : database) :
  StronglySorted not_older (Table.select_transactions_of user_id db).
Proof.
  apply Sorted_StronglySorted.
  - intros a b c Hab Hbc. unfold not_older in *.
    exact (string_leb_trans _ _ _ Hbc Hab).
  - unfold Table.select_transactions_of. apply order_by_sorted.
    + intros x y H. apply ltb_false_leb, H.
    + intros x y H. apply ltb_true_leb, H.
Qed.

(** X19.  [view_transactions] lists the user's transactions newest first:
    the rows it prints, one line each and in this order, are the user's rows
    of the table, each as often as it is stored, and no row comes before a
    row with a later date.  With no row it prints "No transactions found."
    instead. *)
Theorem view_transactions_newest_first (user_id : Z) (st : state) :
  let rows := Table.select_transactions_of user_id (db_file st) in
  Permutation rows
    (filter (fun t => (t_user_id t =? user_id)%Z) (transactions (db_file st)))
  /\ StronglySorted not_older rows
  /\ output_of (view_transactions user_id) st
     = Text (nl ++ "=== View Transactions ===")
       :: match rows with
          | [] => [Text "No transactions found."]
          | _ => map transaction_line rows
          end.
Proof.
  intros rows. split; [| split].
  - apply order_by_permutation.
  - apply select_transactions_of_sorted.
  - rewrite view_transactions_printed. unfold view_lines. fold rows.
    destruct rows; reflexivity.
Qed.

(** ** The category breakdown *)

(** X20.  The category breakdown of [generate_reports] as the query
    computes it on a database whose amounts SQLite adds exactly: the
    categories come by non-increasing total, no category comes twice, and a
    category is listed exactly when the user has an expense in it whose date
    matches the pattern, with the sum of the amounts of these expenses as
    its total. *)
Theorem expenses_by_category_ranked (user_id : Z) (pattern : string)
    (db : database) (k : nat) :
  exact_amounts k db ->
  let rows := Query.expenses_by_category user_id pattern db in
  StronglySorted not_smaller rows
  /\ NoDup (map fst rows)
  /\ (forall c a,
         In (c, a) rows
         <-> expenses_in_category user_id pattern c db <> []
             /\ a = Sql.total (map t_amount
                                   (expenses_in_category user_id pattern c db))).
Proof.
  intros _ rows. split; [| split].
  - apply Sorted_StronglySorted.
    + intros a b c Hab Hbc. unfold not_smaller in *.
      exact (Qle_trans _ _ _ Hbc Hab).
    + subst rows. unfold Query.expenses_by_category. apply order_by_sorted.
      * intros x y H. apply Qgtb_false_spec, H.
      * intros x y H. apply Qgtb_spec in H. apply Qlt_le_weak, H.
  - subst rows. unfold Query.expenses_by_category.
    apply (Permutation_NoDup
             (Permutation_sym (Permutation_map fst (order_by_permutation _ _)))).
    rewrite map_map. cbn [fst]. rewrite map_id.
    apply distinct_strings_NoDup.
  - intros c a. apply in_expenses_by_category.
Qed.

Lemma expenses_by_category_ranked_witness :
  exact_amounts 0 Sample.ledger
  /\ StronglySorted not_smaller
       (Query.expenses_by_category 1 "2024-%" Sample.ledger)
  /\ NoDup (map fst (Query.expenses_by_category 1 "2024-%" Sample.ledger)).
Proof.
  split; [reflexivity |].
  exact (conj (proj1 (expenses_by_category_ranked 1 "2024-%" Sample.ledger 0
                        eq_refl))
              (proj1 (proj2 (expenses_by_category_ranked 1 "2024-%"
                               Sample.ledger 0 eq_refl)))).
Defined.

(** ** Budgets *)

Lemma in_check_budget_query (month_start : string) (user_id : Z)
    (db : database) (c : string) (a s : Q) :
  budgets_unique db ->
  In (c, a, s) (Query.check_budget_query month_start user_id db) ->
  exists b,
    In b (budgets db) /\ b_user_id b = user_id
    /\ b_category b = c /\ b_amount b = a
    /\ s = matching_total month_start b db.
Proof.
  intros Hu H. unfold Query.check_budget_query in H. cbv zeta in H.
  fold (joined_rows month_start user_id db) in H.
  apply in_map_iff in H. destruct H as (k & E & Hk).
  apply distinct_incl in Hk.
  apply in_map_iff in Hk. destruct Hk as (r & Er & Hr).
  destruct (joined_rows_budget _ _ _ _ Hr) as [Hb Huid].
  exists (fst r). subst k user_id.
  injection E as Ec Ea Es.
  split; [exact Hb | split; [reflexivity |]].
  split; [exact Ec | split; [exact Ea |]].
  rewrite <- Es.
  change (Query.group_key r) with (key_of_budget (fst r)).
  rewrite (group_of_budget month_start db (fst r) Hu Hb).
  apply rows_of_total.
Qed.

Lemma budget_line_inv (r : string * Q * Q) (c : string) (s a : Q) :
  budget_line r = BudgetExceeded c s a \/ budget_line r = WithinBudget c s a ->
  r = (c, a, s).
Proof.
  destruct r as [[c' a'] s']. unfold budget_line.
  destruct (Qgtb s' a'); intros [H | H]; try discriminate H;
    injection H as -> -> ->; reflexivity.
Qed.

(** X21.  [check_budget] shows a user nothing but their own budgets: in a
    database that respects UNIQUE(user_id, category) and whose amounts
    SQLite adds exactly, every "Budget exceeded" or "Within budget" line it
    prints carries the category and the
    amount of one of the budget rows of this user, and as spending the sum
    of this user's expenses in that category dated from the first day of the
    current month on. *)
Theorem check_budget_reports_only_own_budgets (now : Query.date) (user_id : Z)
    (st : state) (category : string) (spent budget_amount : Q) (k : nat) :
  budgets_unique (db_file st) ->
  exact_amounts k (db_file st) ->
  In (BudgetExceeded category spent budget_amount)
     (output_of (check_budget now user_id) st)
  \/ In (WithinBudget category spent budget_amount)
        (output_of (check_budget now user_id) st) ->
  exists b,
    In b (budgets (db_file st)) /\ b_user_id b = user_id
    /\ b_category b = category /\ b_amount b = budget_amount
    /\ spent = spent_since_month_start now b (db_file st).
Proof.
  intros Hu _ H. rewrite check_budget_printed in H.
  set (results := Query.check_budget_query (Query.start_of_month now) user_id
                    (db_file st)) in *.
  assert (Hrow : In (category, budget_amount, spent) results).
  { destruct results as [| r0 rest] eqn:E.
    - destruct H as [[H | [H | []]] | [H | [H | []]]]; discriminate H.
    - rewrite <- E in *.
      assert (Hne : results <> []) by (rewrite E; discriminate).
      rewrite !(in_check_budget_lines results _ Hne) in H
        by (intros s; discriminate).
      destruct H as [H | H]; apply in_map_iff in H;
        destruct H as (r & Hl & Hr);
        rewrite <- (budget_line_inv r category spent budget_amount);
        auto. }
  destruct (in_check_budget_query _ _ _ _ _ _ Hu Hrow)
    as (b & Hb & Hid & Hc & Ha & Hs).
  exists b. rewrite spent_since_month_start_matching.
  repeat (split; [assumption |]). exact Hs.
Qed.

Lemma check_budget_reports_only_own_budgets_witness :
  (budgets_unique (db_file (Sample.start [] Sample.ledger_with_budget))
   /\ exact_amounts 0 (db_file (Sample.start [] Sample.ledger_with_budget)))
  /\ exists b,
       In b (budgets (db_file (Sample.start [] Sample.ledger_with_budget)))
       /\ b_user_id b = 1%Z
       /\ b_category b = "Food" /\ b_amount b = 80%Q
       /\ 150%Q = spent_since_month_start Sample.mid_january b
                    (db_file (Sample.start [] Sample.ledger_with_budget)).
Proof.
  split; [exact (conj sample_budgets_unique eq_refl) |].
  exact (check_budget_reports_only_own_budgets Sample.mid_january 1
           (Sample.start [] Sample.ledger_with_budget) "Food" 150%Q 80%Q 0
           sample_budgets_unique eq_refl
           (or_introl (or_intror (or_introl eq_refl)))).
Defined.


Lemma filter_other_key (user_id u : Z) (category c : string)
    (rows : list budget_row) :
  (u, c) <> (user_id, category) ->
  filter (Table.same_budget_key u c)
         (filter (fun b => negb (Table.same_budget_key user_id category b)) rows)
  = filter (Table.same_budget_key u c) rows.
Proof.
  intros Hne. rewrite filter_twice. apply filter_ext. intros b.
  destruct (Table.same_budget_key u c b) eqn:E1;
    [| apply andb_false_r].
  destruct (Table.same_budget_key user_id category b) eqn:E2; [| reflexivity].
  apply same_budget_key_spec in E1. apply same_budget_key_spec in E2.
  destruct Hne. congruence.
Qed.

(** X23.  A successful [set_budget] touches one budget only: the budget rows
    of every other (user, category) pair are what they were, and so are the
    users, the transactions and the backups. *)
Theorem set_budget_leaves_other_budgets (float_of_string : string -> option Q)
    (user_id : Z) (st : state) (typed typed_amount : string)
    (rest : list string) (amount : Q) :
  stdin st = typed :: typed_amount :: rest ->
  PyStr.strip typed <> "" ->
  float_of_string typed_amount = Some amount ->
  (0 < amount)%Q ->
  let after := snd (set_budget float_of_string user_id st) in
  (forall u c,
      (u, c) <> (user_id, PyStr.strip typed) ->
      filter (Table.same_budget_key u c) (budgets (db_file after))
      = filter (Table.same_budget_key u c) (budgets (db_file st)))
  /\ users (db_file after) = users (db_file st)
  /\ transactions (db_file after) = transactions (db_file st)
  /\ backup_files after = backup_files st.
Proof.
  intros Hin Hcat Hfloat Hpos after. subst after.
  rewrite (set_budget_stores float_of_string user_id st typed typed_amount
             rest amount Hin Hcat Hfloat Hpos).
  cbn [snd db_file backup_files].
  unfold Table.insert_or_replace_budget. cbn [budgets users transactions].
  split; [| split; [reflexivity | split; reflexivity]].
  intros u c Hne. rewrite filter_app, (filter_other_key _ _ _ _ _ Hne).
  cbn [filter].
  destruct (Table.same_budget_key u c _) eqn:E; [| apply app_nil_r].
  apply same_budget_key_spec in E. destruct Hne. symmetry. exact E.
Qed.

Lemma set_budget_leaves_other_budgets_witness :
  let st := Sample.start [" Food "; "120"] Sample.ledger_with_budget in
  let after := snd (set_budget Sample.decimal 1 st) in
  (forall u c,
      (u, c) <> (1%Z, PyStr.strip " Food ") ->
      filter (Table.same_budget_key u c) (budgets (db_file after))
      = filter (Table.same_budget_key u c) (budgets (db_file st)))
  /\ users (db_file after) = users (db_file st)
  /\ transactions (db_file after) = transactions (db_file st)
  /\ backup_files after = backup_files st.
Proof.
  exact (set_budget_leaves_other_budgets Sample.decimal 1
           (Sample.start [" Food "; "120"] Sample.ledger_with_budget)
           " Food " "120" [] 120%Q eq_refl
           ltac:(discriminate) eq_refl eq_refl).
Defined.

(** X24.  What [set_budget] stores, [check_budget] shows: after a successful
    [set_budget] on a database that respects UNIQUE(user_id, category) and
    whose amounts SQLite adds exactly, [check_budget] prints for the category the amount just set and the
    user's expenses in it since the first day of the month -- as "Budget
    exceeded" when these are above the amount, as "Within budget"
    otherwise -- and no longer says "No budgets set". *)
Theorem set_budget_then_check_budget (float_of_string : string -> option Q)
    (now : Query.date) (user_id : Z) (st : state)
    (typed typed_amount : string) (rest : list string) (amount : Q)
    (k : nat) :
  stdin st = typed :: typed_amount :: rest ->
  PyStr.strip typed <> "" ->
  float_of_string typed_amount = Some amount ->
  (0 < amount)%Q ->
  budgets_unique (db_file st) ->
  exact_amounts k (db_file st) ->
  let after := snd (set_budget float_of_string user_id st) in
  let printed := output_of (check_budget now user_id) after in
  let spent :=
    spent_since_month_start now
      (mk_budget 0 user_id (PyStr.strip typed) amount) (db_file st) in
  In (budget_line (PyStr.strip typed, amount, spent)) printed
  /\ ~ In (Text "No budgets set. Please set a budget first.") printed.
Proof.
  intros Hin Hcat Hfloat Hpos Hu _ after printed spent.
  subst printed spent after.
  rewrite (set_budget_stores float_of_string user_id st typed typed_amount
             rest amount Hin Hcat Hfloat Hpos).
  cbn [snd].
  set (db' := Table.insert_or_replace_budget user_id (PyStr.strip typed)
                amount (db_file st)).
  rewrite check_budget_printed. cbn [db_file].
  set (b := mk_budget (Table.next_id (seq_budgets (db_file st))
                                     (map b_id (budgets (db_file st))))
                      user_id (PyStr.strip typed) amount).
  assert (Hb : In b (budgets db'))
    by (subst db'; unfold Table.insert_or_replace_budget; cbn [budgets];
        apply in_app_iff; right; left; reflexivity).
  pose proof (check_budget_query_row (Query.start_of_month now) db' b
                (insert_or_replace_budget_unique _ _ _ _ Hu) Hb) as Hrow.
  cbn [b b_category b_amount b_user_id] in Hrow.
  assert (Hs : matching_total (Query.start_of_month now) b db'
               = spent_since_month_start now
                   (mk_budget 0 user_id (PyStr.strip typed) amount)
                   (db_file st)).
  { rewrite spent_since_month_start_matching. reflexivity. }
  rewrite Hs in Hrow.
  unfold check_budget_lines.
  destruct (Query.check_budget_query _ _ _) as [| r rows]; [destruct Hrow |].
  split.
  - right. apply in_app_iff. left. apply in_map, Hrow.
  - intros [H | H]; [discriminate H |].
    apply in_app_iff in H. destruct H as [H | H].
    + apply in_map_iff in H. destruct H as ([[c a] s] & Hl & _).
      unfold budget_line in Hl. destruct (Qgtb s a); discriminate Hl.
    + destruct (existsb exceeded (r :: rows)); [destruct H |].
      destruct H as [H | []]. discriminate H.
Qed.

Lemma set_budget_then_check_budget_witness :
  let st := Sample.start [" Food "; "120"] Sample.ledger_with_budget in
  let after := snd (set_budget Sample.decimal 1 st) in
  let printed := output_of (check_budget Sample.mid_january 1) after in
  let spent :=
    spent_since_month_start Sample.mid_january
      (mk_budget 0 1 (PyStr.strip " Food ") 120) (db_file st) in
  In (budget_line (PyStr.strip " Food ", 120%Q, spent)) printed
  /\ ~ In (Text "No budgets set. Please set a budget first.") printed.
Proof.
  exact (set_budget_then_check_budget Sample.decimal Sample.mid_january 1
           (Sample.start [" Food "; "120"] Sample.ledger_with_budget)
           " Food " "120" [] 120%Q 0 eq_refl
           ltac:(discriminate) eq_refl eq_refl
           sample_budgets_unique eq_refl).
Defined.

(** ** Dates *)

Lemma digit_value_bound (c : ascii) :
  PyStr.is_digit c = true -> PyStr.digit_value c <= 9.
Proof.
  unfold PyStr.is_digit, PyStr.digit_value. cbv zeta. intros H.
  apply andb_true_iff in H. destruct H as [H1 H2].
  apply Nat.leb_le in H1, H2. lia.
Qed.

Lemma in_range_digit_value (lo hi : nat) (c : ascii) :
  Strptime.in_range lo hi c = true ->
  lo - 48 <= PyStr.digit_value c <= hi - 48.
Proof.
  unfold Strptime.in_range, PyStr.digit_value. cbv zeta. intros H.
  apply andb_true_iff in H. destruct H as [H1 H2].
  apply Nat.leb_le in H1, H2. lia.
Qed.

Lemma match_year_bound (s rest : string) (y : nat) :
  Strptime.match_year s = Some (y, rest) -> y < 10 * 1000.
Proof.
  unfold Strptime.match_year.
  destruct s as [| a [| b [| c [| d s]]]]; try discriminate.
  destruct (PyStr.is_digit a) eqn:Ha; [| discriminate].
  destruct (PyStr.is_digit b) eqn:Hb; [| discriminate].
  destruct (PyStr.is_digit c) eqn:Hc; [| discriminate].
  destruct (PyStr.is_digit d) eqn:Hd; [| discriminate].
  cbn [andb]. intros H. injection H as Hy _.
  pose proof (digit_value_bound a Ha). pose proof (digit_value_bound b Hb).
  pose proof (digit_value_bound c Hc). pose proof (digit_value_bound d Hd).
  lia.
Qed.

Lemma match_month_dash_bound (s rest : string) (m : nat) :
  Strptime.match_month_dash s = Some (m, rest) -> 1 <= m <= 12.
Proof.
  unfold Strptime.match_month_dash.
  assert (Hone : forall a r,
             (if Strptime.in_range 49 57 a
              then option_map (fun r' => (PyStr.digit_value a, r'))
                              (Strptime.match_dash r)
              else None) = Some (m, rest) -> 1 <= m <= 12).
  { intros a r. destruct (Strptime.in_range 49 57 a) eqn:Ha; [| discriminate].
    destruct (Strptime.match_dash r); [| discriminate].
    cbn [option_map]. intros H. injection H as Hm _.
    pose proof (in_range_digit_value _ _ _ Ha). lia. }
  destruct s as [| a [| b s]]; [discriminate | apply Hone |].
  destruct ((Ascii.eqb a "1" && Strptime.in_range 48 50 b)
            || (Ascii.eqb a "0" && Strptime.in_range 49 57 b)) eqn:Htwo;
    [| apply Hone].
  destruct (Strptime.match_dash s) as [r |]; cbn [option_map]; [| apply Hone].
  intros H. injection H as Hm _.
  apply orb_true_iff in Htwo.
  destruct Htwo as [Htwo | Htwo]; apply andb_true_iff in Htwo;
    destruct Htwo as [Ea Hb]; apply Ascii.eqb_eq in Ea; subst a;
    pose proof (in_range_digit_value _ _ _ Hb);
    change (PyStr.digit_value "1") with 1 in Hm;
    change (PyStr.digit_value "0") with 0 in Hm; lia.
Qed.

Lemma match_day_bound (s rest : string) (d : nat) :
  Strptime.match_day s = Some (d, rest) -> 1 <= d.
Proof.
  unfold Strptime.match_day.
  assert (Hone : forall a r,
             (if Strptime.in_range 49 57 a then Some (PyStr.digit_value a, r)
              else
                match r with
                | String b rest' =>
                    if Ascii.eqb a " " && Strptime.in_range 49 57 b
                    then Some (PyStr.digit_value b, rest')
                    else None
                | EmptyString => None
                end) = Some (d, rest) -> 1 <= d).
  { intros a r. destruct (Strptime.in_range 49 57 a) eqn:Ha.
    - intros H. injection H as Hd _.
      pose proof (in_range_digit_value _ _ _ Ha). lia.
    - destruct r as [| b r]; [discriminate |].
      destruct (Ascii.eqb a " "); [| discriminate].
      destruct (Strptime.in_range 49 57 b) eqn:Hb; [| discriminate].
      cbn [andb]. intros H. injection H as Hd _.
      pose proof (in_range_digit_value _ _ _ Hb). lia. }
  destruct s as [| a [| b s]]; [discriminate | exact (Hone a "") |].
  destruct ((Ascii.eqb a "3" && Strptime.in_range 48 49 b)
            || (Strptime.in_range 49 50 a && PyStr.is_digit b)
            || (Ascii.eqb a "0" && Strptime.in_range 49 57 b)) eqn:Htwo;
    [| exact (Hone a (String b s))].
  intros H. injection H as Hd _.
  apply orb_true_iff in Htwo. destruct Htwo as [Htwo | Htwo];
    [apply orb_true_iff in Htwo; destruct Htwo as [Htwo | Htwo] |];
    apply andb_true_iff in Htwo; destruct Htwo as [Ha Hb].
  - apply Ascii.eqb_eq in Ha. subst a.
    change (PyStr.digit_value "3") with 3 in Hd. lia.
  - pose proof (in_range_digit_value _ _ _ Ha). lia.
  - pose proof (in_range_digit_value _ _ _ Hb). lia.
Qed.

(** X25.  [validate_date] accepts calendar days only: a string it accepts
    reads as a year from 1 to 9999, a month from 1 to 12 and a day from 1
    to the number of days of that month in that year (29 in February of a
    leap year, 28 otherwise). *)
Theorem validate_date_accepts_calendar_days_only (date_str : string) :
  validate_date date_str = true ->
  exists y m d,
    Strptime.strptime date_str = Some (y, m, d)
    /\ 1 <= y < 10 * 1000 /\ 1 <= m <= 12
    /\ 1 <= d <= Strptime.days_in_month y m.
Proof.
  unfold validate_date.
  destruct (Strptime.strptime date_str) as [[[y m] d] |] eqn:E;
    [| discriminate].
  intros _. exists y, m, d. split; [reflexivity |].
  unfold Strptime.strptime in E.
  destruct (Strptime.match_year date_str) as [[y' s1] |] eqn:Ey;
    [| discriminate].
  destruct (Strptime.match_dash s1) as [s2 |]; [| discriminate].
  destruct (Strptime.match_month_dash s2) as [[m' s3] |] eqn:Em;
    [| discriminate].
  destruct (Strptime.match_day s3) as [[d' rest] |] eqn:Ed; [| discriminate].
  destruct (PyStr.is_empty rest && (1 <=? y') && (d' <=? Strptime.days_in_month y' m'))
    eqn:Eok; [| discriminate].
  injection E as -> -> ->.
  apply andb_true_iff in Eok. destruct Eok as [Eok Hd].
  apply andb_true_iff in Eok. destruct Eok as [_ Hy].
  apply Nat.leb_le in Hy, Hd.
  pose proof (match_year_bound _ _ _ Ey).
  pose proof (match_month_dash_bound _ _ _ Em).
  pose proof (match_day_bound _ _ _ Ed).
  lia.
Qed.

Lemma validate_date_accepts_calendar_days_only_witness :
  validate_date "2024-02-29" = true
  /\ exists y m d,
       Strptime.strptime "2024-02-29" = Some (y, m, d)
       /\ 1 <= y < 10 * 1000 /\ 1 <= m <= 12
       /\ 1 <= d <= Strptime.days_in_month y m.
Proof.
  split; [reflexivity |].
  exact (validate_date_accepts_calendar_days_only "2024-02-29" eq_refl).
Defined.

Lemma digit_char_is_digit (n : nat) :
  PyStr.is_digit (PyStr.digit_char n) = true
  /\ PyStr.digit_value (PyStr.digit_char n) = n mod 10.
Proof.
  unfold PyStr.is_digit, PyStr.digit_value, PyStr.digit_char. cbv zeta.
  pose proof (Nat.mod_upper_bound n 10 ltac:(discriminate)) as Hlt.
  rewrite nat_ascii_embedding by lia.
  split; [| lia].
  apply andb_true_iff. split; apply Nat.leb_le; lia.
Qed.

Lemma decimal_digits (y : nat) :
  y < 10 * 1000 ->
  1000 * ((y / 1000) mod 10) + 100 * ((y / 100) mod 10)
  + 10 * ((y / 10) mod 10) + y mod 10 = y.
Proof.
  intros Hy.
  pose proof (Nat.div_mod_eq y 10) as H1.
  pose proof (Nat.div_mod_eq (y / 10) 10) as H2.
  pose proof (Nat.div_mod_eq (y / 100) 10) as H3.
  pose proof (Nat.div_mod_eq (y / 1000) 10) as H4.
  rewrite (Nat.Div0.div_div y 10 10) in H2.
  assert (E3 : y / 100 / 10 = y / 1000) by (rewrite Nat.Div0.div_div; reflexivity).
  rewrite E3 in H3.
  assert (E4 : y / 1000 / 10 = 0).
  { rewrite Nat.Div0.div_div. apply Nat.div_small. lia. }
  rewrite E4 in H4.
  change (10 * 10) with 100 in H2.
  lia.
Qed.

Lemma match_year_pad4 (y : nat) (rest : string) :
  y < 10 * 1000 ->
  Strptime.match_year (PyStr.pad4 y ++ rest) = Some (y, rest).
Proof.
  intros Hy. unfold PyStr.pad4. cbn [append]. unfold Strptime.match_year.
  destruct (digit_char_is_digit (y / 1000)) as [D3 V3].
  destruct (digit_char_is_digit (y / 100)) as [D2 V2].
  destruct (digit_char_is_digit (y / 10)) as [D1 V1].
  destruct (digit_char_is_digit y) as [D0 V0].
  rewrite D3, D2, D1, D0, V3, V2, V1, V0. cbn [andb].
  rewrite (decimal_digits y Hy). reflexivity.
Qed.

Lemma match_month_dash_pad2 (m : nat) (rest : string) :
  1 <= m <= 12 ->
  Strptime.match_month_dash (PyStr.pad2 m ++ String "-" rest) = Some (m, rest).
Proof.
  intros Hm.
  do 13 (destruct m as [| m]; [first [lia | reflexivity] |]). lia.
Qed.

Lemma match_day_pad2 (d : nat) :
  1 <= d <= 31 ->
  Strptime.match_day (PyStr.pad2 d) = Some (d, "").
Proof.
  intros Hd.
  do 32 (destruct d as [| d]; [first [lia | reflexivity] |]). lia.
Qed.

Lemma days_in_month_at_most_31 (y m : nat) : Strptime.days_in_month y m <= 31.
Proof.
  unfold Strptime.days_in_month.
  destruct m as [| [| [| [| [| [| [| [| [| [| [| [| m]]]]]]]]]]]]; try lia.
  destruct (Strptime.is_leap y); lia.
Qed.

(** X26.  [validate_date] accepts every calendar day written as
    YYYY-MM-DD with leading zeros, and reads back the very year, month and
    day that were written: the first day of the month that [check_budget]
    compares with is such a string. *)
Theorem validate_date_accepts_iso_dates (y m d : nat) :
  1 <= y < 10 * 1000 -> 1 <= m <= 12 -> 1 <= d <= Strptime.days_in_month y m ->
  Strptime.strptime (PyStr.pad4 y ++ "-" ++ PyStr.pad2 m ++ "-" ++ PyStr.pad2 d)
  = Some (y, m, d)
  /\ validate_date (PyStr.pad4 y ++ "-" ++ PyStr.pad2 m ++ "-" ++ PyStr.pad2 d)
     = true
  /\ validate_date (Query.start_of_month (Query.mk_date y m d)) = true.
Proof.
  intros Hy Hm Hd.
  assert (Hparse : forall d',
             1 <= d' <= Strptime.days_in_month y m ->
             Strptime.strptime
               (PyStr.pad4 y ++ "-" ++ PyStr.pad2 m ++ "-" ++ PyStr.pad2 d')
             = Some (y, m, d')).
  { intros d' Hd'. unfold Strptime.strptime.
    rewrite match_year_pad4 by lia.
    cbn [append Strptime.match_dash].
    change (String "-" (PyStr.pad2 m ++ String "-" (PyStr.pad2 d')))
      with (String "-" (PyStr.pad2 m ++ String "-" (PyStr.pad2 d'))).
    rewrite match_month_dash_pad2 by lia.
    pose proof (days_in_month_at_most_31 y m).
    rewrite match_day_pad2 by lia.
    cbn [PyStr.is_empty andb].
    destruct (Nat.leb_spec 1 y) as [_ | F]; [| lia].
    destruct (Nat.leb_spec d' (Strptime.days_in_month y m)) as [_ | F];
      [reflexivity | lia]. }
  split; [apply Hparse, Hd |].
  split.
  - unfold validate_date. rewrite (Hparse d Hd). reflexivity.
  - unfold validate_date, Query.start_of_month.
    cbn [Query.year Query.month].
    change "-01" with ("-" ++ PyStr.pad2 1).
    rewrite (Hparse 1); [reflexivity |].
    pose proof (days_in_month_positive y m). lia.
Qed.

Lemma validate_date_accepts_iso_dates_witness :
  (1 <= 2024 < 10 * 1000 /\ 1 <= 2 <= 12
   /\ 1 <= 29 <= Strptime.days_in_month 2024 2)
  /\ Strptime.strptime
       (PyStr.pad4 2024 ++ "-" ++ PyStr.pad2 2 ++ "-" ++ PyStr.pad2 29)
     = Some (2024, 2, 29).
Proof.
  assert (H : 1 <= 2024 < 10 * 1000 /\ 1 <= 2 <= 12
              /\ 1 <= 29 <= Strptime.days_in_month 2024 2)
    by (vm_compute; lia).
  split; [exact H |].
  exact (proj1 (validate_date_accepts_iso_dates 2024 2 29
                  (proj1 H) (proj1 (proj2 H)) (proj2 (proj2 H)))).
Defined.

(** X27.  [set_budget] stores nothing and says why: for a blank category
    it prints "Category cannot be empty." and does not ask for the amount;
    for an amount that is not a number it prints "Invalid amount."; when the
    input ends before the amount it prints "Failed to set budget. Please try
    again." and returns normally.  The database file and the backups are as
    before in all three cases. *)
Theorem set_budget_refusals (float_of_string : string -> option Q)
    (user_id : Z) (st : state) :
  (forall typed rest,
      stdin st = typed :: rest -> PyStr.strip typed = "" ->
      set_budget float_of_string user_id st
      = (inr tt,
         mk_state rest
           (stdout st ++ [Text (nl ++ "=== Set Budget ===");
                          Prompt "Enter category for the budget: ";
                          Text "Category cannot be empty."])
           (db_file st) (pending st) (backup_files st)))
  /\ (forall typed typed_amount rest,
         stdin st = typed :: typed_amount :: rest ->
         PyStr.strip typed <> "" ->
         float_of_string typed_amount = None ->
         set_budget float_of_string user_id st
         = (inr tt,
            mk_state rest
              (stdout st ++ [Text (nl ++ "=== Set Budget ===");
                             Prompt "Enter category for the budget: ";
                             Prompt "Enter budget amount: ";
                             Text "Invalid amount."])
              (db_file st) (pending st) (backup_files st)))
  /\ (forall typed,
         stdin st = [typed] -> PyStr.strip typed <> "" ->
         set_budget float_of_string user_id st
         = (inr tt,
            mk_state []
              (stdout st ++ [Text (nl ++ "=== Set Budget ===");
                             Prompt "Enter category for the budget: ";
                             Prompt "Enter budget amount: ";
                             Text "Failed to set budget. Please try again."])
              (db_file st) (pending st) (backup_files st))).
Proof.
  split; [| split].
  - intros typed rest Hin Hcat.
    destruct st as [ins out db pend files]. cbn in Hin. subst ins.
    unfold set_budget. run_io. rewrite Hcat. cbn [PyStr.is_empty]. run_io.
    repeat rewrite <- app_assoc. reflexivity.
  - intros typed typed_amount rest Hin Hcat Hfloat.
    destruct st as [ins out db pend files]. cbn in Hin. subst ins.
    unfold set_budget. run_io. rewrite (is_empty_false _ Hcat). run_io.
    rewrite Hfloat. run_io.
    repeat rewrite <- app_assoc. reflexivity.
  - intros typed Hin Hcat.
    destruct st as [ins out db pend files]. cbn in Hin. subst ins.
    unfold set_budget. run_io. rewrite (is_empty_false _ Hcat). run_io.
    repeat rewrite <- app_assoc. reflexivity.
Qed.

Lemma set_budget_refusals_witness :
  let st := Sample.start ["Food"; "a lot"] Sample.ledger in
  (PyStr.strip "Food" <> "" /\ Sample.decimal "a lot" = None)
  /\ set_budget Sample.decimal 1 st
     = (inr tt,
        mk_state []
          (stdout st ++ [Text (nl ++ "=== Set Budget ===");
                         Prompt "Enter category for the budget: ";
                         Prompt "Enter budget amount: ";
                         Text "Invalid amount."])
          (db_file st) (pending st) (backup_files st)).
Proof.
  intros st.
  assert (Hcat : PyStr.strip "Food" <> "") by discriminate.
  split; [split; [exact Hcat | reflexivity] |].
  exact (proj1 (proj2 (set_budget_refusals Sample.decimal 1 st))
           "Food" "a lot" [] eq_refl Hcat eq_refl).
Defined.

(** ** Exceptions that leave a command *)

Lemma eof_only_ret {A : Type} (a : A) : eof_only (ret a).
Proof. intros st. exact I. Qed.

Lemma eof_only_print (l : line) : eof_only (print l).
Proof. intros st. exact I. Qed.

Lemma eof_only_input (prompt : string) : eof_only (input prompt).
Proof.
  intros st. unfold input. destruct (stdin st); [split; reflexivity | exact I].
Qed.

Lemma eof_only_input_until {A : Type} (prompt : string)
    (accept : string -> option A) (complain : string -> line) :
  eof_only (input_until prompt accept complain).
Proof.
  intros st. unfold input_until.
  assert (H : forall ins,
             match read_until prompt accept complain ins with
             | (inl e, ins', _) => e = EOFError /\ ins' = []
             | (inr _, _, _) => True
             end).
  { induction ins as [| s ins IH]; cbn [read_until]; [split; reflexivity |].
    destruct (accept s); [exact I |].
    destruct (read_until prompt accept complain ins) as [[r ins'] out].
    exact IH. }
  specialize (H (stdin st)).
  destruct (read_until prompt accept complain (stdin st)) as [[[e | a] ins'] out];
    exact H.
Qed.

Lemma eof_only_bind {A B : Type} (m : M A) (k : A -> M B) :
  eof_only m -> (forall a, eof_only (k a)) -> eof_only (bind m k).
Proof.
  intros Hm Hk st. unfold bind. specialize (Hm st).
  destruct (m st) as [[e | a] st']; [exact Hm | apply Hk].
Qed.

Lemma eof_only_try_any {A : Type} (body : M A) (handler : exn -> M A) :
  (forall e, eof_only (handler e)) ->
  eof_only (try_except body any_exception handler).
Proof.
  intros Hh st. unfold try_except, any_exception.
  destruct (body st) as [[e | a] st']; [apply Hh | exact I].
Qed.

Ltac eof_step :=
  lazymatch goal with
  | |- eof_only (bind _ _) => apply eof_only_bind; [| intros ?]
  | |- eof_only (try_except _ any_exception _) =>
      apply eof_only_try_any; intros ?
  | |- eof_only (print _) => apply eof_only_print
  | |- eof_only (ret _) => apply eof_only_ret
  | |- eof_only (input _) => apply eof_only_input
  | |- eof_only (input_until _ _ _) => apply eof_only_input_until
  | |- eof_only (if ?b then _ else _) => destruct b
  | |- eof_only (match ?x with _ => _ end) => destruct x
  end.

Lemma eof_only_view_transactions (user_id : Z) :
  eof_only (view_transactions user_id).
Proof. unfold view_transactions. repeat eof_step. Qed.

Lemma eof_only_run (float_of_string : string -> option Q)
    (pbkdf2_hmac_sha512_hex : string -> string -> string) (c : command) :
  eof_only (run float_of_string pbkdf2_hmac_sha512_hex c).
Proof.
  destruct c; cbn [run].
  - unfold register_user. cbv zeta. repeat eof_step.
  - unfold login_user. cbv zeta. repeat eof_step.
  - unfold add_transaction. cbv zeta. repeat eof_step.
  - apply eof_only_view_transactions.
  - unfold update_transaction.
    eof_step; [eof_step |]. eof_step; [apply eof_only_view_transactions |].
    repeat eof_step.
  - unfold delete_transaction.
    eof_step; [eof_step |]. eof_step; [apply eof_only_view_transactions |].
    repeat eof_step.
  - unfold set_budget. cbv zeta. repeat eof_step.
  - unfold check_budget. repeat eof_step.
  - unfold generate_reports. repeat eof_step.
  - unfold backup_data. cbv zeta. repeat eof_step.
  - unfold restore_data. repeat eof_step.
Qed.

(** X28.  Whatever a command of the menus lets out to [main] is an
    [EOFError], raised by [input] with nothing left to read: every other
    exception of the model -- of the database, of the files, of the
    conversions -- is caught inside the function that met it. *)
Theorem commands_raise_only_at_end_of_input
    (float_of_string : string -> option Q)
    (pbkdf2_hmac_sha512_hex : string -> string -> string)
    (c : command) (st : state) (e : exn) :
  fst (run float_of_string pbkdf2_hmac_sha512_hex c st) = inl e ->
  e = EOFError
  /\ stdin (snd (run float_of_string pbkdf2_hmac_sha512_hex c st)) = [].
Proof.
  intros H.
  pose proof (eof_only_run float_of_string pbkdf2_hmac_sha512_hex c st) as Hc.
  destruct (run float_of_string pbkdf2_hmac_sha512_hex c st) as [[e' | a] st'];
    cbn [fst snd] in *; [| discriminate H].
  injection H as ->. exact Hc.
Qed.

Lemma commands_raise_only_at_end_of_input_witness :
  fst (run Sample.decimal Sample.toy_kdf (SetBudget 1)
           (Sample.start [] Sample.ledger)) = inl EOFError
  /\ EOFError = EOFError
  /\ stdin (snd (run Sample.decimal Sample.toy_kdf (SetBudget 1)
                     (Sample.start [] Sample.ledger))) = [].
Proof.
  split; [reflexivity |].
  exact (commands_raise_only_at_end_of_input Sample.decimal Sample.toy_kdf
           (SetBudget 1) (Sample.start [] Sample.ledger) EOFError eq_refl).
Defined.

Lemma try_any_print_returns (body : M unit) (l : line) (st : state) :
  fst (try_except body any_exception (fun _ => print l) st) = inr tt.
Proof.
  unfold try_except, any_exception, print.
  destruct (body st) as [[e | []] st']; reflexivity.
Qed.

(** X29.  [view_transactions], [check_budget], [generate_reports],
    [backup_data] and [restore_data] never raise: each returns normally from
    every state, also when the input ends while it is reading, because all
    it does after its heading stands under its [try]. *)
Theorem reporting_and_backup_commands_never_raise
    (now : Query.date) (user_id : Z) (timestamp : string) (st : state) :
  fst (view_transactions user_id st) = inr tt
  /\ fst (check_budget now user_id st) = inr tt
  /\ fst (generate_reports user_id st) = inr tt
  /\ fst (backup_data timestamp st) = inr tt
  /\ fst (restore_data st) = inr tt.
Proof.
  split; [| split; [| split; [| split]]].
  - unfold view_transactions, bind at 1. cbn [print]. apply try_any_print_returns.
  - unfold check_budget, bind at 1. cbn [print]. apply try_any_print_returns.
  - unfold generate_reports, bind at 1. cbn [print]. apply try_any_print_returns.
  - unfold backup_data. apply try_any_print_returns.
  - unfold restore_data. apply try_any_print_returns.
Qed.

(** ** Deleting and listing *)

Lemma delete_transaction_confirmed (user_id : Z) (st : state)
    (typed_id confirm : string) (rest : list string) (id : Z) :
  stdin st = typed_id :: confirm :: rest ->
  PyStr.int_of_string typed_id = Some id ->
  fits_int64 id = true ->
  PyStr.lower confirm = "y" ->
  db_file (snd (delete_transaction user_id st))
  = if 0 <? List.length (filter (Table.owned id user_id)
                                (transactions (db_file st)))
    then fst (Table.delete_transaction id user_id (db_file st))
    else db_file st.
Proof.
  intros Hin Hid Hfits Hconfirm.
  rewrite (delete_transaction_bound user_id st typed_id confirm rest id
             Hin Hid Hconfirm Hfits).
  destruct (0 <? _); reflexivity.
Qed.

(** X30.  In a database whose ids are values of SQLite's INTEGER, a
    confirmed [delete_transaction] removes the user's transaction with the
    id typed, whatever integer that is, and nothing else: the transactions
    stored afterwards are those stored before except the ones with this id
    and this owner, the
    users and the budgets are what they were, and the listing that
    [view_transactions] prints for the user afterwards has no line with
    this id. *)
Theorem delete_transaction_removes_only_that_row
    (user_id : Z) (st : state) (typed_id confirm : string)
    (rest : list string) (id : Z) :
  stdin st = typed_id :: confirm :: rest ->
  PyStr.int_of_string typed_id = Some id ->
  ids_fit (db_file st) ->
  PyStr.lower confirm = "y" ->
  let after := snd (delete_transaction user_id st) in
  (forall t,
      In t (transactions (db_file after))
      <-> In t (transactions (db_file st))
          /\ ~ (t_id t = id /\ t_user_id t = user_id))
  /\ users (db_file after) = users (db_file st)
  /\ budgets (db_file after) = budgets (db_file st)
  /\ (forall t,
         In (transaction_line t) (output_of (view_transactions user_id) after) ->
         t_id t <> id).
Proof.
  intros Hin Hid Hids Hconfirm after.
  assert (Hdb : db_file after
                = if 0 <? List.length (filter (Table.owned id user_id)
                                              (transactions (db_file st)))
                  then fst (Table.delete_transaction id user_id (db_file st))
                  else db_file st).
  { destruct (fits_int64 id) eqn:Hfits.
    - exact (delete_transaction_confirmed user_id st typed_id confirm rest id
               Hin Hid Hfits Hconfirm).
    - subst after.
      rewrite (delete_transaction_unbound user_id st typed_id confirm rest id
                 Hin Hid Hconfirm Hfits).
      rewrite (unbound_id_owns_nothing id user_id _ Hids Hfits).
      reflexivity. }
  assert (Hrows : forall t,
             In t (transactions (db_file after))
             <-> In t (transactions (db_file st))
                 /\ ~ (t_id t = id /\ t_user_id t = user_id)).
  { intros t. rewrite Hdb.
    destruct (0 <? _) eqn:E.
    - unfold Table.delete_transaction. cbn [fst transactions].
      rewrite filter_In, negb_true_iff, <- owned_spec.
      destruct (Table.owned id user_id t); split; intros [H1 H2];
        split; try assumption; try discriminate; try congruence.
    - apply Nat.ltb_ge in E.
      split; [| intros [H _]; exact H].
      intros H. split; [exact H |]. intros Hown. apply owned_spec in Hown.
      pose proof (filter_some_length _ _ t H Hown). lia. }
  split; [exact Hrows |].
  split; [rewrite Hdb; destruct (0 <? _); reflexivity |].
  split; [rewrite Hdb; destruct (0 <? _); reflexivity |].
  intros t Ht. rewrite view_transactions_printed in Ht.
  unfold view_lines in Ht. destruct Ht as [Ht | Ht]; [discriminate Ht |].
  assert (Hex : exists t', In t' (Table.select_transactions_of user_id
                                     (db_file after))
                           /\ transaction_line t' = transaction_line t).
  { destruct (Table.select_transactions_of user_id (db_file after))
      as [| r rows].
    - destruct Ht as [Ht | []]. discriminate Ht.
    - apply in_map_iff in Ht. destruct Ht as (t' & E & Hin').
      exists t'. split; [exact Hin' | exact E]. }
  destruct Hex as (t' & Hin' & E).
  apply in_select_transactions_of in Hin'. destruct Hin' as [Hin' Hu].
  apply Hrows in Hin'. destruct Hin' as [_ Hnot].
  unfold transaction_line in E. injection E as Eid _ _ _ _ _.
  intros Heq. apply Hnot. split; [congruence | exact Hu].
Qed.

Lemma delete_transaction_removes_only_that_row_witness :
  let st := Sample.start ["1"; "Y"] Sample.ledger in
  let after := snd (delete_transaction 1 st) in
  (PyStr.int_of_string "1" = Some 1%Z /\ ids_fit (db_file st)
   /\ PyStr.lower "Y" = "y")
  /\ (forall t,
         In t (transactions (db_file after))
         <-> In t (transactions (db_file st))
             /\ ~ (t_id t = 1%Z /\ t_user_id t = 1%Z)).
Proof.
  intros st after.
  assert (Hids : ids_fit (db_file st))
    by (repeat (apply Forall_cons || apply Forall_nil); reflexivity).
  split; [exact (conj eq_refl (conj Hids eq_refl)) |].
  exact (proj1 (delete_transaction_removes_only_that_row 1 st "1" "Y" [] 1%Z
                  eq_refl eq_refl Hids eq_refl)).
Defined.
